(** * Bunyan_AI: review scheduling and flashcard personalization

    A shallow embedding of
      - [SmartReviewScheduler]   (src/core/analytics_dashboard.py),
      - [LearningAnalytics]      (src/core/analytics_dashboard.py) and
      - [FlashcardPersonalizer]  (src/core/personalization.py)
    together with the properties of these classes.

    Modelling conventions.
      - A Python value is a [pyval]; a dictionary read by the code is a
        [gmap string pyval]; a dictionary whose iteration order the code
        depends on is an association list in insertion order.
      - A Python [float] is the rational [Q] it denotes, and there is no
        NaN; comparisons are exact.  A Python [int] is a [Z].
      - numpy reduces in float64: what [np.mean], [np.median] and
        [np.polyfit] return is an input of the functions that call them.
      - A raised exception is the [Raise] outcome of [result].
      - The clock ([datetime.now()]), the random draws ([np.random.randint],
        [random.shuffle]) and the standard library's ISO-8601 parser and
        printers are inputs of the functions that use them.
      - Card dictionaries and card lists are objects of a store, addressed
        by location, so that copying, in-place update and in-place sorting
        are visible. *)

From Stdlib Require Import ZArith QArith Qminmax Lqa String Ascii List Lia Permutation.
From stdpp Require Import gmap strings list fin_maps sorting pretty.

Set Warnings "-register-all,-clear-no-such-hyp".
Local Open Scope Z_scope.

(** ** A fragment of the Python runtime *)

Module Py.

Inductive exn := TypeError | ValueError | KeyError | IndexError | AttributeError.

Inductive result (A : Type) : Type :=
| Ok (a : A)
| Raise (e : exn).
Arguments Ok {A} a.
Arguments Raise {A} e.

#[export] Instance result_ret : MRet result := fun A a => Ok a.
#[export] Instance result_bind : MBind result := fun A B f m =>
  match m with
  | Ok a => f a
  | Raise e => Raise e
  end.

Definition is_ok {A} (r : result A) : bool :=
  match r with Ok _ => true | Raise _ => false end.

(** Code that updates objects in place: the state is threaded through, and
    an exception leaves the state as it was when it was raised. *)
Definition stateful (S A : Type) : Type := S → result A * S.

#[export] Instance stateful_ret {S} : MRet (stateful S) := fun A a s => (Ok a, s).
#[export] Instance stateful_bind {S} : MBind (stateful S) := fun A B f m s =>
  match m s with
  | (Ok a, s') => f a s'
  | (Raise e, s') => (Raise e, s')
  end.

Definition raise {S A} (e : exn) : stateful S A := fun s => (Raise e, s).

Definition lift {S A} (r : result A) : stateful S A := fun s => (r, s).

(** The two enumerations of personalization.py. *)
Inductive StudyMode :=
| BASIC_EDUCATIONAL | EXAM_PREP | CHALLENGE | FAST_REVIEW | SPACED_REPETITION.

Inductive CardStyle :=
| DEFINITION_BASED | MULTIPLE_CHOICE | CLOZE_DELETION | REVERSE_QUESTIONING
| SCENARIO_BASED.

Inductive enum_member :=
| EMode (m : StudyMode)
| EStyle (s : CardStyle).

#[export] Instance StudyMode_eq_dec : EqDecision StudyMode.
Proof. solve_decision. Defined.
#[export] Instance CardStyle_eq_dec : EqDecision CardStyle.
Proof. solve_decision. Defined.
#[export] Instance enum_member_eq_dec : EqDecision enum_member.
Proof. solve_decision. Defined.

(** Values.  [PList] and [PDict] are the containers found under the keys of
    the dictionaries the code reads. *)
Inductive pyval :=
| PNone
| PBool (b : bool)
| PInt (z : Z)
| PFloat (q : Q)
| PStr (s : string)
| PEnum (e : enum_member)
| PList (l : list pyval)
| PDict (d : gmap string pyval).

(** [bool(v)] *)
Definition truthy (v : pyval) : bool :=
  match v with
  | PNone => false
  | PBool b => b
  | PInt z => negb (z =? 0)
  | PFloat q => negb (Qeq_bool q 0)
  | PStr s => negb (String.eqb s "")
  | PEnum _ => true
  | PList l => negb (Nat.eqb (length l) 0)
  | PDict d => negb (Nat.eqb (size d) 0)
  end.

(** Numbers: [bool] is a subclass of [int]. *)
Inductive num :=
| NInt (z : Z)
| NFloat (q : Q).

Definition as_num (v : pyval) : option num :=
  match v with
  | PBool b => Some (NInt (if b then 1 else 0))
  | PInt z => Some (NInt z)
  | PFloat q => Some (NFloat q)
  | _ => None
  end.

Definition num_val (n : num) : Q :=
  match n with
  | NInt z => inject_Z z
  | NFloat q => q
  end.

Definition of_num (n : num) : pyval :=
  match n with
  | NInt z => PInt z
  | NFloat q => PFloat q
  end.

Definition num_add (a b : num) : num :=
  match a, b with
  | NInt x, NInt y => NInt (x + y)
  | _, _ => NFloat (num_val a + num_val b)
  end.

Definition num_sub (a b : num) : num :=
  match a, b with
  | NInt x, NInt y => NInt (x - y)
  | _, _ => NFloat (num_val a - num_val b)
  end.

Definition Qltb (x y : Q) : bool := negb (Qle_bool y x).

Definition num_ltb (a b : num) : bool := Qltb (num_val a) (num_val b).
Definition num_leb (a b : num) : bool := Qle_bool (num_val a) (num_val b).

(** [min(a, b)] and [max(a, b)] return their first argument unless the
    second is strictly smaller, respectively strictly larger. *)
Definition py_min (a b : num) : num := if num_ltb b a then b else a.
Definition py_max (a b : num) : num := if num_ltb a b then b else a.

(** [d.get(k, default)] and [d[k]] *)
Definition dict_get (d : gmap string pyval) (k : string) (default : pyval) : pyval :=
  match d !! k with
  | Some v => v
  | None => default
  end.

Definition dict_getitem (d : gmap string pyval) (k : string) : result pyval :=
  match d !! k with
  | Some v => Ok v
  | None => Raise KeyError
  end.

(** [l[i]] for an [int] index: negative indices count from the end. *)
Definition list_getitem {A} (l : list A) (i : Z) : result A :=
  let n := Z.of_nat (length l) in
  let j := if i <? 0 then i + n else i in
  if (0 <=? j) && (j <? n) then
    match l !! Z.to_nat j with
    | Some x => Ok x
    | None => Raise IndexError
    end
  else Raise IndexError.

(** [l[v]]: a [float] is not an index. *)
Definition list_index {A} (l : list A) (n : num) : result A :=
  match n with
  | NInt i => list_getitem l i
  | NFloat _ => Raise TypeError
  end.

(** [len(v)] *)
Definition py_len (v : pyval) : result Z :=
  match v with
  | PStr s => Ok (Z.of_nat (String.length s))
  | PList l => Ok (Z.of_nat (length l))
  | PDict d => Ok (Z.of_nat (size d))
  | _ => Raise TypeError
  end.

Definition hashable (v : pyval) : bool :=
  match v with
  | PList _ | PDict _ => false
  | _ => true
  end.

(** [a == v] when one of the two is a hashable scalar: numbers compare by
    value across [bool], [int] and [float]; an enumeration member is equal
    to itself only; a container is never equal to a scalar. *)
Definition py_eq (a v : pyval) : bool :=
  match as_num a, as_num v with
  | Some x, Some y => Qeq_bool (num_val x) (num_val y)
  | _, _ =>
    match a, v with
    | PNone, PNone => true
    | PStr s, PStr t => String.eqb s t
    | PEnum e, PEnum f => bool_decide (e = f)
    | _, _ => false
    end
  end.

(** Timestamps.  [dt_us] is the wall-clock reading in microseconds from a
    fixed origin; [dt_offset] is the UTC offset of an aware timestamp. *)
Record datetime := mk_datetime { dt_us : Z; dt_offset : option Z }.

Definition us_per_day : Z := 86400000000.
Definition us_per_hour : Z := 3600000000.

Definition naive (us : Z) : datetime := mk_datetime us None.

Definition dt_hour (d : datetime) : Z := (dt_us d / us_per_hour) mod 24.

(** [d + timedelta(days=n)] *)
Definition dt_add_days (d : datetime) (n : Z) : datetime :=
  mk_datetime (dt_us d + n * us_per_day) (dt_offset d).

(** [a <= b]: mixing naive and aware timestamps raises TypeError. *)
Definition dt_le (a b : datetime) : result bool :=
  match dt_offset a, dt_offset b with
  | None, None => Ok (dt_us a <=? dt_us b)
  | Some oa, Some ob => Ok (dt_us a - oa <=? dt_us b - ob)
  | _, _ => Raise TypeError
  end.

(** [(a - b).days]: [timedelta] normalises so that [days] is the floor. *)
Definition dt_sub_days (a b : datetime) : result Z :=
  match dt_offset a, dt_offset b with
  | None, None => Ok ((dt_us a - dt_us b) / us_per_day)
  | Some oa, Some ob => Ok (((dt_us a - oa) - (dt_us b - ob)) / us_per_day)
  | _, _ => Raise TypeError
  end.

(** [sorted] and [list.sort] are stable: [stable_sort before l] places [x]
    in front of [y] when [before x y] holds, and keeps the input order of
    elements that are equivalent for [before]. *)
Section StableSort.
Context {A : Type} (before : A → A → bool).

Fixpoint sort_insert (x : A) (l : list A) : list A :=
  match l with
  | [] => [x]
  | y :: rest => if before x y then x :: l else y :: sort_insert x rest
  end.

Definition stable_sort (l : list A) : list A := fold_right sort_insert [] l.

End StableSort.

End Py.
Export Py.

(** ** SmartReviewScheduler (analytics_dashboard.py) *)

Module Scheduler.

Record suggestion := mk_suggestion {
  recommended_time : string;
  recommended_duration : Z;
  confidence : Q;
  reasoning : string
}.

(** [self.spaced_repetition_intervals], in days *)
Definition spaced_repetition_intervals : list Z := [1; 3; 7; 14; 30; 90].

(** The branch of [calculate_next_review] that chooses [interval_index]
    from the latest record. *)
Definition next_interval_index (latest_performance : gmap string pyval) : result pyval :=
  match as_num (dict_get latest_performance "accuracy" (PFloat (1 # 2))) with
  | None => Raise TypeError
  | Some accuracy =>
    let stored := dict_get latest_performance "interval_index" (PInt 0) in
    if num_leb (NFloat (9 # 10)) accuracy then
      match as_num stored with
      | None => Raise TypeError
      | Some i =>
        Ok (of_num (py_min (NInt (Z.of_nat (length spaced_repetition_intervals) - 1))
                           (num_add i (NInt 1))))
      end
    else if num_leb (NFloat (7 # 10)) accuracy then
      Ok stored
    else
      match as_num stored with
      | None => Raise TypeError
      | Some i => Ok (of_num (py_max (NInt 0) (num_sub i (NInt 1))))
      end
  end.

(** [self.spaced_repetition_intervals[interval_index]] *)
Definition interval_days (interval_index : pyval) : result Z :=
  match as_num interval_index with
  | None => Raise TypeError
  | Some n => list_index spaced_repetition_intervals n
  end.

(** [now] is the reading of the clock and [randomization] the draw of
    [np.random.randint(-1, 2)]. *)
Definition calculate_next_review (now : datetime) (randomization : Z)
    (performance_history : list (gmap string pyval)) : result datetime :=
  match last performance_history with
  | None => Ok (dt_add_days now 1)
  | Some latest_performance =>
    interval_index ← next_interval_index latest_performance;
    days ← interval_days interval_index;
    let final_interval := Z.max 1 (days + randomization) in
    Ok (dt_add_days now final_interval)
  end.

(** Insertion-ordered [defaultdict(list)]: [tp[hour].append(a)]. *)
Fixpoint bucket_append (tp : list (Z * list pyval)) (hour : Z) (a : pyval)
    : list (Z * list pyval) :=
  match tp with
  | [] => [(hour, [a])]
  | (h, l) :: rest =>
    if h =? hour then (h, l ++ [a]) :: rest
    else (h, l) :: bucket_append rest hour a
  end.

Fixpoint nums_of (l : list pyval) : result (list Q) :=
  match l with
  | [] => Ok []
  | v :: rest =>
    match as_num v with
    | None => Raise TypeError
    | Some n => qs ← nums_of rest; Ok (num_val n :: qs)
    end
  end.

Definition Qsum (l : list Q) : Q := fold_right Qplus 0%Q l.

(** [np.mean] and [np.median] of a non-empty list of numbers.  numpy
    converts the numbers to float64 and reduces them in float64:
    [float_mean qs] and [float_median qs] stand for what it returns for the
    numbers [qs], and are inputs.  A list that holds anything but numbers
    is outside the model and is reported as TypeError. *)
Definition np_mean (float_mean : list Q → Q) (l : list pyval) : result Q :=
  qs ← nums_of l;
  Ok (float_mean qs).

Definition np_median (float_median : list Q → Q) (l : list pyval) : result Q :=
  qs ← nums_of l;
  Ok (float_median qs).

(** The mean and the median without rounding *)
Definition exact_mean (qs : list Q) : Q :=
  (Qsum qs / inject_Z (Z.of_nat (length qs)))%Q.

Definition Qsort (l : list Q) : list Q := stable_sort Qle_bool l.

Definition median_of_sorted (s : list Q) : Q :=
  let n := length s in
  if Nat.even n then
    ((nth (n / 2 - 1) s 0 + nth (n / 2) s 0) / 2)%Q
  else nth (n / 2) s 0%Q.

Definition exact_median (qs : list Q) : Q := median_of_sorted (Qsort qs).

(** [int(x)] truncates towards zero. *)
Definition int_of_float (q : Q) : Z := Z.quot (Qnum q) (Zpos (Qden q)).

(** [f"{z:02d}"] *)
Definition format_02d (z : Z) : string :=
  let s := pretty z in
  if (String.length s <? 2)%nat then ("0" +:+ s) else s.

Section WithParser.

(** [datetime.fromisoformat] on a string; [None] stands for ValueError. *)
Variable fromisoformat : string → option datetime.

(** numpy's float64 mean and median *)
Variable float_mean : list Q → Q.
Variable float_median : list Q → Q.

Definition parse_datetime (v : pyval) : result datetime :=
  match v with
  | PStr s =>
    match fromisoformat s with
    | Some d => Ok d
    | None => Raise ValueError
    end
  | _ => Raise TypeError
  end.

Fixpoint due_loop (current_time : datetime) (all_cards due_cards : list (gmap string pyval))
    : result (list (gmap string pyval)) :=
  match all_cards with
  | [] => Ok due_cards
  | card :: rest =>
    let next_review := dict_get card "next_review" PNone in
    if truthy next_review then
      next_review_time ← parse_datetime next_review;
      b ← dt_le next_review_time current_time;
      due_loop current_time rest (if b : bool then due_cards ++ [card] else due_cards)
    else
      due_loop current_time rest (due_cards ++ [card])
  end.

Definition get_cards_due_for_review (current_time : datetime)
    (all_cards : list (gmap string pyval)) : result (list (gmap string pyval)) :=
  due_loop current_time all_cards [].

(** First loop of [suggest_optimal_study_time]: accuracies by hour. *)
Fixpoint bucket_loop (historical_performance : list (gmap string pyval))
    (time_performance : list (Z * list pyval)) : result (list (Z * list pyval)) :=
  match historical_performance with
  | [] => Ok time_performance
  | session :: rest =>
    date ← dict_getitem session "date";
    d ← parse_datetime date;
    accuracy ← dict_getitem session "accuracy";
    bucket_loop rest (bucket_append time_performance (dt_hour d) accuracy)
  end.

(** Second loop: the best hour so far and its mean accuracy. *)
Fixpoint best_loop (time_performance : list (Z * list pyval))
    (best_hour : Z) (best_accuracy : Q) : result (Z * Q) :=
  match time_performance with
  | [] => Ok (best_hour, best_accuracy)
  | (hour, accuracies) :: rest =>
    avg_accuracy ← np_mean float_mean accuracies;
    if Qltb best_accuracy avg_accuracy then best_loop rest hour avg_accuracy
    else best_loop rest best_hour best_accuracy
  end.

Fixpoint durations_of (historical_performance : list (gmap string pyval))
    : result (list pyval) :=
  match historical_performance with
  | [] => Ok []
  | session :: rest =>
    d ← dict_getitem session "duration";
    ds ← durations_of rest;
    Ok (d :: ds)
  end.

Definition best_hour_of (historical_performance : list (gmap string pyval)) : result Z :=
  time_performance ← bucket_loop historical_performance [];
  best ← best_loop time_performance 9 0%Q;
  Ok (fst best).

Definition suggest_optimal_study_time (historical_performance : list (gmap string pyval))
    : result suggestion :=
  match historical_performance with
  | [] =>
    Ok (mk_suggestion "09:00" 30 (1 # 2) "Default recommendation for new users")
  | _ =>
    best_hour ← best_hour_of historical_performance;
    durations ← durations_of historical_performance;
    median ← np_median float_median durations;
    let n := length historical_performance in
    let ratio := (inject_Z (Z.of_nat n) / 10)%Q in
    Ok (mk_suggestion
          (format_02d best_hour +:+ ":00")
          (int_of_float median)
          (if Qltb ratio (9 # 10) then ratio else (9 # 10))
          ("Based on " +:+ pretty n +:+ " previous sessions"))
  end.

End WithParser.

End Scheduler.

(** ** FlashcardPersonalizer (personalization.py) *)

Module Personalizer.

(** *** The object store *)

Definition loc := positive.

(** A card is a dictionary object; a deck is a list object holding
    references to cards.  The values under the keys of a card are never
    written through by the code (the only nested dictionary it updates,
    ['mode_settings'], is created for the copy that holds it), so they are
    values, not references. *)
Inductive obj :=
| ODict (d : gmap string pyval)
| OList (l : list loc).

Abbreviation St := (stateful (gmap loc obj)).

(** A new object gets a location that is not in use. *)
Definition alloc (o : obj) : St loc := fun h =>
  let l := fresh (dom h) in (Ok l, <[l := o]> h).

Definition read_dict (c : loc) : St (gmap string pyval) := fun h =>
  match h !! c with
  | Some (ODict d) => (Ok d, h)
  | _ => (Raise AttributeError, h)
  end.

Definition read_list (c : loc) : St (list loc) := fun h =>
  match h !! c with
  | Some (OList l) => (Ok l, h)
  | _ => (Raise TypeError, h)
  end.

(** [card[k] = v] *)
Definition write_key (c : loc) (k : string) (v : pyval) : St unit := fun h =>
  match h !! c with
  | Some (ODict d) => (Ok (), <[c := ODict (<[k := v]> d)]> h)
  | _ => (Raise TypeError, h)
  end.

Definition write_list (c : loc) (l : list loc) : St unit := fun h =>
  match h !! c with
  | Some (OList _) => (Ok (), <[c := OList l]> h)
  | _ => (Raise TypeError, h)
  end.

(** [cards.append(x)] *)
Definition list_append (c : loc) (x : loc) : St unit :=
  l ← read_list c;
  write_list c (l ++ [x]).

(** [card.copy()]: a new dictionary with the same keys and values *)
Definition dict_copy (c : loc) : St loc :=
  d ← read_dict c;
  alloc (ODict d).

(** *** Data classes *)

Record StudySession := mk_session {
  session_id : string;
  session_user_id : string;
  mode : StudyMode;
  cards : loc;
  current_card_index : Z;
  start_time : datetime;
  responses : list (gmap string pyval);
  settings : gmap string pyval
}.

Record PersonalizationProfile := mk_profile {
  user_id : string;
  preferred_modes : list StudyMode;
  preferred_styles : list CardStyle;
  difficulty_preference : string;
  study_time_preference : Z;
  performance_history : list (gmap string pyval);
  learning_goals : list string;
  weak_areas : list pyval
}.

Definition set_performance_history (h : list (gmap string pyval))
    (p : PersonalizationProfile) : PersonalizationProfile :=
  mk_profile (user_id p) (preferred_modes p) (preferred_styles p)
    (difficulty_preference p) (study_time_preference p) h
    (learning_goals p) (weak_areas p).

Definition set_weak_areas (w : list pyval)
    (p : PersonalizationProfile) : PersonalizationProfile :=
  mk_profile (user_id p) (preferred_modes p) (preferred_styles p)
    (difficulty_preference p) (study_time_preference p)
    (performance_history p) (learning_goals p) w.

Definition set_preferred_modes (ms : list StudyMode)
    (p : PersonalizationProfile) : PersonalizationProfile :=
  mk_profile (user_id p) ms (preferred_styles p)
    (difficulty_preference p) (study_time_preference p)
    (performance_history p) (learning_goals p) (weak_areas p).

(** The personalizer: [self.user_profiles] and the objects it works on. *)
Record world := mk_world {
  user_profiles : gmap string PersonalizationProfile;
  store : gmap loc obj
}.

(** *** Mode configuration *)

Definition mode_value (m : StudyMode) : string :=
  match m with
  | BASIC_EDUCATIONAL => "basic_educational"
  | EXAM_PREP => "exam_prep"
  | CHALLENGE => "challenge"
  | FAST_REVIEW => "fast_review"
  | SPACED_REPETITION => "spaced_repetition"
  end.

Definition all_modes : list StudyMode :=
  [BASIC_EDUCATIONAL; EXAM_PREP; CHALLENGE; FAST_REVIEW; SPACED_REPETITION].

Definition styles (l : list CardStyle) : pyval := PList ((λ s, PEnum (EStyle s)) <$> l).

Definition mode_configurations (m : StudyMode) : gmap string pyval :=
  match m with
  | BASIC_EDUCATIONAL =>
    <["time_per_card" := PInt 30]> (<["show_hints" := PBool true]> (
    <["allow_retries" := PBool true]> (<["feedback_detail" := PStr "comprehensive"]> (
    <["card_styles" := styles [DEFINITION_BASED; CLOZE_DELETION]]> (
    <["ui_theme" := PStr "clean_minimal"]> ∅)))))
  | EXAM_PREP =>
    <["time_per_card" := PInt 20]> (<["show_hints" := PBool false]> (
    <["allow_retries" := PBool false]> (<["feedback_detail" := PStr "immediate"]> (
    <["card_styles" := styles [MULTIPLE_CHOICE; SCENARIO_BASED]]> (
    <["ui_theme" := PStr "exam_focused"]> (<["include_timer" := PBool true]> (
    <["track_accuracy" := PBool true]> ∅)))))))
  | CHALLENGE =>
    <["time_per_card" := PInt 15]> (<["show_hints" := PBool false]> (
    <["allow_retries" := PBool false]> (<["feedback_detail" := PStr "minimal"]> (
    <["card_styles" := styles [REVERSE_QUESTIONING; CLOZE_DELETION]]> (
    <["ui_theme" := PStr "gamified"]> (<["scoring_system" := PBool true]> (
    <["difficulty_progression" := PBool true]> ∅)))))))
  | FAST_REVIEW =>
    <["time_per_card" := PInt 10]> (<["show_hints" := PBool false]> (
    <["allow_retries" := PBool false]> (<["feedback_detail" := PStr "none"]> (
    <["card_styles" := styles [DEFINITION_BASED]]> (
    <["ui_theme" := PStr "minimalist"]> (<["auto_advance" := PBool true]> ∅))))))
  | SPACED_REPETITION =>
    <["time_per_card" := PInt 25]> (<["show_hints" := PBool true]> (
    <["allow_retries" := PBool true]> (<["feedback_detail" := PStr "adaptive"]> (
    <["card_styles" := styles [DEFINITION_BASED; CLOZE_DELETION]]> (
    <["ui_theme" := PStr "spaced_rep"]> (<["algorithm" := PStr "sm2"]> (
    <["track_intervals" := PBool true]> ∅)))))))
  end.

(** *** Card transformations *)

Section WithRuntime.

(** [random.shuffle] as the permutation it draws, [str] on a value that is
    not a string, and [datetime.fromisoformat] ([None] for ValueError). *)
Variable shuffle : list pyval → list pyval.
Variable str_of : pyval → string.
Variable fromisoformat : string → option datetime.

(** [f"{v}"] *)
Definition py_format (v : pyval) : string :=
  match v with
  | PStr s => s
  | _ => str_of v
  end.

Definition _convert_to_multiple_choice (card : loc) : St loc :=
  d ← read_dict card;
  if py_eq (PStr "multiple_choice") (dict_get d "type" PNone) then mret card
  else
    let correct_answer := dict_get d "back" (PStr "") in
    let distractors :=
      [PStr "Alternative answer 1"; PStr "Alternative answer 2";
       PStr "Alternative answer 3"] in
    let choices := shuffle ([correct_answer] ++ distractors) in
    write_key card "type" (PStr "multiple_choice");;
    write_key card "choices" (PList choices);;
    write_key card "correct_answer" correct_answer;;
    mret card.

Definition _convert_to_reverse_questioning (card : loc) : St loc :=
  d ← read_dict card;
  let original_front := dict_get d "front" (PStr "") in
  let original_back := dict_get d "back" (PStr "") in
  write_key card "front"
    (PStr ("What question would have this answer: " +:+ py_format original_back));;
  write_key card "back" original_front;;
  write_key card "type" (PStr "reverse_questioning");;
  mret card.

(** [card[k] = card[k][:keep] + "..."] when [len(card.get(k, '')) > limit] *)
Definition truncate_field (card : loc) (k : string) (limit : Z) (keep : nat) : St unit :=
  d ← read_dict card;
  n ← lift (py_len (dict_get d k (PStr "")));
  if limit <? n then
    match d !! k with
    | Some (PStr s) => write_key card k (PStr (String.substring 0 keep s +:+ "..."))
    | Some _ => raise TypeError
    | None => raise KeyError
    end
  else mret ().

Definition _simplify_for_fast_review (card : loc) : St loc :=
  truncate_field card "front" 100 97;;
  truncate_field card "back" 150 147;;
  write_key card "simplified" (PBool true);;
  mret card.

(** *** Deck ordering *)

(** Body of the loop of [_apply_spaced_repetition_order] *)
Definition set_priority (now : datetime) (card : loc) : St unit :=
  d ← read_dict card;
  let last_reviewed := dict_get d "last_reviewed" PNone in
  if truthy last_reviewed then
    match last_reviewed with
    | PStr s =>
      match fromisoformat s with
      | Some t =>
        days_since_review ← lift (dt_sub_days now t);
        write_key card "priority" (PInt days_since_review)
      | None => raise ValueError
      end
    | _ => raise TypeError
    end
  else write_key card "priority" (PInt 999).

Fixpoint for_each (body : loc → St unit) (l : list loc) : St unit :=
  match l with
  | [] => mret ()
  | c :: rest => body c;; for_each body rest
  end.

(** The keys of a sort are computed once, before any comparison. *)
Fixpoint sort_keys (key : gmap string pyval → result Q) (l : list loc)
    : St (list (Q * loc)) :=
  match l with
  | [] => mret []
  | c :: rest =>
    d ← read_dict c;
    k ← lift (key d);
    ks ← sort_keys key rest;
    mret ((k, c) :: ks)
  end.

Definition key_number (v : pyval) : result Q :=
  match as_num v with
  | Some n => Ok (num_val n)
  | None => Raise TypeError
  end.

(** [cards.sort(key=..., reverse=True)] *)
Definition sort_descending (key : gmap string pyval → result Q) (cards : loc) : St unit :=
  l ← read_list cards;
  ks ← sort_keys key l;
  write_list cards (snd <$> stable_sort (λ x y, Qle_bool (fst y) (fst x)) ks).

(** [cards.sort(key=...)] *)
Definition sort_ascending (key : gmap string pyval → result Q) (cards : loc) : St unit :=
  l ← read_list cards;
  ks ← sort_keys key l;
  write_list cards (snd <$> stable_sort (λ x y, Qle_bool (fst x) (fst y)) ks).

Definition priority_key (d : gmap string pyval) : result Q :=
  key_number (dict_get d "priority" (PInt 0)).

Definition _apply_spaced_repetition_order (now : datetime) (cards : loc) : St loc :=
  l ← read_list cards;
  for_each (set_priority now) l;;
  sort_descending priority_key cards;;
  mret cards.

(** [difficulty_order.get(x.get('difficulty', 'medium'), 2)] *)
Definition difficulty_key (d : gmap string pyval) : result Q :=
  let v := dict_get d "difficulty" (PStr "medium") in
  if hashable v then
    Ok (if py_eq (PStr "easy") v then 1
        else if py_eq (PStr "medium") v then 2
        else if py_eq (PStr "hard") v then 3
        else 2)%Q
  else Raise TypeError.

Definition _apply_difficulty_progression (cards : loc) : St loc :=
  sort_ascending difficulty_key cards;;
  mret cards.

(** *** Personalizing a deck *)

(** [area in v] *)
Definition py_contains (v : pyval) (area : pyval) : result bool :=
  match v with
  | PList l => Ok (existsb (py_eq area) l)
  | PStr s =>
    match area with
    | PStr t => Ok (bool_decide (is_Some (String.index 0 t s)))
    | _ => Raise TypeError
    end
  | PDict d =>
    match area with
    | PStr k => Ok (bool_decide (is_Some (d !! k)))
    | _ => Ok false
    end
  | _ => Raise TypeError
  end.

(** [any(area in tags for area in areas)] *)
Fixpoint any_area_in (tags : pyval) (areas : list pyval) : result bool :=
  match areas with
  | [] => Ok false
  | area :: rest =>
    b ← py_contains tags area;
    if b : bool then Ok true else any_area_in tags rest
  end.

Definition mode_settings (mode_config : gmap string pyval) : gmap string pyval :=
  <["time_limit" := dict_get mode_config "time_per_card" (PInt 30)]> (
  <["show_hints" := dict_get mode_config "show_hints" (PBool true)]> (
  <["allow_retries" := dict_get mode_config "allow_retries" (PBool true)]> (
  <["feedback_detail" := dict_get mode_config "feedback_detail" (PStr "comprehensive")]> ∅))).

(** The weak-area adjustment of a personalized card:
    [time_limit += 10] and [show_hints = True] in its ['mode_settings']. *)
Definition adjust_for_weak_area (personalized_card : loc) : St unit :=
  write_key personalized_card "adjusted_difficulty" (PStr "easier");;
  d ← read_dict personalized_card;
  match d !! "mode_settings" with
  | Some (PDict ms) =>
    match ms !! "time_limit" with
    | Some v =>
      match as_num v with
      | Some n =>
        let ms1 := <["time_limit" := of_num (num_add n (NInt 10))]> ms in
        let ms2 := <["show_hints" := PBool true]> ms1 in
        write_key personalized_card "mode_settings" (PDict ms2)
      | None => raise TypeError
      end
    | None => raise KeyError
    end
  | Some _ => raise TypeError
  | None => raise KeyError
  end.

(** Body of the loop of [_personalize_cards] *)
Definition personalize_card (mode : StudyMode) (profile : PersonalizationProfile)
    (personalized_cards : loc) (card : loc) : St unit :=
  personalized_card ← dict_copy card;
  personalized_card ←
    match mode with
    | EXAM_PREP => _convert_to_multiple_choice personalized_card
    | CHALLENGE => _convert_to_reverse_questioning personalized_card
    | FAST_REVIEW => _simplify_for_fast_review personalized_card
    | _ => mret personalized_card
    end;
  write_key personalized_card "mode_settings"
    (PDict (mode_settings (mode_configurations mode)));;
  d ← read_dict card;
  weak ← (match weak_areas profile with
          | [] => mret false
          | areas => lift (any_area_in (dict_get d "tags" (PList [])) areas)
          end);
  (if weak : bool then adjust_for_weak_area personalized_card else mret ());;
  list_append personalized_cards personalized_card.

Definition _personalize_cards (now : datetime) (cards : loc) (mode : StudyMode)
    (profile : PersonalizationProfile) : St loc :=
  personalized_cards ← alloc (OList []);
  l ← read_list cards;
  for_each (personalize_card mode profile personalized_cards) l;;
  match mode with
  | SPACED_REPETITION => _apply_spaced_repetition_order now personalized_cards
  | CHALLENGE => _apply_difficulty_progression personalized_cards
  | _ => mret personalized_cards
  end.

(** *** Profiles and sessions *)

Definition default_profile (user : string) : PersonalizationProfile :=
  mk_profile user [BASIC_EDUCATIONAL] [DEFINITION_BASED] "medium" 30 [] [] [].

Definition get_user_profile (user : string)
    (profiles : gmap string PersonalizationProfile)
    : PersonalizationProfile * gmap string PersonalizationProfile :=
  match profiles !! user with
  | Some p => (p, profiles)
  | None => (default_profile user, <[user := default_profile user]> profiles)
  end.

(** [now] is the reading of the clock and [stamp] the printed
    [datetime.now().timestamp()]. *)
Definition create_personalized_session (now : datetime) (stamp : string)
    (user : string) (cards : loc) (mode : option StudyMode) (w : world)
    : result StudySession * world :=
  let (profile, profiles) := get_user_profile user (user_profiles w) in
  let mode :=
    match mode with
    | Some m => m
    | None => match preferred_modes profile with m :: _ => m | [] => BASIC_EDUCATIONAL end
    end in
  match _personalize_cards now cards mode profile (store w) with
  | (Ok personalized_cards, h) =>
    (Ok (mk_session ("session_" +:+ user +:+ "_" +:+ stamp) user mode
           personalized_cards 0 now [] (mode_configurations mode)),
     mk_world profiles h)
  | (Raise e, h) => (Raise e, mk_world profiles h)
  end.

End WithRuntime.

(** *** Updating a profile *)

Abbreviation Pm := (stateful (gmap string PersonalizationProfile)).

(** [profile = self.get_user_profile(user)]: the profile is created when
    absent; afterwards it is read and updated through [user_profiles]. *)
Definition ensure_profile (user : string) : Pm unit := fun profiles =>
  (Ok (), snd (get_user_profile user profiles)).

Definition read_profile (user : string) : Pm PersonalizationProfile := fun profiles =>
  (Ok (fst (get_user_profile user profiles)), profiles).

Definition modify_profile (user : string)
    (f : PersonalizationProfile → PersonalizationProfile) : Pm unit := fun profiles =>
  (Ok (), alter f user profiles).

(** Iterating a value: a list yields its elements, a string its characters
    and a dictionary its keys (their order is not modelled). *)
Definition py_iter (v : pyval) : result (list pyval) :=
  match v with
  | PList l => Ok l
  | PStr s => Ok ((λ c, PStr (String c EmptyString)) <$> list_ascii_of_string s)
  | PDict d => Ok ((λ kv, PStr (fst kv)) <$> map_to_list d)
  | _ => Raise TypeError
  end.

(** [sum(1 for r in responses if r.get('correct', False))] *)
Fixpoint count_correct (responses : list pyval) : result Z :=
  match responses with
  | [] => Ok 0
  | PDict r :: rest =>
    n ← count_correct rest;
    Ok ((if truthy (dict_get r "correct" (PBool false)) then 1 else 0) + n)
  | _ :: _ => Raise AttributeError
  end.

(** The loop that gathers the tags of the cards answered incorrectly *)
Fixpoint collect_weak_topics (responses : list pyval) (weak_topics : list pyval)
    : result (list pyval) :=
  match responses with
  | [] => Ok weak_topics
  | PDict response :: rest =>
    if truthy (dict_get response "correct" (PBool false)) then
      collect_weak_topics rest weak_topics
    else
      match dict_get response "card" (PDict ∅) with
      | PDict card =>
        card_tags ← py_iter (dict_get card "tags" (PList []));
        collect_weak_topics rest (weak_topics ++ card_tags)
      | _ => Raise AttributeError
      end
  | _ :: _ => Raise AttributeError
  end.

(** [collections.Counter]: counts in order of first occurrence *)
Fixpoint counter_add (counts : list (pyval * nat)) (k : pyval) : list (pyval * nat) :=
  match counts with
  | [] => [(k, 1%nat)]
  | (k', n) :: rest =>
    if py_eq k' k then (k', S n) :: rest
    else (k', n) :: counter_add rest k
  end.

Fixpoint Counter (l : list pyval) (counts : list (pyval * nat))
    : result (list (pyval * nat)) :=
  match l with
  | [] => Ok counts
  | k :: rest =>
    if hashable k then Counter rest (counter_add counts k)
    else Raise TypeError
  end.

(** [counts.most_common(n)]: the [n] largest counts, equal counts in order
    of first occurrence *)
Definition most_common (n : nat) (counts : list (pyval * nat)) : list (pyval * nat) :=
  take n (stable_sort (λ x y, (snd y <=? snd x)%nat) counts).

(** [StudyMode(v)]: a member is returned as it is, a string is looked up
    among the values of the members, anything else is a ValueError. *)
Definition StudyMode_of (v : pyval) : result StudyMode :=
  match v with
  | PEnum (EMode m) => Ok m
  | PStr s =>
    match find (λ m, String.eqb (mode_value m) s) all_modes with
    | Some m => Ok m
    | None => Raise ValueError
    end
  | _ => Raise ValueError
  end.

(** [v in preferred_modes] *)
Definition mode_in (v : pyval) (preferred : list StudyMode) : bool :=
  existsb (λ m, py_eq (PEnum (EMode m)) v) preferred.

(** [correct_responses / total_cards if total_cards > 0 else 0] *)
Definition session_accuracy (correct_responses total_cards : Z) : num :=
  if 0 <? total_cards then NFloat (inject_Z correct_responses / inject_Z total_cards)%Q
  else NInt 0.

(** [now_iso] is the printed clock reading [datetime.now().isoformat()]. *)
Definition update_user_profile (now_iso : string) (user : string)
    (session_data : gmap string pyval) : Pm unit :=
  ensure_profile user;;
  let responses := dict_get session_data "responses" (PList []) in
  total_cards ← lift (py_len responses);
  items ← lift (py_iter responses);
  correct_responses ← lift (count_correct items);
  let accuracy := session_accuracy correct_responses total_cards in
  let performance_entry : gmap string pyval :=
    <["date" := PStr now_iso]> (
    <["mode" := dict_get session_data "mode" PNone]> (
    <["accuracy" := of_num accuracy]> (
    <["total_cards" := PInt total_cards]> (
    <["study_time" := dict_get session_data "study_time" (PInt 0)]> ∅)))) in
  modify_profile user
    (λ p, set_performance_history (performance_history p ++ [performance_entry]) p);;
  weak_topics ← lift (collect_weak_topics items []);
  weak_area_counts ← lift (Counter weak_topics []);
  modify_profile user (set_weak_areas (fst <$> most_common 5 weak_area_counts));;
  (if num_ltb (NFloat (8 # 10)) accuracy then
     profile ← read_profile user;
     let m := dict_get session_data "mode" PNone in
     if mode_in m (preferred_modes profile) then mret ()
     else
       new_mode ← lift (StudyMode_of m);
       modify_profile user (λ p, set_preferred_modes (preferred_modes p ++ [new_mode]) p)
   else mret ());;
  modify_profile user
    (λ p, set_performance_history
            (drop (length (performance_history p) - 30) (performance_history p)) p).

End Personalizer.

(** ** Reference definitions

    Definitions that follow the wording of the specification; the theorems
    compare them with the definitions taken from the code. *)

Module Reference.

Section WithParser.
Variable fromisoformat : string → option datetime.
Variable float_mean : list Q → Q.

(** A card is due when it has no recorded next-review timestamp, or when
    that timestamp is at or before the current time. *)
Definition due (current_time : datetime) (card : gmap string pyval) : bool :=
  match card !! "next_review" with
  | Some (PStr s) =>
    match fromisoformat s with
    | Some t => dt_us t <=? dt_us current_time
    | None => false
    end
  | _ => true
  end.

(** The next-review field of a card is absent, [None], or a non-empty
    string that reads as a naive timestamp. *)
Definition next_review_well_formed (card : gmap string pyval) : Prop :=
  match card !! "next_review" with
  | None | Some PNone => True
  | Some (PStr s) => s ≠ "" ∧ ∃ t, fromisoformat s = Some t ∧ dt_offset t = None
  | Some _ => False
  end.


(** The hour of a session, and a numeric field of a session. *)
Definition session_hour (session : gmap string pyval) : option Z :=
  match session !! "date" with
  | Some (PStr s) => dt_hour <$> fromisoformat s
  | _ => None
  end.

Definition number_at (k : string) (session : gmap string pyval) : option Q :=
  match session !! k with
  | Some v => num_val <$> as_num v
  | None => None
  end.

(** A session carries a date that reads as a timestamp, a numeric accuracy
    and a numeric duration. *)
Definition session_well_formed (session : gmap string pyval) : Prop :=
  is_Some (session_hour session)
  ∧ is_Some (number_at "accuracy" session)
  ∧ is_Some (number_at "duration" session).

(** The accuracies of the sessions held at hour [h], and their mean as
    numpy computes it. *)
Definition accuracies_at (h : Z) (history : list (gmap string pyval)) : list Q :=
  omap (λ session,
          if decide (session_hour session = Some h)
          then number_at "accuracy" session else None) history.

Definition mean_accuracy_at (h : Z) (history : list (gmap string pyval)) : Q :=
  float_mean (accuracies_at h history).

(** The distinct elements of a list, in order of first occurrence. *)
Fixpoint first_occurrences (l : list Z) : list Z :=
  match l with
  | [] => []
  | h :: rest => h :: List.filter (λ x, negb (x =? h)) (first_occurrences rest)
  end.

Definition hours_in_order (history : list (gmap string pyval)) : list Z :=
  first_occurrences (omap session_hour history).

Definition durations (history : list (gmap string pyval)) : list Q :=
  omap (number_at "duration") history.

(** The median: the middle element of the sorted list, or the mean of the
    two middle elements. *)
Definition median (l : list Q) : Q := Scheduler.median_of_sorted (Scheduler.Qsort l).

(** The last-review field of a card is absent, [None], or a non-empty
    string that reads as a naive timestamp. *)
Definition last_reviewed_well_formed (card : gmap string pyval) : Prop :=
  match card !! "last_reviewed" with
  | None | Some PNone => True
  | Some (PStr s) => s ≠ "" ∧ ∃ t, fromisoformat s = Some t ∧ dt_offset t = None
  | Some _ => False
  end.

(** A card has never been reviewed, or was last reviewed [n] whole days
    before [now]. *)
Definition never_reviewed (card : gmap string pyval) : Prop :=
  card !! "last_reviewed" = None ∨ card !! "last_reviewed" = Some PNone.

Definition reviewed_days_ago (now : datetime) (card : gmap string pyval) (n : Z) : Prop :=
  ∃ s t, card !! "last_reviewed" = Some (PStr s) ∧ fromisoformat s = Some t
         ∧ n = (dt_us now - dt_us t) / us_per_day.

(** The priority of a card in a spaced-repetition deck: the days since its
    last review, and 999 when it has never been reviewed. *)
Definition priority (now : datetime) (card : gmap string pyval) : Z :=
  match card !! "last_reviewed" with
  | Some (PStr s) =>
    match fromisoformat s with
    | Some t => (dt_us now - dt_us t) / us_per_day
    | None => 999
    end
  | _ => 999
  end.

Definition card_priority (now : datetime)
    (h : gmap Personalizer.loc Personalizer.obj) (c : Personalizer.loc) : Z :=
  match h !! c with
  | Some (Personalizer.ODict d) => priority now d
  | _ => 0
  end.

(** A card object with its priority recorded. *)
Definition with_priority (now : datetime) (o : Personalizer.obj) : Personalizer.obj :=
  match o with
  | Personalizer.ODict d => Personalizer.ODict (<["priority" := PInt (priority now d)]> d)
  | Personalizer.OList l => Personalizer.OList l
  end.

End WithParser.

(** The responses of a session: the list under ['responses'], empty when
    the key is absent. *)
Definition session_responses (session_data : gmap string pyval) : option (list pyval) :=
  match session_data !! "responses" with
  | None => Some []
  | Some (PList items) => Some items
  | Some _ => None
  end.

Definition tag_name (v : pyval) : option string :=
  match v with
  | PStr s => Some s
  | _ => None
  end.

(** The tags that a response contributes to the weak topics: none when it
    is correct, the tags of its card otherwise.  [None] marks a response
    that does not have this shape. *)
Definition response_tag_names (response : pyval) : option (list string) :=
  match response with
  | PDict r =>
    if truthy (dict_get r "correct" (PBool false)) then Some []
    else
      match dict_get r "card" (PDict ∅) with
      | PDict card =>
        match dict_get card "tags" (PList []) with
        | PList tags => mapM tag_name tags
        | _ => None
        end
      | _ => None
      end
  | _ => None
  end.

Definition incorrect_tag_names (items : list pyval) : option (list string) :=
  (@List.concat string) <$> mapM response_tag_names items.

Definition occurrences (t : string) (names : list string) : nat :=
  length (List.filter (String.eqb t) names).

(** [top] lists the [n] most frequent of [names]: distinct names, as many
    as there are up to [n], each at least as frequent as every name left
    out, in order of decreasing frequency. *)
Definition most_frequent (n : nat) (names top : list string) : Prop :=
  NoDup top
  ∧ (∀ t, t ∈ top → t ∈ names)
  ∧ length top = Nat.min n (length (remove_dups names))
  ∧ (∀ t u, t ∈ top → u ∈ names → u ∉ top →
       (occurrences u names ≤ occurrences t names)%nat)
  ∧ StronglySorted (λ t u, (occurrences u names ≤ occurrences t names)%nat) top.

(** The text under key [k] of a card is a string, when present. *)
Definition text_or_absent (card : gmap string pyval) (k : string) : Prop :=
  match card !! k with
  | None | Some (PStr _) => True
  | Some _ => False
  end.

End Reference.

(** ** An ISO-8601 reader for running the definitions

    [fromisoformat] below reads the form [YYYY-MM-DDTHH:MM:SS], which is
    what [isoformat()] prints for a naive timestamp without microseconds,
    and rejects every other string.  The theorems are stated for an
    arbitrary reader; this one instantiates them on concrete inputs. *)

Module Iso.

Definition digit (c : ascii) : option Z :=
  let n := Z.of_nat (nat_of_ascii c) in
  if (48 <=? n) && (n <=? 57) then Some (n - 48) else None.

Fixpoint digits (l : list ascii) (acc : Z) : option Z :=
  match l with
  | [] => Some acc
  | c :: rest =>
    match digit c with
    | Some d => digits rest (10 * acc + d)
    | None => None
    end
  end.

Definition is_leap (y : Z) : bool :=
  ((y mod 4 =? 0) && negb (y mod 100 =? 0)) || (y mod 400 =? 0).

Definition days_in_month (y m : Z) : Z :=
  if m =? 2 then (if is_leap y then 29 else 28)
  else if (m =? 4) || (m =? 6) || (m =? 9) || (m =? 11) then 30
  else 31.

(** Days from 1970-01-01 to the given date of the proleptic Gregorian
    calendar. *)
Definition days_from_civil (y m d : Z) : Z :=
  let y' := if m <=? 2 then y - 1 else y in
  let era := y' / 400 in
  let yoe := y' - era * 400 in
  let doy := (153 * (if 2 <? m then m - 3 else m + 9) + 2) / 5 + d - 1 in
  let doe := yoe * 365 + yoe / 4 - yoe / 100 + doy in
  era * 146097 + doe - 719468.

Definition fromisoformat (s : string) : option datetime :=
  match list_ascii_of_string s with
  | [y1; y2; y3; y4; s1; m1; m2; s2; d1; d2; t; h1; h2; s3; n1; n2; s4; c1; c2] =>
    if (Ascii.eqb s1 "-" && Ascii.eqb s2 "-" && Ascii.eqb t "T"
        && Ascii.eqb s3 ":" && Ascii.eqb s4 ":")%bool then
      match digits [y1; y2; y3; y4] 0, digits [m1; m2] 0, digits [d1; d2] 0,
            digits [h1; h2] 0, digits [n1; n2] 0, digits [c1; c2] 0 with
      | Some y, Some m, Some d, Some hh, Some mm, Some ss =>
        if (1 <=? y) && (1 <=? m) && (m <=? 12) && (1 <=? d)
           && (d <=? days_in_month y m) && (hh <? 24) && (mm <? 60) && (ss <? 60) then
          Some (naive ((((days_from_civil y m d * 24 + hh) * 60 + mm) * 60 + ss) * 1000000))
        else None
      | _, _, _, _, _, _ => None
      end
    else None
  | _ => None
  end.

End Iso.

(** ** LearningAnalytics (analytics_dashboard.py) *)

Module Analytics.

(** The dataclasses.  Their fields are not checked when an object is
    built, so that any value can be stored; [date] is what
    [datetime.fromisoformat] returned. *)
Record SessionAnalytics := mk_session_analytics {
  session_id : pyval;
  date : datetime;
  duration : pyval;
  cards_reviewed : pyval;
  accuracy : pyval;
  mode : pyval;
  topics_covered : pyval;
  difficulty_distribution : pyval
}.


(** An entry of [topic_performance[user_id][topic]] *)
Record performance := mk_performance {
  perf_date : datetime;
  perf_accuracy : pyval;
  perf_cards_count : pyval
}.

(** [self.session_data] and [self.topic_performance].  Both are
    [defaultdict]s: reading a missing key creates it.  The topics of a
    user are kept in the order in which they were first used, which is the
    order in which [items()] yields them. *)
Record analytics := mk_analytics {
  session_data : gmap string (list SessionAnalytics);
  topic_performance : gmap string (list (pyval * list performance))
}.

Abbreviation An := (stateful analytics).


(** [self.topic_performance[user_id]] *)
Definition topics_of (user_id : string) : An (list (pyval * list performance)) := fun a =>
  match topic_performance a !! user_id with
  | Some t => (Ok t, a)
  | None => (Ok [], mk_analytics (session_data a) (<[user_id := []]> (topic_performance a)))
  end.

(** [self.session_data[user_id].append(s)] *)
Definition append_session (user_id : string) (s : SessionAnalytics) : An unit := fun a =>
  (Ok (), mk_analytics
            (<[user_id := default [] (session_data a !! user_id) ++ [s]]> (session_data a))
            (topic_performance a)).

(** [topics[topic]] on the inner [defaultdict]: the topic is added at the
    end, with an empty list, when it is not a key yet. *)
Fixpoint topic_touch (topics : list (pyval * list performance)) (topic : pyval)
    : list (pyval * list performance) :=
  match topics with
  | [] => [(topic, [])]
  | (t, ps) :: rest =>
    if py_eq t topic then topics else (t, ps) :: topic_touch rest topic
  end.

(** [topics[topic].append(p)] for a topic that is a key *)
Fixpoint topic_append (topics : list (pyval * list performance)) (topic : pyval)
    (p : performance) : list (pyval * list performance) :=
  match topics with
  | [] => []
  | (t, ps) :: rest =>
    if py_eq t topic then (t, ps ++ [p]) :: rest
    else (t, ps) :: topic_append rest topic p
  end.

Definition set_topics (user_id : string) (topics : list (pyval * list performance))
    : An unit := fun a =>
  (Ok (), mk_analytics (session_data a) (<[user_id := topics]> (topic_performance a))).

(** [v.get(k, default)] *)
Definition py_get (v k default : pyval) : result pyval :=
  match v with
  | PDict d =>
    if hashable k then
      Ok (match k with
          | PStr s => dict_get d s default
          | _ => default
          end)
    else Raise TypeError
  | _ => Raise AttributeError
  end.

Fixpoint for_each {S A} (body : A → stateful S unit) (l : list A) : stateful S unit :=
  match l with
  | [] => mret ()
  | x :: rest => body x;; for_each body rest
  end.


(** [d.date()], as a number of days *)
Definition dt_date (d : datetime) : Z := dt_us d / us_per_day.

(** The instant by which timestamps of one kind are ordered *)
Definition dt_instant (d : datetime) : Z :=
  match dt_offset d with
  | None => dt_us d
  | Some o => dt_us d - o
  end.

(** [sorted(sessions, key=lambda x: x.date, reverse=...)]: comparing a naive
    timestamp with an aware one raises TypeError. *)
Definition comparable (sessions : list SessionAnalytics) : bool :=
  forallb (λ s, bool_decide (dt_offset (date s) = None)) sessions
  || forallb (λ s, bool_decide (dt_offset (date s) ≠ None)) sessions.

Definition sorted_by_date (reverse : bool) (sessions : list SessionAnalytics)
    : result (list SessionAnalytics) :=
  if comparable sessions then
    Ok (stable_sort
          (λ a b, if reverse then dt_instant (date b) <=? dt_instant (date a)
                  else dt_instant (date a) <=? dt_instant (date b))
          sessions)
  else Raise TypeError.

(** The loop of [_calculate_study_streak] *)
Fixpoint streak_loop (sorted_sessions : list SessionAnalytics)
    (streak current_date : Z) : Z :=
  match sorted_sessions with
  | [] => streak
  | session :: rest =>
    let session_date := dt_date (date session) in
    if (session_date =? current_date) || (session_date =? current_date - streak) then
      streak_loop rest
        (if session_date =? current_date - streak then streak + 1 else streak)
        session_date
    else streak
  end.

(** [now] is the reading of the clock. *)
Definition _calculate_study_streak (now : datetime) (sessions : list SessionAnalytics)
    : result Z :=
  match sessions with
  | [] => Ok 0
  | _ =>
    sorted_sessions ← sorted_by_date true sessions;
    Ok (streak_loop sorted_sessions 0 (dt_date now))
  end.

Section WithMean.

(** What [np.mean] returns on a list of numbers *)
Variable float_mean : list Q → Q.

(** The loop that fills [topic_averages] *)
Fixpoint topic_averages (topics : list (pyval * list performance))
    : result (list (pyval * Q)) :=
  match topics with
  | [] => Ok []
  | (topic, performances) :: rest =>
    match performances with
    | [] => topic_averages rest
    | _ =>
      avg_accuracy ← Scheduler.np_mean float_mean (perf_accuracy <$> performances);
      averages ← topic_averages rest;
      Ok ((topic, avg_accuracy) :: averages)
    end
  end.

Definition _identify_performance_areas (user_id : string)
    : An (list pyval * list pyval) :=
  topics ← topics_of user_id;
  averages ← lift (topic_averages topics);
  match averages with
  | [] => mret ([], [])
  | _ =>
    let overall_average := float_mean (snd <$> averages) in
    let weak_areas :=
      fst <$> List.filter (λ ta, Qltb (snd ta) (overall_average - (1 # 10))%Q) averages in
    let strong_areas :=
      fst <$> List.filter (λ ta, Qltb (overall_average + (1 # 10))%Q (snd ta)) averages in
    mret (take 5 weak_areas, take 5 strong_areas)
  end.

End WithMean.

Section WithClock.

Variable fromisoformat : string → option datetime.
Variable now : datetime.
Variable float_mean : list Q → Q.

(** [float(np.polyfit(np.arange(len(y)), y, 1)[0] * 100)]: the slope of the
    line that numpy fits through the points [(0, y0), (1, y1), ...], as a
    percentage.  numpy computes it in float64; it is an input. *)
Variable polyfit_percent : list Q → Q.

Definition _calculate_improvement_rate (sessions : list SessionAnalytics) : result Q :=
  if (length sessions <? 2)%nat then Ok 0%Q
  else
    sorted_sessions ← sorted_by_date false sessions;
    y ← Scheduler.nums_of (accuracy <$> sorted_sessions);
    Ok (polyfit_percent y).

(** The construction of the [SessionAnalytics] object: the fields are read
    in the order of the keyword arguments. *)
Definition session_analytics_of (session : gmap string pyval) : result SessionAnalytics :=
  session_id ← dict_getitem session "session_id";
  date_text ← dict_getitem session "date";
  date ← Scheduler.parse_datetime fromisoformat date_text;
  duration ← dict_getitem session "duration";
  cards_reviewed ← dict_getitem session "cards_reviewed";
  accuracy ← dict_getitem session "accuracy";
  mode ← dict_getitem session "mode";
  topics_covered ← dict_getitem session "topics_covered";
  difficulty_distribution ← dict_getitem session "difficulty_distribution";
  Ok (mk_session_analytics session_id date duration cards_reviewed accuracy mode
        topics_covered difficulty_distribution).

(** Body of the loop of [record_session]: the list of the topic is looked
    up, and created, before the entry to append is built. *)
Definition record_topic (user_id : string) (session : gmap string pyval)
    (session_analytics : SessionAnalytics) (topic : pyval) : An unit :=
  topics ← topics_of user_id;
  if hashable topic then
    set_topics user_id (topic_touch topics topic);;
    topic_accuracy ←
      lift (py_get (dict_get session "topic_accuracies" (PDict ∅)) topic
              (accuracy session_analytics));
    cards_count ←
      lift (py_get (dict_get session "topic_card_counts" (PDict ∅)) topic (PInt 1));
    set_topics user_id
      (topic_append (topic_touch topics topic) topic
         (mk_performance (date session_analytics) topic_accuracy cards_count))
  else raise TypeError.

Definition record_session (user_id : string) (session : gmap string pyval) : An unit :=
  session_analytics ← lift (session_analytics_of session);
  append_session user_id session_analytics;;
  topics ← lift (Personalizer.py_iter (topics_covered session_analytics));
  for_each (record_topic user_id session session_analytics) topics.


End WithClock.

End Analytics.

(** ** Sample inputs *)

Module Samples.

Definition sample_record : gmap string pyval :=
  <["accuracy" := PFloat (95 # 100)]> (<["interval_index" := PInt 2]> ∅).

Definition card_due : gmap string pyval :=
  <["front" := PStr "q1"]> (<["next_review" := PStr "2024-01-01T00:00:00"]> ∅).

Definition card_new : gmap string pyval := <["front" := PStr "q2"]> ∅.

Definition card_later : gmap string pyval :=
  <["front" := PStr "q3"]> (<["next_review" := PStr "2030-01-01T00:00:00"]> ∅).

(** 2025-06-01T12:00:00 *)
Definition sample_now : datetime := naive 1748779200000000.




(** Three sessions: 8h with accuracy 0.6, 20h with 0.9 and 0.7. *)
Definition session_morning : gmap string pyval :=
  <["date" := PStr "2024-03-05T08:15:00"]> (<["accuracy" := PFloat (6 # 10)]> (
  <["duration" := PInt 30]> ∅)).

Definition session_evening_a : gmap string pyval :=
  <["date" := PStr "2024-03-05T20:05:00"]> (<["accuracy" := PFloat (9 # 10)]> (
  <["duration" := PInt 40]> ∅)).

Definition session_evening_b : gmap string pyval :=
  <["date" := PStr "2024-03-06T20:45:00"]> (<["accuracy" := PFloat (7 # 10)]> (
  <["duration" := PInt 25]> ∅)).

Definition sample_history : list (gmap string pyval) :=
  [session_morning; session_evening_a; session_evening_b].

(** Records and cards with missing or malformed fields *)
Definition record_without_accuracy : gmap string pyval := <["interval_index" := PInt 3]> ∅.




(** A card with a front of 150 characters and a back of 200 *)
Fixpoint repeat_char (n : nat) (c : ascii) : string :=
  match n with
  | O => EmptyString
  | S n => String c (repeat_char n c)
  end.

Definition long_card : gmap string pyval :=
  <["front" := PStr (repeat_char 150 "a")]> (<["back" := PStr (repeat_char 200 "b")]> ∅).

Definition long_card_store : gmap Personalizer.loc Personalizer.obj :=
  <[1%positive := Personalizer.ODict long_card]> ∅.

(** A store with three cards and two decks *)
Definition old_card : gmap string pyval :=
  <["front" := PStr "old"]> (<["last_reviewed" := PStr "2020-01-01T00:00:00"]> ∅).

Definition recent_card : gmap string pyval :=
  <["front" := PStr "recent"]> (<["last_reviewed" := PStr "2025-05-01T00:00:00"]> ∅).

Definition review_store : gmap Personalizer.loc Personalizer.obj :=
  <[1%positive := Personalizer.ODict old_card]> (
  <[2%positive := Personalizer.ODict card_new]> (
  <[3%positive := Personalizer.ODict recent_card]> (
  <[4%positive := Personalizer.OList [1; 2]%positive]> (
  <[5%positive := Personalizer.OList [3; 2; 1]%positive]> ∅)))).

(** A session with three responses, two of them incorrect *)
Definition tagged_card (tags : list string) : pyval :=
  PDict (<["tags" := PList (PStr <$> tags)]> ∅).

Definition response (correct : bool) (tags : list string) : pyval :=
  PDict (<["correct" := PBool correct]> (<["card" := tagged_card tags]> ∅)).

Definition sample_responses : list pyval :=
  [response false ["algebra"; "geometry"]; response true ["algebra"];
   response false ["algebra"]].

Definition sample_session : gmap string pyval :=
  <["responses" := PList sample_responses]> (<["mode" := PStr "challenge"]> ∅).

(** A session in mode "challenge" with 17 correct responses out of 20, and
    the profiles after it is recorded once for a new user *)
Definition challenge_session : gmap string pyval :=
  <["responses" := PList (replicate 17 (response true []) ++ replicate 3 (response false []))]> (
  <["mode" := PStr "challenge"]> ∅).

Definition after_first_session : gmap string Personalizer.PersonalizationProfile :=
  snd (Personalizer.update_user_profile "2025-06-01T12:00:00" "ana" challenge_session ∅).

(** The same session with the mode given as a member of [StudyMode] *)
Definition challenge_session_member : gmap string pyval :=
  <["mode" := PEnum (EMode CHALLENGE)]> challenge_session.

(** A profile with 30 recorded sessions, and a session without mode whose
    single response is correct *)
Definition recorded_entry : gmap string pyval :=
  <["date" := PStr "2025-05-01T09:00:00"]> (<["accuracy" := PFloat (1 # 2)]> ∅).

Definition full_profiles : gmap string Personalizer.PersonalizationProfile :=
  <["ana" := Personalizer.mk_profile "ana" [BASIC_EDUCATIONAL] [DEFINITION_BASED]
               "medium" 30 (replicate 30 recorded_entry) [] []]> ∅.

Definition modeless_session : gmap string pyval :=
  <["responses" := PList [response true []]]> ∅.

(** A record whose stored index is past the end of the table *)
Definition record_past_end : gmap string pyval :=
  <["accuracy" := PFloat (8 # 10)]> (<["interval_index" := PInt 6]> ∅).

(** The same stored index with a lower accuracy *)
Definition sample_record_low : gmap string pyval :=
  <["accuracy" := PFloat (5 # 10)]> (<["interval_index" := PInt 2]> ∅).

(** A shuffle: rotation by one position *)
Definition rotate (l : list pyval) : list pyval :=
  match l with
  | [] => []
  | x :: rest => rest ++ [x]
  end.

Definition plain_card : gmap string pyval :=
  <["front" := PStr "Capital of France?"]> (<["back" := PStr "Paris"]> ∅).

Definition plain_card_store : gmap Personalizer.loc Personalizer.obj :=
  <[1%positive := Personalizer.ODict plain_card]> ∅.

Definition graded_card (name difficulty : string) : Personalizer.obj :=
  Personalizer.ODict (<["front" := PStr name]> (<["difficulty" := PStr difficulty]> ∅)).

(** A deck (location 9) of a hard card, two easy ones, one without a
    difficulty and one with an unknown difficulty *)
Definition graded_store : gmap Personalizer.loc Personalizer.obj :=
  <[9%positive := Personalizer.OList [1; 2; 3; 4; 5]%positive]> (
  <[1%positive := graded_card "a" "hard"]> (
  <[2%positive := graded_card "b" "easy"]> (
  <[3%positive := Personalizer.ODict (<["front" := PStr "c"]> ∅)]> (
  <[4%positive := graded_card "d" "easy"]> (
  <[5%positive := graded_card "e" "expert"]> ∅))))).

(** The graded deck with a card whose difficulty is a list *)
Definition ungraded_store : gmap Personalizer.loc Personalizer.obj :=
  <[4%positive := Personalizer.ODict (<["difficulty" := PList [PStr "easy"]]> ∅)]>
    graded_store.

(** Sessions of analytics: one at the given time of the given day, days
    being counted back from 2025-06-01 *)
Definition session_on (days_ago : Z) (us_in_day : Z) (acc : Q) : Analytics.SessionAnalytics :=
  Analytics.mk_session_analytics (PStr "s")
    (naive (1748736000000000 - days_ago * us_per_day + us_in_day))
    (PInt 20) (PInt 10) (PFloat acc) (PStr "exam_prep") (PList []) (PDict ∅).

(** Three days in a row, recorded out of order, and an older session *)
Definition daily_sessions : list Analytics.SessionAnalytics :=
  [session_on 1 3600000000 (7 # 10); session_on 0 7200000000 (8 # 10);
   session_on 2 0 (6 # 10); session_on 0 3600000000 (9 # 10);
   session_on 5 0 (5 # 10)].

(** Recorded performances of three topics for one user *)
Definition perf (acc : Q) : Analytics.performance :=
  Analytics.mk_performance sample_now (PFloat acc) (PInt 1).

Definition topic_state : Analytics.analytics :=
  Analytics.mk_analytics ∅
    (<["ana" := [(PStr "algebra", [perf (4 # 10); perf (5 # 10)]);
                 (PStr "geometry", [perf (9 # 10)]);
                 (PStr "logic", [perf (7 # 10)]);
                 (PStr "sets", [])]]> ∅).


(** A session as [record_session] expects it, and one without its date *)
Definition analytics_session : gmap string pyval :=
  <["session_id" := PStr "s1"]> (
  <["date" := PStr "2025-06-01T09:30:00"]> (
  <["duration" := PInt 25]> (
  <["cards_reviewed" := PInt 12]> (
  <["accuracy" := PFloat (3 # 4)]> (
  <["mode" := PStr "exam_prep"]> (
  <["topics_covered" := PList [PStr "algebra"; PStr "logic"; PStr "algebra"]]> (
  <["difficulty_distribution" := PDict ∅]> ∅))))))).

Definition undated_session : gmap string pyval := delete "date" analytics_session.



End Samples.
Import Samples.

(** ** Intermediate states and invariants

    The vocabulary of the proofs: the states between the steps of the
    functions above, and the invariants of their loops. *)

Section StudyTimeStates.
Import Scheduler Reference.
Variable fromisoformat : string → option datetime.

(** The hour and the accuracy that the first loop of
    [suggest_optimal_study_time] reads from a session. *)
Definition session_pair (session : gmap string pyval) : option (Z * pyval) :=
  match session_hour fromisoformat session, session !! "accuracy" with
  | Some h, Some v => Some (h, v)
  | _, _ => None
  end.

Definition add_pair (tp : list (Z * list pyval)) (p : Z * pyval) : list (Z * list pyval) :=
  bucket_append tp (fst p) (snd p).

(** The accuracies gathered for an hour. *)
Fixpoint bucket_lookup (tp : list (Z * list pyval)) (h : Z) : list pyval :=
  match tp with
  | [] => []
  | (k, l) :: rest => if k =? h then l else bucket_lookup rest h
  end.

Definition values_at (k : Z) (ps : list (Z * pyval)) : list pyval :=
  snd <$> List.filter (λ p, fst p =? k) ps.

(** What the second loop computes over the hours [keys], for mean
    accuracies [m], from the initial best hour [bh] and accuracy [ba]. *)
Definition best_spec (m : Z → Q) (keys : list Z) (bh : Z) (ba : Q) (bh' : Z) (ba' : Q)
    : Prop :=
  (bh' = bh ∧ ba' = ba ∧ ∀ h, h ∈ keys → (m h <= ba)%Q)
  ∨ (∃ pre post, keys = pre ++ bh' :: post ∧ ba' = m bh' ∧ (ba < m bh')%Q
       ∧ (∀ h, h ∈ pre → (m h < m bh')%Q)
       ∧ (∀ h, h ∈ post → (m h <= m bh')%Q)).

End StudyTimeStates.

Section CardStates.
Import Personalizer Reference.
Variable fromisoformat : string → option datetime.
Variable now : datetime.

(** The card after [truncate_field]. *)
Definition truncated (d : gmap string pyval) (k : string) (limit : Z) (keep : nat)
    : gmap string pyval :=
  match d !! k with
  | Some (PStr s) =>
    if limit <? Z.of_nat (String.length s)
    then <[k := PStr (String.substring 0 keep s +:+ "...")]> d
    else d
  | _ => d
  end.

(** The store after the loop over the cards [done]. *)
Definition priorities_set (h : gmap loc obj) (done : list loc) (h' : gmap loc obj) : Prop :=
  ∀ c, h' !! c = if decide (c ∈ done) then with_priority fromisoformat now <$> h !! c
                 else h !! c.

End CardStates.

Section FrameStates.
Import Personalizer.

(** The store [h0] at the start of a call. *)
Variable h0 : gmap loc obj.


(** The objects of [h0] are in [h], as they were. *)
Definition extends (h : gmap loc obj) : Prop :=
  ∀ l, l ∈ dom h0 → h !! l = h0 !! l.

(** The deck at [deck] holds objects created since. *)
Definition deck_is_new (deck : loc) (h : gmap loc obj) : Prop :=
  ∃ l, h !! deck = Some (OList l) ∧ ∀ c, c ∈ l → c ∉ dom h0.

Definition inv (deck : loc) (h : gmap loc obj) : Prop :=
  extends h ∧ deck_is_new deck h.

(** From a store satisfying [P], the computation [m] either returns [a] in
    a store satisfying [Q a], or raises in a store satisfying [E]. *)
Definition hoare {A} (P : gmap loc obj → Prop) (m : St A)
    (Q : A → gmap loc obj → Prop) (E : gmap loc obj → Prop) : Prop :=
  ∀ h, P h →
    match m h with
    | (Ok a, h') => Q a h'
    | (Raise _, h') => E h'
    end.

End FrameStates.

Section ProfileStates.
Import Personalizer Reference.

(** The last step of [update_user_profile]: keep the last 30 entries. *)
Definition keep_recent (p : PersonalizationProfile) : PersonalizationProfile :=
  set_performance_history
    (drop (length (performance_history p) - 30) (performance_history p)) p.

(** The entry recorded for a session. *)
Definition entry_of (now_iso : string) (session_data : gmap string pyval)
    (correct total : Z) : gmap string pyval :=
  <["date" := PStr now_iso]> (
  <["mode" := dict_get session_data "mode" PNone]> (
  <["accuracy" := of_num (session_accuracy correct total)]> (
  <["total_cards" := PInt total]> (
  <["study_time" := dict_get session_data "study_time" (PInt 0)]> ∅)))).

(** The counter after the names [seen]: one entry for each of the distinct
    names [ks], with its number of occurrences. *)
Definition counts_of (seen ks : list string) : list (pyval * nat) :=
  (λ k, (PStr k, occurrences k seen)) <$> ks.

(** The [n] most frequent names, as [most_common] finds them in a counter
    whose keys are [ks]. *)
Definition top_names (n : nat) (names ks : list string) : list string :=
  take n (stable_sort
            (λ a b, (occurrences b names <=? occurrences a names)%nat) ks).

End ProfileStates.

(** The three fixed alternatives of a multiple-choice card *)
Definition distractors : list pyval :=
  [PStr "Alternative answer 1"; PStr "Alternative answer 2";
   PStr "Alternative answer 3"].

(** [difficulty_order.get(card.get('difficulty', 'medium'), 2)] of a card:
    1 for easy, 3 for hard, 2 for medium and for anything else *)
Definition difficulty_rank (d : gmap string pyval) : Z :=
  match d !! "difficulty" with
  | Some (PStr s) =>
    if String.eqb s "easy" then 1 else if String.eqb s "hard" then 3 else 2
  | _ => 2
  end.

Definition card_rank (h : gmap Personalizer.loc Personalizer.obj)
    (c : Personalizer.loc) : Z :=
  match h !! c with
  | Some (Personalizer.ODict d) => difficulty_rank d
  | _ => 2
  end.

(** The fields of a profile that recording a session does not touch *)
Definition same_settings (p p' : Personalizer.PersonalizationProfile) : Prop :=
  Personalizer.user_id p' = Personalizer.user_id p
  ∧ Personalizer.preferred_styles p' = Personalizer.preferred_styles p
  ∧ Personalizer.difficulty_preference p' = Personalizer.difficulty_preference p
  ∧ Personalizer.study_time_preference p' = Personalizer.study_time_preference p
  ∧ Personalizer.learning_goals p' = Personalizer.learning_goals p.

(** The loop of [_calculate_study_streak] on the days of the sessions *)
Fixpoint streak_days (days : list Z) (streak current_date : Z) : Z :=
  match days with
  | [] => streak
  | d :: rest =>
    if (d =? current_date) || (d =? current_date - streak) then
      streak_days rest (if d =? current_date - streak then streak + 1 else streak) d
    else streak
  end.

Definition session_day (s : Analytics.SessionAnalytics) : Z :=
  Analytics.dt_date (Analytics.date s).

Definition naive_sessions (sessions : list Analytics.SessionAnalytics) : Prop :=
  ∀ s, s ∈ sessions → dt_offset (Analytics.date s) = None.

(** The keys that [record_session] reads with [session_data[...]] *)
Definition required_keys : list string :=
  ["session_id"; "date"; "duration"; "cards_reviewed"; "accuracy"; "mode";
   "topics_covered"; "difficulty_distribution"].

(** The record of topics [new] keeps every topic of [old] at its position,
    with its performances in front of the new ones. *)
Definition topics_grow (old new : list (pyval * list Analytics.performance)) : Prop :=
  ∀ i t ps, old !! i = Some (t, ps) →
    ∃ ps', new !! i = Some (t, ps') ∧ ps `prefix_of` ps'.

(** The state [a'] holds what [a] held: nothing of another user is
    touched, and the sessions and the topics of [user_id] are only added
    to. *)
Definition analytics_grow (user_id : string) (a a' : Analytics.analytics) : Prop :=
  (∀ u, u ≠ user_id →
     Analytics.session_data a' !! u = Analytics.session_data a !! u
     ∧ Analytics.topic_performance a' !! u = Analytics.topic_performance a !! u)
  ∧ default [] (Analytics.session_data a !! user_id)
      `prefix_of` default [] (Analytics.session_data a' !! user_id)
  ∧ topics_grow (default [] (Analytics.topic_performance a !! user_id))
      (default [] (Analytics.topic_performance a' !! user_id)).


(** * Properties *)

Example iso_epoch : Iso.fromisoformat "1970-01-01T00:00:00" = Some (naive 0).
Proof. reflexivity. Qed.

Example iso_hour : dt_hour <$> Iso.fromisoformat "2024-03-05T14:30:00" = Some 14.
Proof. vm_compute. reflexivity. Qed.

(** ** Numbers *)

Lemma Qle_bool_inject_Z (a b : Z) : Qle_bool (inject_Z a) (inject_Z b) = (a <=? b).
Proof. unfold Qle_bool. simpl. by rewrite !Z.mul_1_r. Qed.

Lemma Qltb_inject_Z (a b : Z) : Qltb (inject_Z a) (inject_Z b) = (a <? b).
Proof. unfold Qltb. rewrite Qle_bool_inject_Z. by rewrite Z.ltb_antisym. Qed.

Lemma Qle_bool_false (x y : Q) : Qle_bool x y = false ↔ (y < x)%Q.
Proof.
  split.
  - intros H. apply Qnot_le_lt. intros Hle. apply Qle_bool_iff in Hle. congruence.
  - intros H. destruct (Qle_bool x y) eqn:E; [|done].
    apply Qle_bool_iff in E. exfalso. by apply (Qlt_not_le _ _ H).
Qed.

Lemma Qltb_true (x y : Q) : Qltb x y = true ↔ (x < y)%Q.
Proof. unfold Qltb. rewrite negb_true_iff. apply Qle_bool_false. Qed.

Lemma Qltb_false (x y : Q) : Qltb x y = false ↔ (y <= x)%Q.
Proof. unfold Qltb. rewrite negb_false_iff. apply Qle_bool_iff. Qed.

Lemma py_min_int (a b : Z) : py_min (NInt a) (NInt b) = NInt (Z.min b a).
Proof.
  unfold py_min, num_ltb. simpl. rewrite Qltb_inject_Z.
  destruct (Z.ltb_spec b a); f_equal; lia.
Qed.

Lemma py_max_int (a b : Z) : py_max (NInt a) (NInt b) = NInt (Z.max a b).
Proof.
  unfold py_max, num_ltb. simpl. rewrite Qltb_inject_Z.
  destruct (Z.ltb_spec a b); f_equal; lia.
Qed.

(** ** The review scheduler *)

Section SchedulerFacts.
Import Scheduler.

Lemma list_getitem_in_range {A} (l : list A) (i : Z) :
  0 ≤ i < Z.of_nat (length l) →
  ∃ x, l !! Z.to_nat i = Some x ∧ list_getitem l i = Ok x.
Proof.
  intros Hi. unfold list_getitem.
  destruct (Z.ltb_spec i 0); [lia|].
  destruct (Z.leb_spec 0 i); [|lia].
  destruct (Z.ltb_spec i (Z.of_nat (length l))); [|lia]. simpl.
  destruct (l !! Z.to_nat i) eqn:E; [eauto|].
  apply lookup_ge_None in E. lia.
Qed.

(** The index chosen from the latest record, for a numeric accuracy [a]
    and a stored integer index [i], defaults included. *)
Lemma next_interval_index_value (latest : gmap string pyval) (a : num) (i : Z) :
  as_num (dict_get latest "accuracy" (PFloat (1 # 2))) = Some a →
  dict_get latest "interval_index" (PInt 0) = PInt i →
  next_interval_index latest =
    Ok (PInt (if Qle_bool (9 # 10) (num_val a) then Z.min (i + 1) 5
              else if Qle_bool (7 # 10) (num_val a) then i
              else Z.max 0 (i - 1))).
Proof.
  intros Ha Hi. unfold next_interval_index.
  rewrite Ha, Hi. unfold num_leb. simpl num_val at 1.
  destruct (Qle_bool (9 # 10) (num_val a)).
  - simpl. by rewrite py_min_int.
  - simpl num_val at 1. destruct (Qle_bool (7 # 10) (num_val a)); [done|].
    simpl. by rewrite py_max_int.
Qed.

Lemma next_interval_index_int (latest : gmap string pyval) (v : pyval) (a : num) (i : Z) :
  latest !! "accuracy" = Some v → as_num v = Some a →
  latest !! "interval_index" = Some (PInt i) →
  next_interval_index latest =
    Ok (PInt (if Qle_bool (9 # 10) (num_val a) then Z.min (i + 1) 5
              else if Qle_bool (7 # 10) (num_val a) then i
              else Z.max 0 (i - 1))).
Proof.
  intros Hv Ha Hi. apply next_interval_index_value; unfold dict_get.
  - by rewrite Hv.
  - by rewrite Hi.
Qed.




End SchedulerFacts.



(** ** Due cards *)

Section DueCards.
Import Scheduler Reference.
Variable fromisoformat : string → option datetime.

Lemma due_loop_filter (now : datetime) (cards acc : list (gmap string pyval)) :
  dt_offset now = None →
  Forall (next_review_well_formed fromisoformat) cards →
  due_loop fromisoformat now cards acc =
    Ok (acc ++ List.filter (due fromisoformat now) cards).
Proof.
  intros Hnow Hwf. revert acc.
  induction Hwf as [|card rest Hc _ IH]; intros acc; simpl.
  - by rewrite app_nil_r.
  - unfold next_review_well_formed in Hc. unfold due, dict_get.
    destruct (card !! "next_review") as [v|] eqn:E.
    + destruct v; try done.
      * simpl. rewrite IH. by rewrite <- app_assoc.
      * destruct Hc as (Hne & t & Ht & Hoff). simpl.
        destruct (String.eqb_spec s ""); [done|]. simpl.
        rewrite Ht. simpl. unfold dt_le. rewrite Hoff, Hnow. simpl.
        destruct (dt_us t <=? dt_us now); rewrite IH; [|done].
        by rewrite <- app_assoc.
    + simpl. rewrite IH. by rewrite <- app_assoc.
Qed.

End DueCards.

(** C7.  For a list of cards whose next-review fields are well formed
    (absent, [None], or a string that reads as a naive timestamp),
    [get_cards_due_for_review] returns exactly the cards that have no
    recorded next-review timestamp or whose timestamp is at or before the
    current time, in the order of the input. *)
Theorem get_cards_due_for_review_exact
    (fromisoformat : string → option datetime) (now : datetime)
    (cards : list (gmap string pyval)) :
  dt_offset now = None →
  Forall (Reference.next_review_well_formed fromisoformat) cards →
  Scheduler.get_cards_due_for_review fromisoformat now cards =
    Ok (List.filter (Reference.due fromisoformat now) cards).
Proof.
  intros Hnow Hwf. unfold Scheduler.get_cards_due_for_review.
  by rewrite (due_loop_filter fromisoformat now cards [] Hnow Hwf).
Qed.

Lemma get_cards_due_for_review_exact_witness :
  dt_offset sample_now = None
  ∧ Forall (Reference.next_review_well_formed Iso.fromisoformat)
      [card_due; card_new; card_later]
  ∧ Scheduler.get_cards_due_for_review Iso.fromisoformat sample_now
      [card_due; card_new; card_later] = Ok [card_due; card_new].
Proof.
  assert (Hwf : Forall (Reference.next_review_well_formed Iso.fromisoformat)
                  [card_due; card_new; card_later]).
  { repeat constructor; try done; eexists; split; try reflexivity. }
  split; [reflexivity|]. split; [exact Hwf|].
  exact (get_cards_due_for_review_exact Iso.fromisoformat sample_now
           [card_due; card_new; card_later] eq_refl Hwf).
Defined.

(** ** Study-time suggestion *)

Section StudyTime.
Import Scheduler Reference.
Variable fromisoformat : string → option datetime.
Variable float_mean : list Q → Q.

Lemma session_well_formed_pair (session : gmap string pyval) :
  session_well_formed fromisoformat session →
  ∃ s t v a,
    session !! "date" = Some (PStr s) ∧ fromisoformat s = Some t
    ∧ session !! "accuracy" = Some v ∧ as_num v = Some a
    ∧ (session_pair fromisoformat) session = Some (dt_hour t, v).
Proof.
  intros ([h Hh] & [q Hq] & _).
  unfold session_pair. unfold session_hour in *. unfold number_at in Hq.
  destruct (session !! "date") as [[]|] eqn:Ed; try done.
  destruct (fromisoformat s) as [t|] eqn:Et; [|done].
  destruct (session !! "accuracy") as [v|] eqn:Ea; [|done].
  destruct (as_num v) as [a|] eqn:En; [|done].
  exists s, t, v, a. simpl. by rewrite Et.
Qed.

Lemma bucket_loop_fold (history : list (gmap string pyval)) (tp : list (Z * list pyval)) :
  Forall (session_well_formed fromisoformat) history →
  bucket_loop fromisoformat history tp =
    Ok (fold_left add_pair (omap (session_pair fromisoformat) history) tp).
Proof.
  intros Hwf. revert tp.
  induction Hwf as [|session rest Hs _ IH]; intros tp; [done|].
  destruct (session_well_formed_pair _ Hs) as (s & t & v & a & Hd & Ht & Ha & _ & Hp).
  simpl. unfold dict_getitem. rewrite Hd. simpl. rewrite Ht. simpl.
  rewrite Ha. simpl. rewrite Hp. simpl. apply IH.
Qed.

(** The keys of the buckets are the hours in order of first occurrence. *)
Lemma bucket_append_keys (tp : list (Z * list pyval)) (h : Z) (v : pyval) :
  (bucket_append tp h v).*1 =
    if bool_decide (h ∈ tp.*1) then tp.*1 else tp.*1 ++ [h].
Proof.
  induction tp as [|[k l] tp IH].
  - case_bool_decide as H; [|done]. simpl in H. set_solver.
  - cbn [bucket_append fmap list_fmap fst].
    destruct (Z.eqb_spec k h) as [->|Hne].
    + rewrite bool_decide_eq_true_2 by set_solver. reflexivity.
    + cbn [fmap list_fmap fst]. rewrite IH. clear IH.
      destruct (decide (h ∈ tp.*1)).
      * rewrite !bool_decide_eq_true_2 by set_solver. reflexivity.
      * rewrite !bool_decide_eq_false_2 by set_solver. reflexivity.
Qed.

Lemma filter_filter_notin (keys : list Z) (h : Z) (l : list Z) :
  List.filter (λ x, bool_decide (x ∉ keys ++ [h])) l =
  List.filter (λ x, bool_decide (x ∉ keys)) (List.filter (λ x, negb (x =? h)) l).
Proof.
  induction l as [|x l IH]; [done|]. simpl.
  destruct (Z.eqb_spec x h) as [->|Hne]; simpl.
  - rewrite bool_decide_eq_false_2 by set_solver. done.
  - destruct (decide (x ∈ keys)).
    + rewrite !bool_decide_eq_false_2 by set_solver. done.
    + rewrite !bool_decide_eq_true_2 by set_solver. by rewrite IH.
Qed.

Lemma filter_filter_in (keys : list Z) (h : Z) (l : list Z) :
  h ∈ keys →
  List.filter (λ x, bool_decide (x ∉ keys)) (List.filter (λ x, negb (x =? h)) l) =
  List.filter (λ x, bool_decide (x ∉ keys)) l.
Proof.
  intros Hin. induction l as [|x l IH]; [done|]. simpl.
  destruct (Z.eqb_spec x h) as [->|Hne]; simpl.
  - rewrite bool_decide_eq_false_2 by set_solver. done.
  - by rewrite IH.
Qed.

Lemma fold_add_pair_keys (ps : list (Z * pyval)) (tp : list (Z * list pyval))
    (keys : list Z) :
  keys = tp.*1 →
  (fold_left add_pair ps tp).*1 =
    keys ++ List.filter (λ x, bool_decide (x ∉ keys)) (first_occurrences (ps.*1)).
Proof.
  revert tp keys. induction ps as [|[h v] ps IH]; intros tp keys Hk.
  - simpl. by rewrite app_nil_r.
  - cbn [fold_left fmap list_fmap fst first_occurrences List.filter].
    pose proof (bucket_append_keys tp h v) as Hb. rewrite <- Hk in Hb.
    change (add_pair tp (h, v)) with (bucket_append tp h v).
    rewrite (IH _ _ (eq_sym Hb)).
    destruct (decide (h ∈ keys)) as [Hin|Hnin].
    + rewrite (bool_decide_eq_true_2 _ Hin).
      rewrite (bool_decide_eq_false_2 (h ∉ keys)) by (intros Hn; by apply Hn).
      by rewrite filter_filter_in.
    + rewrite (bool_decide_eq_false_2 _ Hnin).
      rewrite (bool_decide_eq_true_2 _ Hnin).
      rewrite <- app_assoc. simpl. by rewrite filter_filter_notin.
Qed.

Lemma filter_true {A} (l : list A) : List.filter (λ _, true) l = l.
Proof. induction l; simpl; congruence. Qed.

Lemma bucket_keys_first_occurrences (ps : list (Z * pyval)) :
  (fold_left add_pair ps []).*1 = first_occurrences (ps.*1).
Proof.
  rewrite (fold_add_pair_keys ps [] [] eq_refl).
  rewrite app_nil_l.
  erewrite List.filter_ext; [apply filter_true|].
  intros x. apply bool_decide_eq_true_2. set_solver.
Qed.


Lemma first_occurrences_NoDup (l : list Z) : NoDup (first_occurrences l).
Proof.
  induction l as [|h l IH]; simpl; [constructor|].
  constructor.
  - intros Hx. apply list_elem_of_In, List.filter_In in Hx as [_ Hx].
    by rewrite Z.eqb_refl in Hx.
  - apply NoDup_ListNoDup, List.NoDup_filter. by apply NoDup_ListNoDup.
Qed.

Lemma bucket_append_lookup (tp : list (Z * list pyval)) (h k : Z) (v : pyval) :
  bucket_lookup (bucket_append tp h v) k =
    if h =? k then bucket_lookup tp k ++ [v] else bucket_lookup tp k.
Proof.
  induction tp as [|[k' l] tp IH]; simpl.
  - by destruct (h =? k).
  - destruct (Z.eqb_spec k' h) as [->|Hne]; simpl.
    + by destruct (Z.eqb_spec h k).
    + rewrite IH. destruct (Z.eqb_spec k' k) as [->|Hne']; [|done].
      destruct (Z.eqb_spec h k); [congruence|done].
Qed.

Lemma fold_add_pair_lookup (ps : list (Z * pyval)) (tp : list (Z * list pyval)) (k : Z) :
  bucket_lookup (fold_left add_pair ps tp) k = bucket_lookup tp k ++ values_at k ps.
Proof.
  revert tp. induction ps as [|[h v] ps IH]; intros tp.
  - simpl. by rewrite app_nil_r.
  - cbn [fold_left]. rewrite IH. unfold add_pair. cbn [fst snd].
    rewrite bucket_append_lookup. unfold values_at. cbn [List.filter fst].
    destruct (h =? k); [|done]. by rewrite <- app_assoc.
Qed.

Lemma buckets_as_map (tp : list (Z * list pyval)) :
  NoDup (tp.*1) → tp = (λ h, (h, bucket_lookup tp h)) <$> tp.*1.
Proof.
  induction tp as [|[k l] tp IH]; [done|].
  cbn [fmap list_fmap fst]. intros Hnd. apply NoDup_cons in Hnd as [Hk Hnd].
  cbn [bucket_lookup]. rewrite Z.eqb_refl. f_equal.
  rewrite (IH Hnd) at 1. apply list_fmap_ext.
  intros i h Hh. f_equal. cbn [bucket_lookup].
  destruct (Z.eqb_spec k h) as [->|]; [|done].
  exfalso. apply Hk. by eapply list_elem_of_lookup_2.
Qed.

Lemma values_at_nums (history : list (gmap string pyval)) (h : Z) :
  Forall (session_well_formed fromisoformat) history →
  nums_of (values_at h (omap (session_pair fromisoformat) history)) =
    Ok (accuracies_at fromisoformat h history).
Proof.
  induction 1 as [|session rest Hs _ IH]; [done|].
  destruct (session_well_formed_pair _ Hs) as (s & t & v & a & Hd & Ht & Ha & Hn & Hp).
  unfold values_at, accuracies_at in *. cbn [omap list_omap]. rewrite Hp.
  assert (Hh : session_hour fromisoformat session = Some (dt_hour t)).
  { unfold session_hour. rewrite Hd, Ht. done. }
  rewrite Hh. cbn [List.filter fst].
  destruct (Z.eqb_spec (dt_hour t) h) as [->|Hne].
  - rewrite decide_True by done. unfold number_at at 1. rewrite Ha, Hn.
    cbn [fmap list_fmap snd option_fmap option_map nums_of]. rewrite Hn, IH. done.
  - rewrite decide_False by congruence. apply IH.
Qed.

Lemma omap_session_pair_hours (history : list (gmap string pyval)) :
  Forall (session_well_formed fromisoformat) history →
  (omap (session_pair fromisoformat) history).*1 = omap (session_hour fromisoformat) history.
Proof.
  induction 1 as [|session rest Hs _ IH]; [done|].
  destruct (session_well_formed_pair _ Hs) as (s & t & v & a & Hd & Ht & Ha & Hn & Hp).
  cbn [omap list_omap]. rewrite Hp.
  assert (Hh : session_hour fromisoformat session = Some (dt_hour t)).
  { unfold session_hour. rewrite Hd, Ht. done. }
  rewrite Hh. cbn [fmap list_fmap fst]. by rewrite <- IH.
Qed.

Lemma best_loop_spec (accs : Z → list pyval) (m : Z → Q) (keys : list Z) (bh : Z) (ba : Q) :
  (∀ h, h ∈ keys → np_mean float_mean (accs h) = Ok (m h)) →
  ∃ bh' ba',
    best_loop float_mean ((λ h, (h, accs h)) <$> keys) bh ba = Ok (bh', ba')
    ∧ best_spec m keys bh ba bh' ba'.
Proof.
  revert bh ba. induction keys as [|k keys IH]; intros bh ba Hm.
  - exists bh, ba. split; [done|]. left. repeat split. intros h Hh. by inversion Hh.
  - cbn [fmap list_fmap best_loop]. rewrite (Hm k) by set_solver.
    cbn [mbind result_bind].
    assert (Hm' : ∀ h, h ∈ keys → np_mean float_mean (accs h) = Ok (m h)) by (intros; apply Hm; set_solver).
    destruct (Qltb ba (m k)) eqn:Hlt.
    + apply Qltb_true in Hlt.
      destruct (IH k (m k) Hm') as (bh' & ba' & Hrun & Hspec).
      exists bh', ba'. split; [done|]. right.
      destruct Hspec as [(-> & -> & Hall)|(pre & post & -> & -> & Hlt' & Hpre & Hpost)].
      * exists [], keys. repeat split; try done. intros h Hh. by inversion Hh.
      * exists (k :: pre), post. repeat split; try done.
        -- eapply Qlt_trans; eauto.
        -- intros h Hh. apply elem_of_cons in Hh as [->|Hh]; [done|by apply Hpre].
    + apply Qltb_false in Hlt.
      destruct (IH bh ba Hm') as (bh' & ba' & Hrun & Hspec).
      exists bh', ba'. split; [done|].
      destruct Hspec as [(-> & -> & Hall)|(pre & post & -> & -> & Hlt' & Hpre & Hpost)].
      * left. repeat split. intros h Hh.
        apply elem_of_cons in Hh as [->|Hh]; [done|by apply Hall].
      * right. exists (k :: pre), post. repeat split; try done.
        intros h Hh. apply elem_of_cons in Hh as [->|Hh]; [|by apply Hpre].
        eapply Qle_lt_trans; eauto.
Qed.

(** The best hour found for a well-formed history. *)
Lemma best_hour_of_spec (history : list (gmap string pyval)) :
  Forall (session_well_formed fromisoformat) history →
  ∃ best ba,
    best_hour_of fromisoformat float_mean history = Ok best
    ∧ best_spec (λ h, mean_accuracy_at fromisoformat float_mean h history)
        (hours_in_order fromisoformat history) 9 0%Q best ba.
Proof.
  intros Hwf. unfold best_hour_of.
  rewrite (bucket_loop_fold history [] Hwf). cbn [mbind result_bind].
  set (ps := omap (session_pair fromisoformat) history).
  set (tp := fold_left add_pair ps []).
  assert (Hkeys : tp.*1 = hours_in_order fromisoformat history).
  { unfold tp, hours_in_order. rewrite bucket_keys_first_occurrences.
    unfold ps. by rewrite omap_session_pair_hours. }
  assert (Hnd : NoDup (tp.*1)).
  { rewrite Hkeys. apply first_occurrences_NoDup. }
  rewrite (buckets_as_map tp Hnd). rewrite Hkeys.
  destruct (best_loop_spec (bucket_lookup tp)
              (λ h, mean_accuracy_at fromisoformat float_mean h history)
              (hours_in_order fromisoformat history) 9 0%Q) as (bh' & ba' & Hrun & Hspec).
  { intros h _. unfold tp. rewrite fold_add_pair_lookup. cbn [bucket_lookup app].
    unfold np_mean, ps. rewrite (values_at_nums history h Hwf). done. }
  exists bh', ba'. rewrite Hrun. done.
Qed.

Lemma durations_of_spec (history : list (gmap string pyval)) :
  Forall (session_well_formed fromisoformat) history →
  ∃ ds, durations_of history = Ok ds
        ∧ nums_of ds = Ok (Reference.durations history).
Proof.
  induction 1 as [|session rest Hs _ (ds & Hds & Hn)]; [by exists []|].
  destruct Hs as (_ & _ & [q Hq]). unfold number_at in Hq.
  destruct (session !! "duration") as [v|] eqn:Ed; [|done].
  destruct (as_num v) as [n|] eqn:En; [|done].
  exists (v :: ds). cbn [durations_of]. unfold dict_getitem. rewrite Ed.
  cbn [mbind result_bind]. rewrite Hds. split; [done|].
  cbn [nums_of]. rewrite En, Hn. unfold Reference.durations.
  cbn [omap list_omap mbind result_bind]. unfold number_at at 2. by rewrite Ed, En.
Qed.

End StudyTime.


Example suggest_sample :
  Scheduler.suggest_optimal_study_time Iso.fromisoformat
    Scheduler.exact_mean Scheduler.exact_median sample_history =
    Ok (Scheduler.mk_suggestion "20:00" 30 (3 # 10) "Based on 3 previous sessions").
Proof. vm_compute. reflexivity. Qed.


(** ** Missing and malformed fields *)

Section Defined.
Import Scheduler Reference.
Variable fromisoformat : string → option datetime.
Variable float_mean float_median : list Q → Q.





End Defined.



Example calculate_next_review_missing_accuracy :
  Scheduler.calculate_next_review (naive 0) 0 [record_without_accuracy] =
    Ok (dt_add_days (naive 0) 7).
Proof. vm_compute. reflexivity. Qed.


(** ** Stable sorting *)

Section StableSortFacts.
Context {A : Type} (before : A → A → bool).

Lemma sort_insert_Permutation (x : A) (l : list A) :
  sort_insert before x l ≡ₚ x :: l.
Proof.
  induction l as [|y l IH]; simpl; [done|].
  destruct (before x y); [done|].
  rewrite IH. apply Permutation_swap.
Qed.

Lemma stable_sort_Permutation (l : list A) : stable_sort before l ≡ₚ l.
Proof.
  induction l as [|x l IH]; simpl; [done|].
  fold (stable_sort before l). by rewrite sort_insert_Permutation, IH.
Qed.

Lemma stable_sort_length (l : list A) : length (stable_sort before l) = length l.
Proof. apply Permutation_length, stable_sort_Permutation. Qed.

(** Elements of a class whose members are all [before] one another keep
    their input order. *)
Lemma sort_insert_stable (P : A → bool) (x : A) (l : list A) :
  (∀ y, y ∈ l → P x = true → P y = true → before x y = true) →
  List.filter P (sort_insert before x l) = List.filter P (x :: l).
Proof.
  induction l as [|y l IH]; intros Hcls; [done|].
  cbn [sort_insert]. destruct (before x y) eqn:Hxy; [done|].
  cbn [List.filter]. rewrite IH by (intros; apply Hcls; set_solver).
  cbn [List.filter]. destruct (P x) eqn:Hx; [|done].
  destruct (P y) eqn:Hy; [|done].
  rewrite Hcls in Hxy; [done|set_solver|done|done].
Qed.

Lemma stable_sort_stable (P : A → bool) (l : list A) :
  (∀ x y, x ∈ l → y ∈ l → P x = true → P y = true → before x y = true) →
  List.filter P (stable_sort before l) = List.filter P l.
Proof.
  induction l as [|x l IH]; intros Hcls; [done|].
  cbn [stable_sort fold_right]. fold (stable_sort before l).
  rewrite sort_insert_stable.
  - cbn [List.filter]. rewrite IH; [done|]. intros; apply Hcls; set_solver.
  - intros y Hy. rewrite stable_sort_Permutation in Hy. apply Hcls; set_solver.
Qed.

Hypothesis before_total : ∀ x y, before x y = true ∨ before y x = true.
Hypothesis before_trans :
  ∀ x y z, before x y = true → before y z = true → before x z = true.

Lemma sort_insert_sorted (x : A) (l : list A) :
  StronglySorted (λ a b, before a b = true) l →
  StronglySorted (λ a b, before a b = true) (sort_insert before x l).
Proof.
  induction 1 as [|y l Hs IH Hy]; simpl; [repeat constructor|].
  destruct (before x y) eqn:Hxy.
  - constructor; [by constructor|]. constructor; [done|].
    eapply Forall_impl; [exact Hy|]. intros z Hz. by eapply before_trans.
  - constructor; [done|].
    rewrite sort_insert_Permutation. constructor; [|done].
    destruct (before_total x y); [congruence|done].
Qed.

Lemma stable_sort_sorted (l : list A) :
  StronglySorted (λ a b, before a b = true) (stable_sort before l).
Proof.
  induction l as [|x l IH]; simpl; [constructor|].
  by apply sort_insert_sorted.
Qed.

End StableSortFacts.

Lemma StronglySorted_weaken {A} (R S : A → A → Prop) (l : list A) :
  (∀ a b, R a b → S a b) → StronglySorted R l → StronglySorted S l.
Proof.
  intros HRS. induction 1 as [|x l _ IH Hx]; constructor; [done|].
  eapply Forall_impl; [exact Hx|]. intros; by apply HRS.
Qed.

Lemma StronglySorted_lookup {A} (R : A → A → Prop) (l : list A) (i j : nat) (a b : A) :
  StronglySorted R l → l !! i = Some a → l !! j = Some b → (i < j)%nat → R a b.
Proof.
  intros Hs. revert i j. induction Hs as [|x l _ IH Hx]; intros i j Hi Hj Hlt; [done|].
  destruct j as [|j]; [lia|]. cbn in Hj. destruct i as [|i]; cbn in Hi.
  - injection Hi as ->. rewrite Forall_forall in Hx. apply Hx.
    by eapply list_elem_of_lookup_2.
  - eapply IH; eauto. lia.
Qed.

Lemma StronglySorted_fmap {A B} (R : A → A → Prop) (S : B → B → Prop) (P : A → Prop)
    (f : A → B) (l : list A) :
  (∀ x y, P x → P y → R x y → S (f x) (f y)) →
  Forall P l → StronglySorted R l → StronglySorted S (f <$> l).
Proof.
  intros HRS HP Hs. induction Hs as [|x l _ IH Hx]; [constructor|].
  apply Forall_cons in HP as [Hpx HP]. cbn. constructor; [by apply IH|].
  rewrite Forall_fmap. rewrite Forall_forall in Hx, HP |- *.
  intros y Hy. apply HRS; auto.
Qed.

Lemma Qle_bool_total (x y : Q) : Qle_bool x y = true ∨ Qle_bool y x = true.
Proof.
  destruct (Qle_bool x y) eqn:E; [by left|right].
  apply Qle_bool_false in E. apply Qle_bool_iff. by apply Qlt_le_weak.
Qed.

Lemma Qle_bool_trans (x y z : Q) :
  Qle_bool x y = true → Qle_bool y z = true → Qle_bool x z = true.
Proof. rewrite !Qle_bool_iff. apply Qle_trans. Qed.

(** Sorting locations by decreasing integer key. *)
Lemma sort_by_decreasing_key {L} (key : L → Z) (l : list L) :
  let sorted :=
    snd <$> stable_sort (λ x y : Q * L, Qle_bool (fst y) (fst x))
              ((λ c, (inject_Z (key c), c)) <$> l) in
  sorted ≡ₚ l ∧ StronglySorted (λ a b, key b ≤ key a) sorted.
Proof.
  cbn zeta. split.
  - rewrite stable_sort_Permutation. rewrite <- list_fmap_compose.
    by rewrite list_fmap_id.
  - eapply (StronglySorted_fmap (λ a b : Q * L, Qle_bool (fst b) (fst a) = true) _
              (λ x, fst x = inject_Z (key (snd x)))).
    + intros [kx x] [ky y]. cbn [fst snd]. intros -> -> H.
      rewrite Qle_bool_inject_Z in H. lia.
    + rewrite stable_sort_Permutation. rewrite Forall_fmap. by apply Forall_true.
    + apply stable_sort_sorted.
      * intros x y. destruct (Qle_bool_total (fst y) (fst x)); auto.
      * intros x y z H1 H2. eapply Qle_bool_trans; eauto.
Qed.

(** The list whose middle gives the median is the sorted rearrangement of
    the input. *)
Lemma Qsort_sorted (l : list Q) :
  StronglySorted (λ a b, (a <= b)%Q) (Scheduler.Qsort l)
  ∧ Scheduler.Qsort l ≡ₚ l.
Proof.
  split; [|apply stable_sort_Permutation].
  eapply StronglySorted_weaken; [|apply stable_sort_sorted].
  - intros a b. apply Qle_bool_iff.
  - apply Qle_bool_total.
  - apply Qle_bool_trans.
Qed.

(** ** The object store *)

Section StoreFacts.
Import Personalizer.

Lemma bind_ok {S A B} (m : stateful S A) (f : A → stateful S B) (s s' : S) (a : A) :
  m s = (Ok a, s') → (m ≫= f) s = f a s'.
Proof. intros H. unfold mbind, stateful_bind. by rewrite H. Qed.

Lemma bind_raise {S A B} (m : stateful S A) (f : A → stateful S B) (s s' : S) (e : exn) :
  m s = (Raise e, s') → (m ≫= f) s = (Raise e, s').
Proof. intros H. unfold mbind, stateful_bind. by rewrite H. Qed.

Lemma read_dict_ok (h : gmap loc obj) (c : loc) (d : gmap string pyval) :
  h !! c = Some (ODict d) → read_dict c h = (Ok d, h).
Proof. intros H. unfold read_dict. by rewrite H. Qed.

Lemma read_list_ok (h : gmap loc obj) (c : loc) (l : list loc) :
  h !! c = Some (OList l) → read_list c h = (Ok l, h).
Proof. intros H. unfold read_list. by rewrite H. Qed.

Lemma write_key_ok (h : gmap loc obj) (c : loc) (d : gmap string pyval)
    (k : string) (v : pyval) :
  h !! c = Some (ODict d) →
  write_key c k v h = (Ok (), <[c := ODict (<[k := v]> d)]> h).
Proof. intros H. unfold write_key. by rewrite H. Qed.

Lemma write_list_ok (h : gmap loc obj) (c : loc) (l l' : list loc) :
  h !! c = Some (OList l) →
  write_list c l' h = (Ok (), <[c := OList l']> h).
Proof. intros H. unfold write_list. by rewrite H. Qed.

End StoreFacts.

(** ** Fast review *)

Lemma length_append (s t : string) :
  String.length (s +:+ t) = (String.length s + String.length t)%nat.
Proof. induction s as [|c s IH]; simpl; [done|]. by rewrite IH. Qed.

Lemma length_substring (n : nat) (s : string) :
  (n ≤ String.length s)%nat → String.length (String.substring 0 n s) = n.
Proof.
  revert s. induction n as [|n IH]; intros s Hn.
  - by destruct s.
  - destruct s as [|c s]; simpl in *; [lia|]. rewrite IH; [done|lia].
Qed.

Section FastReview.
Import Personalizer Reference.

Lemma truncate_field_spec (h : gmap loc obj) (c : loc) (d : gmap string pyval)
    (k : string) (limit : Z) (keep : nat) :
  h !! c = Some (ODict d) → text_or_absent d k → 0 ≤ limit →
  truncate_field c k limit keep h = (Ok (), <[c := ODict (truncated d k limit keep)]> h).
Proof.
  intros Hc Hk Hlim. unfold truncate_field, truncated, text_or_absent in *.
  rewrite (bind_ok _ _ _ _ _ (read_dict_ok h c d Hc)).
  unfold dict_get. destruct (d !! k) as [v|] eqn:Ek.
  - destruct v; try done. simpl py_len. unfold lift at 1.
    erewrite bind_ok by reflexivity.
    destruct (limit <? Z.of_nat (String.length s)).
    + by apply write_key_ok.
    + unfold mret, stateful_ret. by rewrite insert_id.
  - simpl py_len. unfold lift at 1. erewrite bind_ok by reflexivity.
    destruct (Z.ltb_spec limit (Z.of_nat 0)); [simpl in *; lia|].
    unfold mret, stateful_ret. by rewrite insert_id.
Qed.

Lemma truncated_text_or_absent (d : gmap string pyval) (k k' : string)
    (limit : Z) (keep : nat) :
  text_or_absent d k' → text_or_absent (truncated d k limit keep) k'.
Proof.
  unfold truncated, text_or_absent. intros H.
  destruct (d !! k) as [[]|] eqn:E; try done.
  destruct (limit <? _); [|done].
  destruct (decide (k = k')) as [->|Hne].
  - by rewrite lookup_insert_eq.
  - by rewrite lookup_insert_ne.
Qed.

Lemma simplify_for_fast_review_run (h : gmap loc obj) (card : loc) (d : gmap string pyval) :
  h !! card = Some (ODict d) →
  text_or_absent d "front" → text_or_absent d "back" →
  _simplify_for_fast_review card h =
    (Ok card,
     <[card := ODict (<["simplified" := PBool true]>
                        (truncated (truncated d "front" 100 97) "back" 150 147))]> h).
Proof.
  intros Hc Hf Hb. unfold _simplify_for_fast_review.
  rewrite (bind_ok _ _ _ _ _ (truncate_field_spec h card d "front" 100 97 Hc Hf ltac:(lia))).
  erewrite bind_ok; cycle 1.
  { apply truncate_field_spec; [apply lookup_insert_eq| |lia].
    by apply truncated_text_or_absent. }
  erewrite bind_ok; cycle 1.
  { apply write_key_ok. apply lookup_insert_eq. }
  unfold mret, stateful_ret. by rewrite !insert_insert_eq.
Qed.

End FastReview.

Section FastReviewLookups.
Import Personalizer.

Lemma truncated_lookup_ne (d : gmap string pyval) (k k' : string) (limit : Z) (keep : nat) :
  k ≠ k' → truncated d k limit keep !! k' = d !! k'.
Proof.
  intros Hne. unfold truncated. destruct (d !! k) as [[]|]; try done.
  destruct (limit <? _); [|done]. by rewrite lookup_insert_ne.
Qed.

Lemma truncated_lookup_eq (d : gmap string pyval) (k s : string) (limit : Z) (keep : nat) :
  d !! k = Some (PStr s) →
  truncated d k limit keep !! k =
    Some (PStr (if limit <? Z.of_nat (String.length s)
                then String.substring 0 keep s +:+ "..." else s)).
Proof.
  intros H. unfold truncated. rewrite H.
  destruct (limit <? _); [by rewrite lookup_insert_eq|done].
Qed.

End FastReviewLookups.

(** C8.  [_simplify_for_fast_review] on a card whose front and back are
    strings (or absent): a front of more than 100 characters becomes its
    first 97 characters followed by "...", of length 100; a back of more
    than 150 characters becomes its first 147 characters followed by
    "...", of length 150; a front of at most 100 characters and a back of
    at most 150 are left as they are. *)
Theorem fast_review_truncation
    (h : gmap Personalizer.loc Personalizer.obj) (card : Personalizer.loc)
    (d : gmap string pyval) :
  h !! card = Some (Personalizer.ODict d) →
  Reference.text_or_absent d "front" → Reference.text_or_absent d "back" →
  ∃ d', Personalizer._simplify_for_fast_review card h =
          (Ok card, <[card := Personalizer.ODict d']> h)
    ∧ (∀ s, d !! "front" = Some (PStr s) →
         ((100 < String.length s)%nat →
            d' !! "front" = Some (PStr (String.substring 0 97 s +:+ "..."))
            ∧ String.length (String.substring 0 97 s +:+ "...") = 100%nat)
         ∧ ((String.length s ≤ 100)%nat → d' !! "front" = Some (PStr s)))
    ∧ (∀ s, d !! "back" = Some (PStr s) →
         ((150 < String.length s)%nat →
            d' !! "back" = Some (PStr (String.substring 0 147 s +:+ "..."))
            ∧ String.length (String.substring 0 147 s +:+ "...") = 150%nat)
         ∧ ((String.length s ≤ 150)%nat → d' !! "back" = Some (PStr s))).
Proof.
  intros Hc Hf Hb. eexists. split.
  { by apply simplify_for_fast_review_run. }
  split.
  - intros s Hs. rewrite lookup_insert_ne by done.
    rewrite truncated_lookup_ne by done.
    rewrite (truncated_lookup_eq d "front" s 100 97 Hs).
    split.
    + intros Hlen. destruct (Z.ltb_spec 100 (Z.of_nat (String.length s))); [|lia].
      split; [done|]. rewrite length_append, length_substring by lia. done.
    + intros Hlen. destruct (Z.ltb_spec 100 (Z.of_nat (String.length s))); [lia|done].
  - intros s Hs. rewrite lookup_insert_ne by done.
    assert (Hs' : truncated d "front" 100 97 !! "back" = Some (PStr s)).
    { by rewrite truncated_lookup_ne. }
    rewrite (truncated_lookup_eq _ "back" s 150 147 Hs').
    split.
    + intros Hlen. destruct (Z.ltb_spec 150 (Z.of_nat (String.length s))); [|lia].
      split; [done|]. rewrite length_append, length_substring by lia. done.
    + intros Hlen. destruct (Z.ltb_spec 150 (Z.of_nat (String.length s))); [lia|done].
Qed.

Lemma fast_review_truncation_witness :
  long_card_store !! 1%positive = Some (Personalizer.ODict long_card)
  ∧ Reference.text_or_absent long_card "front"
  ∧ Reference.text_or_absent long_card "back"
  ∧ ∃ d', Personalizer._simplify_for_fast_review 1%positive long_card_store =
          (Ok 1%positive, <[1%positive := Personalizer.ODict d']> long_card_store)
    ∧ (∀ s, long_card !! "front" = Some (PStr s) →
         ((100 < String.length s)%nat →
            d' !! "front" = Some (PStr (String.substring 0 97 s +:+ "..."))
            ∧ String.length (String.substring 0 97 s +:+ "...") = 100%nat)
         ∧ ((String.length s ≤ 100)%nat → d' !! "front" = Some (PStr s)))
    ∧ (∀ s, long_card !! "back" = Some (PStr s) →
         ((150 < String.length s)%nat →
            d' !! "back" = Some (PStr (String.substring 0 147 s +:+ "..."))
            ∧ String.length (String.substring 0 147 s +:+ "...") = 150%nat)
         ∧ ((String.length s ≤ 150)%nat → d' !! "back" = Some (PStr s))).
Proof.
  assert (H1 : long_card_store !! 1%positive = Some (Personalizer.ODict long_card))
    by reflexivity.
  assert (H2 : Reference.text_or_absent long_card "front") by (vm_compute; exact I).
  assert (H3 : Reference.text_or_absent long_card "back") by (vm_compute; exact I).
  split; [exact H1|]. split; [exact H2|]. split; [exact H3|].
  exact (fast_review_truncation long_card_store 1%positive long_card H1 H2 H3).
Defined.

Example fast_review_lengths :
  match fst (Personalizer._simplify_for_fast_review 1%positive long_card_store),
        snd (Personalizer._simplify_for_fast_review 1%positive long_card_store)
          !! 1%positive with
  | Ok _, Some (Personalizer.ODict d) =>
    (String.length <$> (match d !! "front" with Some (PStr s) => Some s | _ => None end),
     String.length <$> (match d !! "back" with Some (PStr s) => Some s | _ => None end))
  | _, _ => (None, None)
  end = (Some 100%nat, Some 150%nat).
Proof. vm_compute. reflexivity. Qed.

(** ** Spaced-repetition order *)

Section SpacedRepetition.
Import Personalizer Reference.
Variable fromisoformat : string → option datetime.
Variable now : datetime.
Hypothesis now_naive : dt_offset now = None.

Lemma priority_insert (d : gmap string pyval) (v : pyval) :
  priority fromisoformat now (<["priority" := v]> d) = priority fromisoformat now d.
Proof. unfold priority. by rewrite lookup_insert_ne. Qed.

Lemma set_priority_spec (h : gmap loc obj) (c : loc) (d : gmap string pyval) :
  h !! c = Some (ODict d) →
  last_reviewed_well_formed fromisoformat d →
  set_priority fromisoformat now c h =
    (Ok (), <[c := ODict (<["priority" := PInt (priority fromisoformat now d)]> d)]> h).
Proof.
  intros Hc Hwf. unfold set_priority.
  rewrite (bind_ok _ _ _ _ _ (read_dict_ok h c d Hc)).
  unfold last_reviewed_well_formed in Hwf. unfold priority, dict_get.
  destruct (d !! "last_reviewed") as [v|] eqn:E.
  - destruct v; try done.
    + simpl. by apply write_key_ok.
    + destruct Hwf as (Hne & t & Ht & Hoff). simpl.
      destruct (String.eqb_spec s ""); [done|]. simpl. rewrite Ht.
      unfold dt_sub_days. rewrite now_naive, Hoff. unfold lift.
      erewrite bind_ok by reflexivity. by apply write_key_ok.
  - simpl. by apply write_key_ok.
Qed.

Lemma for_each_set_priority (h : gmap loc obj) (rest done : list loc) (h1 : gmap loc obj) :
  (∀ c, c ∈ rest → ∃ d, h !! c = Some (ODict d) ∧ last_reviewed_well_formed fromisoformat d) →
  priorities_set fromisoformat now h done h1 →
  ∃ h2, for_each (set_priority fromisoformat now) rest h1 = (Ok (), h2)
        ∧ priorities_set fromisoformat now h (done ++ rest) h2.
Proof.
  revert done h1. induction rest as [|c rest IH]; intros done h1 Hwf Hinv.
  - exists h1. split; [done|]. by rewrite app_nil_r.
  - destruct (Hwf c) as (d & Hc & Hd); [set_solver|].
    assert (∃ d', h1 !! c = Some (ODict d')
                  ∧ last_reviewed_well_formed fromisoformat d'
                  ∧ <["priority" := PInt (priority fromisoformat now d')]> d'
                    = <["priority" := PInt (priority fromisoformat now d)]> d)
      as (d' & Hc' & Hd' & Heq).
    { rewrite (Hinv c), Hc. destruct (decide (c ∈ done)).
      - eexists. split; [done|]. split.
        + unfold last_reviewed_well_formed. by rewrite lookup_insert_ne.
        + by rewrite priority_insert, insert_insert_eq.
      - by exists d. }
    cbn [for_each].
    rewrite (bind_ok _ _ _ _ _ (set_priority_spec h1 c d' Hc' Hd')). rewrite Heq.
    destruct (IH (done ++ [c])
                (<[c := ODict (<["priority" := PInt (priority fromisoformat now d)]> d)]> h1))
      as (h2 & Hrun & Hinv2).
    + intros; apply Hwf; set_solver.
    + intros c'. destruct (decide (c' = c)) as [->|Hne].
      * rewrite lookup_insert_eq, decide_True by set_solver. by rewrite Hc.
      * rewrite lookup_insert_ne by done. rewrite (Hinv c').
        destruct (decide (c' ∈ done)).
        -- by rewrite decide_True by set_solver.
        -- by rewrite decide_False by set_solver.
    + exists h2. split; [done|]. by rewrite <- app_assoc in Hinv2.
Qed.

Lemma sort_keys_priorities (h h1 : gmap loc obj) (l done : list loc) :
  (∀ c, c ∈ l → ∃ d, h !! c = Some (ODict d)) →
  l ⊆ done →
  priorities_set fromisoformat now h done h1 →
  sort_keys priority_key l h1 =
    (Ok ((λ c, (inject_Z (card_priority fromisoformat now h c), c)) <$> l), h1).
Proof.
  intros Hd Hsub Hinv. induction l as [|c l IH]; [done|].
  destruct (Hd c) as (d & Hc); [set_solver|].
  cbn [sort_keys]. erewrite bind_ok; cycle 1.
  { apply read_dict_ok. rewrite (Hinv c), decide_True by set_solver. by rewrite Hc. }
  assert (Hk : priority_key (<["priority" := PInt (priority fromisoformat now d)]> d)
               = Ok (inject_Z (priority fromisoformat now d))).
  { unfold priority_key, dict_get. by rewrite lookup_insert_eq. }
  rewrite Hk. unfold lift at 1. erewrite bind_ok by reflexivity.
  erewrite bind_ok; cycle 1.
  { apply IH; [intros; apply Hd; set_solver|set_solver]. }
  unfold mret, stateful_ret. cbn [fmap list_fmap].
  assert (card_priority fromisoformat now h c = priority fromisoformat now d) as ->.
  { unfold card_priority. by rewrite Hc. }
  done.
Qed.

Lemma never_reviewed_priority (d : gmap string pyval) :
  never_reviewed d → priority fromisoformat now d = 999.
Proof. unfold priority. by intros [-> | ->]. Qed.

Lemma reviewed_days_ago_priority (d : gmap string pyval) (n : Z) :
  reviewed_days_ago fromisoformat now d n → priority fromisoformat now d = n.
Proof. unfold priority. intros (s & t & -> & -> & ->). done. Qed.

Lemma apply_spaced_repetition_order_run (h : gmap loc obj) (cards : loc) (l : list loc) :
  h !! cards = Some (OList l) →
  (∀ c, c ∈ l → ∃ d, h !! c = Some (ODict d) ∧ last_reviewed_well_formed fromisoformat d) →
  ∃ h1,
    priorities_set fromisoformat now h l h1
    ∧ _apply_spaced_repetition_order fromisoformat now cards h =
        (Ok cards,
         <[cards := OList
             (snd <$> stable_sort (λ x y : Q * loc, Qle_bool (fst y) (fst x))
                ((λ c, (inject_Z (card_priority fromisoformat now h c), c)) <$> l))]> h1).
Proof.
  intros Hcards Hwf.
  destruct (for_each_set_priority h l [] h Hwf) as (h1 & Hloop & Hinv).
  { intros c. by rewrite decide_False by set_solver. }
  cbn [app] in Hinv. exists h1. split; [done|].
  assert (Hcards1 : h1 !! cards = Some (OList l)).
  { rewrite (Hinv cards), Hcards. by destruct (decide (cards ∈ l)). }
  unfold _apply_spaced_repetition_order.
  rewrite (bind_ok _ _ _ _ _ (read_list_ok h cards l Hcards)).
  rewrite (bind_ok _ _ _ _ _ Hloop).
  unfold sort_descending.
  erewrite bind_ok; [done|].
  rewrite (bind_ok _ _ _ _ _ (read_list_ok h1 cards l Hcards1)).
  erewrite bind_ok; cycle 1.
  { apply (sort_keys_priorities h h1 l l); [|done|done].
    intros c Hc. destruct (Hwf c Hc) as (d & Hd & _). eauto. }
  by eapply write_list_ok.
Qed.

End SpacedRepetition.

(** C4, as amended.  [_apply_spaced_repetition_order] gives every card a
    priority, the whole days since its last review or 999 when it has never
    been reviewed, and rearranges the deck in decreasing order of
    priority.  A card that has never been reviewed is therefore placed
    before every card last reviewed fewer than 999 days ago. *)
Theorem spaced_repetition_order_sorted
    (fromisoformat : string → option datetime) (now : datetime)
    (h : gmap Personalizer.loc Personalizer.obj) (cards : Personalizer.loc)
    (l : list Personalizer.loc) :
  dt_offset now = None →
  h !! cards = Some (Personalizer.OList l) →
  (∀ c, c ∈ l → ∃ d, h !! c = Some (Personalizer.ODict d)
                     ∧ Reference.last_reviewed_well_formed fromisoformat d) →
  ∃ l' h',
    Personalizer._apply_spaced_repetition_order fromisoformat now cards h = (Ok cards, h')
    ∧ h' !! cards = Some (Personalizer.OList l')
    ∧ l' ≡ₚ l
    ∧ StronglySorted
        (λ a b, Reference.card_priority fromisoformat now h b
                ≤ Reference.card_priority fromisoformat now h a) l'
    ∧ (∀ c d, c ∈ l → h !! c = Some (Personalizer.ODict d) →
         h' !! c = Some (Personalizer.ODict
                           (<["priority" := PInt (Reference.priority fromisoformat now d)]> d)))
    ∧ (∀ u v du dv n i j,
         h !! u = Some (Personalizer.ODict du) → Reference.never_reviewed du →
         h !! v = Some (Personalizer.ODict dv) →
         Reference.reviewed_days_ago fromisoformat now dv n → n < 999 →
         l' !! j = Some u → l' !! i = Some v → (j < i)%nat).
Proof.
  intros Hnow Hcards Hwf.
  destruct (apply_spaced_repetition_order_run fromisoformat now Hnow h cards l Hcards Hwf)
    as (h1 & Hinv & Hrun).
  destruct (sort_by_decreasing_key (Reference.card_priority fromisoformat now h) l)
    as [Hperm Hsorted].
  eexists _, _. split; [exact Hrun|].
  split; [apply lookup_insert_eq|].
  split; [exact Hperm|]. split; [exact Hsorted|]. split.
  - intros c d Hc Hd.
    assert (c ≠ cards) by (intros ->; congruence).
    rewrite lookup_insert_ne by done.
    rewrite (Hinv c), decide_True by done. by rewrite Hd.
  - intros u v du dv n i j Hu Hnever Hv Hrev Hn Hj Hi.
    destruct (decide (j < i)%nat) as [|Hge]; [done|]. exfalso.
    assert (Hpu : Reference.card_priority fromisoformat now h u = 999).
    { unfold Reference.card_priority. rewrite Hu.
      by apply never_reviewed_priority. }
    assert (Hpv : Reference.card_priority fromisoformat now h v = n).
    { unfold Reference.card_priority. rewrite Hv.
      by apply reviewed_days_ago_priority. }
    destruct (decide (i = j)) as [->|Hne].
    + rewrite Hj in Hi. injection Hi as ->. lia.
    + pose proof (StronglySorted_lookup _ _ i j v u Hsorted Hi Hj ltac:(lia)) as Hle.
      cbn in Hle. lia.
Qed.

Lemma spaced_repetition_order_sorted_witness :
  dt_offset sample_now = None
  ∧ review_store !! 5%positive = Some (Personalizer.OList [3; 2; 1]%positive)
  ∧ (∀ c, c ∈ [3; 2; 1]%positive →
       ∃ d, review_store !! c = Some (Personalizer.ODict d)
            ∧ Reference.last_reviewed_well_formed Iso.fromisoformat d)
  ∧ ∃ l' h',
    Personalizer._apply_spaced_repetition_order Iso.fromisoformat sample_now
      5%positive review_store = (Ok 5%positive, h')
    ∧ h' !! 5%positive = Some (Personalizer.OList l')
    ∧ l' ≡ₚ [3; 2; 1]%positive
    ∧ StronglySorted
        (λ a b, Reference.card_priority Iso.fromisoformat sample_now review_store b
                ≤ Reference.card_priority Iso.fromisoformat sample_now review_store a) l'
    ∧ (∀ c d, c ∈ [3; 2; 1]%positive → review_store !! c = Some (Personalizer.ODict d) →
         h' !! c = Some (Personalizer.ODict
                           (<["priority" :=
                                PInt (Reference.priority Iso.fromisoformat sample_now d)]> d)))
    ∧ (∀ u v du dv n i j,
         review_store !! u = Some (Personalizer.ODict du) → Reference.never_reviewed du →
         review_store !! v = Some (Personalizer.ODict dv) →
         Reference.reviewed_days_ago Iso.fromisoformat sample_now dv n → n < 999 →
         l' !! j = Some u → l' !! i = Some v → (j < i)%nat).
Proof.
  assert (Hnow : dt_offset sample_now = None) by reflexivity.
  assert (Hdeck : review_store !! 5%positive = Some (Personalizer.OList [3; 2; 1]%positive))
    by reflexivity.
  assert (Hwf : ∀ c, c ∈ [3; 2; 1]%positive →
       ∃ d, review_store !! c = Some (Personalizer.ODict d)
            ∧ Reference.last_reviewed_well_formed Iso.fromisoformat d).
  { intros c Hc. repeat (apply elem_of_cons in Hc as [->|Hc]).
    - eexists. split; [reflexivity|]. split; [done|]. eexists. split; reflexivity.
    - eexists. split; [reflexivity|]. exact I.
    - eexists. split; [reflexivity|]. split; [done|]. eexists. split; reflexivity.
    - by apply elem_of_nil in Hc. }
  split; [exact Hnow|]. split; [exact Hdeck|]. split; [exact Hwf|].
  exact (spaced_repetition_order_sorted Iso.fromisoformat sample_now review_store
           5%positive [3; 2; 1]%positive Hnow Hdeck Hwf).
Defined.

Example spaced_repetition_order_sample :
  snd (Personalizer._apply_spaced_repetition_order Iso.fromisoformat sample_now
         5%positive review_store) !! 5%positive
  = Some (Personalizer.OList [1; 2; 3]%positive).
Proof. vm_compute. reflexivity. Qed.

(** C4, counterexample.  Card 1 was last reviewed 1978 days ago and card 2
    has never been reviewed; in the deck [1; 2] the reviewed card stays in
    front of the card that has never been reviewed. *)
Lemma spaced_repetition_order_counterexample :
  review_store !! 1%positive = Some (Personalizer.ODict old_card)
  ∧ Reference.reviewed_days_ago Iso.fromisoformat sample_now old_card 1978
  ∧ review_store !! 2%positive = Some (Personalizer.ODict card_new)
  ∧ Reference.never_reviewed card_new
  ∧ review_store !! 4%positive = Some (Personalizer.OList [1; 2]%positive)
  ∧ fst (Personalizer._apply_spaced_repetition_order Iso.fromisoformat sample_now
           4%positive review_store) = Ok 4%positive
  ∧ snd (Personalizer._apply_spaced_repetition_order Iso.fromisoformat sample_now
           4%positive review_store) !! 4%positive
    = Some (Personalizer.OList [1; 2]%positive).
Proof.
  split; [reflexivity|]. split.
  { eexists _, _. split; [reflexivity|]. split; [reflexivity|]. vm_compute. reflexivity. }
  split; [reflexivity|]. split; [by left|].
  split; [reflexivity|]. split; vm_compute; reflexivity.
Qed.

(** ** Sessions leave their input alone *)

Section Frame.
Import Personalizer.

(** The store [h0] at the start of the call. *)
Variable h0 : gmap loc obj.

Lemma hoare_bind {A B} (P : gmap loc obj → Prop) (m : St A) (f : A → St B)
    (Q : A → gmap loc obj → Prop) (R : B → gmap loc obj → Prop)
    (E : gmap loc obj → Prop) :
  hoare P m Q E → (∀ a, hoare (Q a) (f a) R E) → hoare P (m ≫= f) R E.
Proof.
  intros Hm Hf h HP. specialize (Hm h HP).
  unfold mbind, stateful_bind. destruct (m h) as [[a|e] h']; [|done].
  by apply Hf.
Qed.

Lemma hoare_ret {A} (P : gmap loc obj → Prop) (a : A)
    (Q : A → gmap loc obj → Prop) (E : gmap loc obj → Prop) :
  (∀ h, P h → Q a h) → hoare P (mret a) Q E.
Proof. intros H h HP. by apply H. Qed.

Lemma hoare_raise {A} (P E : gmap loc obj → Prop) (e : exn)
    (Q : A → gmap loc obj → Prop) :
  (∀ h, P h → E h) → hoare P (raise e) Q E.
Proof. intros H h HP. by apply H. Qed.

Lemma hoare_lift {A} (P : gmap loc obj → Prop) (r : result A) :
  hoare P (lift r) (λ _, P) P.
Proof. intros h HP. unfold lift. by destruct r. Qed.

Lemma hoare_weaken {A} (P P' : gmap loc obj → Prop) (m : St A)
    (Q Q' : A → gmap loc obj → Prop) (E E' : gmap loc obj → Prop) :
  hoare P' m Q' E' → (∀ h, P h → P' h) → (∀ a h, Q' a h → Q a h) →
  (∀ h, E' h → E h) → hoare P m Q E.
Proof.
  intros Hm HP HQ HE h Hh. specialize (Hm h (HP h Hh)).
  destruct (m h) as [[a|e] h']; [by apply HQ|by apply HE].
Qed.

Lemma hoare_pure {A} (P : gmap loc obj → Prop) (φ : Prop) (m : St A)
    (Q : A → gmap loc obj → Prop) (E : gmap loc obj → Prop) :
  (φ → hoare P m Q E) → hoare (λ h, P h ∧ φ) m Q E.
Proof. intros H h [HP Hφ]. by apply H. Qed.

Lemma hoare_pure_l {A} (P : gmap loc obj → Prop) (φ : Prop) (m : St A)
    (Q : A → gmap loc obj → Prop) (E : gmap loc obj → Prop) :
  (φ → hoare P m Q E) → hoare (λ h, φ ∧ P h) m Q E.
Proof. intros H h [Hφ HP]. by apply H. Qed.

(** Reading *)
Lemma hoare_read_dict (P : gmap loc obj → Prop) (c : loc) :
  hoare P (read_dict c) (λ _, P) P.
Proof. intros h HP. unfold read_dict. by destruct (h !! c) as [[]|]. Qed.

Lemma hoare_read_any_list (P : gmap loc obj → Prop) (c : loc) :
  hoare P (read_list c) (λ _, P) P.
Proof. intros h HP. unfold read_list. by destruct (h !! c) as [[]|]. Qed.

Lemma hoare_read_list (deck : loc) :
  hoare (inv h0 deck) (read_list deck)
    (λ l h, inv h0 deck h ∧ ∀ c, c ∈ l → c ∉ dom h0) (inv h0 deck).
Proof.
  intros h HP. unfold read_list. destruct HP as [He (l & Hl & Hnew)].
  rewrite Hl. split; [|done]. split; [done|]. by exists l.
Qed.

(** Writing to an object that is not in [h0] *)
Lemma extends_insert (h : gmap loc obj) (c : loc) (o : obj) :
  c ∉ dom h0 → (extends h0) h → (extends h0) (<[c := o]> h).
Proof.
  intros Hc He l Hl. rewrite lookup_insert_ne; [by apply He|]. by intros ->.
Qed.

Lemma hoare_write_key (deck c : loc) (k : string) (v : pyval) :
  c ∉ dom h0 → hoare (inv h0 deck) (write_key c k v) (λ _, inv h0 deck) (inv h0 deck).
Proof.
  intros Hc h [He (l & Hl & Hnew)]. unfold write_key.
  destruct (h !! c) as [[d|l']|] eqn:E; try (split; [done|by exists l]).
  split; [by apply extends_insert|].
  exists l. split; [|done]. rewrite lookup_insert_ne; [done|]. intros ->. congruence.
Qed.

Lemma hoare_write_list (deck : loc) (l : list loc) :
  deck ∉ dom h0 → (∀ c, c ∈ l → c ∉ dom h0) →
  hoare (inv h0 deck) (write_list deck l) (λ _, inv h0 deck) (inv h0 deck).
Proof.
  intros Hdeck Hl h [He Hd]. unfold write_list.
  destruct (h !! deck) as [[d|l']|] eqn:E; try done.
  split; [by apply extends_insert|].
  exists l. by rewrite lookup_insert_eq.
Qed.

(** Creating an object *)
Lemma fresh_not_in_h0 (h : gmap loc obj) : (extends h0) h → fresh (dom h) ∉ dom h0.
Proof.
  intros He Hin. apply (is_fresh (dom h)).
  apply elem_of_dom. rewrite (He _ Hin). by apply elem_of_dom.
Qed.

Lemma hoare_alloc_dict (deck : loc) (d : gmap string pyval) :
  hoare (inv h0 deck) (alloc (ODict d)) (λ c h, (c ∉ dom h0) ∧ inv h0 deck h) (inv h0 deck).
Proof.
  intros h [He (l & Hl & Hnew)]. unfold alloc.
  pose proof (fresh_not_in_h0 h He) as Hf.
  split; [done|]. split; [by apply extends_insert|].
  exists l. split; [|done]. rewrite lookup_insert_ne; [done|].
  intros Heq. apply (is_fresh (dom h)). rewrite Heq. apply elem_of_dom. by rewrite Hl.
Qed.

Lemma hoare_alloc_deck :
  hoare (extends h0) (alloc (OList [])) (λ deck h, (deck ∉ dom h0) ∧ inv h0 deck h) (extends h0).
Proof.
  intros h He. unfold alloc.
  pose proof (fresh_not_in_h0 h He) as Hf.
  split; [done|]. split; [by apply extends_insert|].
  exists []. rewrite lookup_insert_eq. split; [done|].
  intros c Hc. by apply elem_of_nil in Hc.
Qed.

End Frame.

Section FrameFunctions.
Import Personalizer.

Variable h0 : gmap loc obj.
Variable shuffle : list pyval → list pyval.
Variable str_of : pyval → string.
Variable fromisoformat : string → option datetime.
Variable now : datetime.

(** One step of a computation that reads anywhere and writes only to
    objects that are not in [h0]. *)
Ltac frame_step :=
  match goal with
  | |- hoare _ (mret _) _ _ => apply hoare_ret; intros; auto
  | |- hoare _ (raise _) _ _ => apply hoare_raise; intros; auto
  | |- hoare _ (read_dict _ ≫= _) _ _ =>
    eapply hoare_bind; [apply hoare_read_dict|intros ?; cbv beta]
  | |- hoare _ (write_key _ _ _ ≫= _) _ _ =>
    eapply hoare_bind; [apply hoare_write_key; assumption|intros ?; cbv beta]
  | |- hoare _ (write_key _ _ _) _ _ =>
    apply hoare_write_key; assumption
  | |- hoare _ (lift _ ≫= _) _ _ =>
    eapply hoare_bind; [apply hoare_lift|intros ?; cbv beta]
  | |- hoare _ (if ?b then _ else _) _ _ => destruct b
  | |- hoare _ (match ?x with _ => _ end) _ _ => destruct x
  end.

Lemma frame_convert_to_multiple_choice (deck c : loc) :
  c ∉ dom h0 →
  hoare (inv h0 deck) (_convert_to_multiple_choice shuffle c)
    (λ r h, (r ∉ dom h0) ∧ inv h0 deck h) (inv h0 deck).
Proof. intros Hc. unfold _convert_to_multiple_choice. repeat frame_step. Qed.

Lemma frame_convert_to_reverse_questioning (deck c : loc) :
  c ∉ dom h0 →
  hoare (inv h0 deck) (_convert_to_reverse_questioning str_of c)
    (λ r h, (r ∉ dom h0) ∧ inv h0 deck h) (inv h0 deck).
Proof. intros Hc. unfold _convert_to_reverse_questioning. repeat frame_step. Qed.

Lemma frame_truncate_field (deck c : loc) (k : string) (limit : Z) (keep : nat) :
  c ∉ dom h0 →
  hoare (inv h0 deck) (truncate_field c k limit keep) (λ _, inv h0 deck) (inv h0 deck).
Proof. intros Hc. unfold truncate_field. repeat frame_step. Qed.

Lemma frame_simplify_for_fast_review (deck c : loc) :
  c ∉ dom h0 →
  hoare (inv h0 deck) (_simplify_for_fast_review c)
    (λ r h, (r ∉ dom h0) ∧ inv h0 deck h) (inv h0 deck).
Proof.
  intros Hc. unfold _simplify_for_fast_review.
  eapply hoare_bind; [by apply frame_truncate_field|intros ?; cbv beta].
  eapply hoare_bind; [by apply frame_truncate_field|intros ?; cbv beta].
  repeat frame_step.
Qed.

Lemma frame_adjust_for_weak_area (deck c : loc) :
  c ∉ dom h0 →
  hoare (inv h0 deck) (adjust_for_weak_area c) (λ _, inv h0 deck) (inv h0 deck).
Proof. intros Hc. unfold adjust_for_weak_area. repeat frame_step. Qed.

Lemma frame_set_priority (deck c : loc) :
  c ∉ dom h0 →
  hoare (inv h0 deck) (set_priority fromisoformat now c) (λ _, inv h0 deck) (inv h0 deck).
Proof. intros Hc. unfold set_priority. repeat frame_step. Qed.

Lemma frame_list_append (deck c : loc) :
  deck ∉ dom h0 → c ∉ dom h0 →
  hoare (inv h0 deck) (list_append deck c) (λ _, inv h0 deck) (inv h0 deck).
Proof.
  intros Hdeck Hc. unfold list_append.
  eapply hoare_bind; [apply hoare_read_list|intros l].
  intros h [Hinv Hl]. apply (hoare_write_list h0 deck (l ++ [c])); [done| |done].
  intros c' Hc'. apply elem_of_app in Hc' as [Hc'|Hc']; [by apply Hl|].
  apply list_elem_of_singleton in Hc'. by subst.
Qed.

Lemma frame_for_each (deck : loc) (body : loc → St unit) (l : list loc) :
  (∀ c, c ∈ l → hoare (inv h0 deck) (body c) (λ _, inv h0 deck) (inv h0 deck)) →
  hoare (inv h0 deck) (for_each body l) (λ _, inv h0 deck) (inv h0 deck).
Proof.
  induction l as [|c l IH]; intros Hbody; cbn [for_each].
  - by apply hoare_ret.
  - eapply hoare_bind; [apply Hbody; set_solver|intros ?; cbv beta].
    apply IH. intros; apply Hbody; set_solver.
Qed.

Lemma frame_sort_keys (P : gmap loc obj → Prop) (key : gmap string pyval → result Q)
    (l : list loc) :
  hoare P (sort_keys key l) (λ ks h, P h ∧ snd <$> ks = l) P.
Proof.
  induction l as [|c l IH]; cbn [sort_keys].
  - by apply hoare_ret.
  - eapply hoare_bind; [apply hoare_read_dict|intros d; cbv beta].
    eapply hoare_bind; [apply hoare_lift|intros k; cbv beta].
    eapply hoare_bind; [apply IH|intros ks; cbv beta].
    intros h [HP <-]. done.
Qed.

Lemma frame_sort (deck : loc) (before : Q * loc → Q * loc → bool)
    (key : gmap string pyval → result Q) :
  deck ∉ dom h0 →
  hoare (inv h0 deck)
    (l ← read_list deck; ks ← sort_keys key l;
     write_list deck (snd <$> stable_sort before ks))
    (λ _, inv h0 deck) (inv h0 deck).
Proof.
  intros Hdeck.
  eapply hoare_bind; [apply hoare_read_list|intros l; cbv beta].
  apply hoare_pure. intros Hl.
  eapply hoare_bind; [apply frame_sort_keys|intros ks; cbv beta].
  apply hoare_pure. intros <-.
  apply hoare_write_list; [done|].
  intros c Hc. apply Hl. by rewrite stable_sort_Permutation in Hc.
Qed.

Lemma frame_apply_spaced_repetition_order (deck : loc) :
  deck ∉ dom h0 →
  hoare (inv h0 deck) (_apply_spaced_repetition_order fromisoformat now deck)
    (λ r h, (r ∉ dom h0) ∧ inv h0 r h) (inv h0 deck).
Proof.
  intros Hdeck. unfold _apply_spaced_repetition_order.
  eapply hoare_bind; [apply hoare_read_list|intros l; cbv beta].
  apply hoare_pure. intros Hl.
  eapply hoare_bind.
  { apply frame_for_each. intros c Hc. apply frame_set_priority. by apply Hl. }
  intros ?. cbv beta.
  eapply hoare_bind; [by apply frame_sort|intros ?; cbv beta].
  by apply hoare_ret.
Qed.

Lemma frame_apply_difficulty_progression (deck : loc) :
  deck ∉ dom h0 →
  hoare (inv h0 deck) (_apply_difficulty_progression deck)
    (λ r h, (r ∉ dom h0) ∧ inv h0 r h) (inv h0 deck).
Proof.
  intros Hdeck. unfold _apply_difficulty_progression.
  eapply hoare_bind; [by apply frame_sort|intros ?; cbv beta].
  by apply hoare_ret.
Qed.

Lemma frame_personalize_card (mode : StudyMode) (profile : PersonalizationProfile)
    (deck card : loc) :
  deck ∉ dom h0 →
  hoare (inv h0 deck) (personalize_card shuffle str_of mode profile deck card)
    (λ _, inv h0 deck) (inv h0 deck).
Proof.
  intros Hdeck. unfold personalize_card, dict_copy.
  eapply hoare_bind.
  { eapply hoare_bind; [apply hoare_read_dict|intros d; cbv beta].
    apply hoare_alloc_dict. }
  intros c. cbv beta. apply hoare_pure_l. intros Hc.
  eapply hoare_bind.
  { instantiate (1 := λ r h, (r ∉ dom h0) ∧ inv h0 deck h).
    destruct mode.
    - by apply hoare_ret.
    - by apply frame_convert_to_multiple_choice.
    - by apply frame_convert_to_reverse_questioning.
    - by apply frame_simplify_for_fast_review.
    - by apply hoare_ret. }
  intros c'. cbv beta. apply hoare_pure_l. intros Hc'.
  eapply hoare_bind; [by apply hoare_write_key|intros ?; cbv beta].
  eapply hoare_bind; [apply hoare_read_dict|intros d; cbv beta].
  eapply hoare_bind.
  { instantiate (1 := λ _, inv h0 deck).
    destruct (weak_areas profile); [by apply hoare_ret|apply hoare_lift]. }
  intros weak. cbv beta.
  eapply hoare_bind.
  { instantiate (1 := λ _, inv h0 deck).
    destruct weak; [by apply frame_adjust_for_weak_area|by apply hoare_ret]. }
  intros ?. cbv beta. by apply frame_list_append.
Qed.

Lemma frame_personalize_cards (cards : loc) (mode : StudyMode)
    (profile : PersonalizationProfile) :
  hoare (extends h0)
    (_personalize_cards shuffle str_of fromisoformat now cards mode profile)
    (λ deck h, (deck ∉ dom h0) ∧ inv h0 deck h) (extends h0).
Proof.
  unfold _personalize_cards.
  eapply hoare_bind; [apply hoare_alloc_deck|intros deck; cbv beta].
  apply hoare_pure_l. intros Hdeck.
  eapply (hoare_weaken _ (inv h0 deck) _ _ (λ r h, (r ∉ dom h0) ∧ inv h0 r h) _
            (inv h0 deck)); [|done|done|by intros h [H _]].
  eapply hoare_bind; [apply hoare_read_any_list|intros l; cbv beta].
  eapply hoare_bind.
  { apply frame_for_each. intros c _. by apply frame_personalize_card. }
  intros ?. cbv beta. destruct mode.
  - by apply hoare_ret.
  - by apply hoare_ret.
  - by apply frame_apply_difficulty_progression.
  - by apply hoare_ret.
  - by apply frame_apply_spaced_repetition_order.
Qed.

End FrameFunctions.

(** C9.  [create_personalized_session] leaves every object of the store it
    is called in as it was: the caller's card list and every input card
    keep their contents, whatever the mode and the profile, and also when
    the call raises.  The deck of the session it returns is a list created
    by the call, and the cards in it are objects created by the call: the
    transformations, the weak-area adjustment and the reordering act on
    these copies only. *)
Theorem create_session_leaves_input_unchanged
    (shuffle : list pyval → list pyval) (str_of : pyval → string)
    (fromisoformat : string → option datetime) (now : datetime) (stamp user : string)
    (cards : Personalizer.loc) (mode : option StudyMode) (w : Personalizer.world) :
  let run := Personalizer.create_personalized_session shuffle str_of fromisoformat
               now stamp user cards mode w in
  (∀ l, l ∈ dom (Personalizer.store w) →
     Personalizer.store (snd run) !! l = Personalizer.store w !! l)
  ∧ (∀ s, fst run = Ok s →
       (Personalizer.cards s ∉ dom (Personalizer.store w))
       ∧ ∃ deck, Personalizer.store (snd run) !! Personalizer.cards s
                   = Some (Personalizer.OList deck)
                 ∧ ∀ c, c ∈ deck → c ∉ dom (Personalizer.store w)).
Proof.
  cbv zeta. unfold Personalizer.create_personalized_session.
  destruct (Personalizer.get_user_profile user (Personalizer.user_profiles w))
    as [profile profiles].
  set (m := match mode with
            | Some m => m
            | None => match Personalizer.preferred_modes profile with
                      | m :: _ => m
                      | [] => BASIC_EDUCATIONAL
                      end
            end).
  pose proof (frame_personalize_cards (Personalizer.store w) shuffle str_of
                fromisoformat now cards m profile (Personalizer.store w)) as H.
  destruct (Personalizer._personalize_cards shuffle str_of fromisoformat now cards m
              profile (Personalizer.store w)) as [[deck|e] h'].
  - destruct H as (Hdeck & He & (l & Hl & Hnew)); [by intros l|].
    split; [exact He|]. cbn. intros s [= <-]. cbn. eauto.
  - split; [|done]. cbn. apply H. by intros l.
Qed.

Example create_session_sample :
  let run :=
    Personalizer.create_personalized_session (λ l, l) (λ _, "") Iso.fromisoformat
      sample_now "0" "ana" 5%positive (Some CHALLENGE)
      (Personalizer.mk_world ∅ review_store) in
  Personalizer.store (snd run) !! 3%positive = Some (Personalizer.ODict recent_card)
  ∧ Personalizer.store (snd run) !! 5%positive
    = Some (Personalizer.OList [3; 2; 1]%positive)
  ∧ match fst run with
    | Ok s =>
      match Personalizer.store (snd run) !! Personalizer.cards s with
      | Some (Personalizer.OList (c :: _)) =>
        match Personalizer.store (snd run) !! c with
        | Some (Personalizer.ODict d) => d !! "back"
        | _ => None
        end
      | _ => None
      end
    | Raise _ => None
    end = Some (PStr "recent").
Proof. vm_compute. repeat split. Qed.

(** ** Updating a profile *)

Section ProfileUpdate.
Import Personalizer.

Lemma alter_lookup_insert {V} (f : V → V) (m : gmap string V) (i : string) (x : V) :
  m !! i = Some x → alter f i m = <[i := f x]> m.
Proof.
  intros H. apply map_eq. intros j. destruct (decide (i = j)) as [->|Hne].
  - by rewrite lookup_alter_eq, lookup_insert_eq, H.
  - by rewrite lookup_alter_ne, lookup_insert_ne.
Qed.

Lemma get_user_profile_lookup (user : string) (ps : gmap string PersonalizationProfile) :
  snd (get_user_profile user ps) !! user = Some (fst (get_user_profile user ps)).
Proof.
  unfold get_user_profile. destruct (ps !! user) eqn:E; cbn; [done|].
  by rewrite lookup_insert_eq.
Qed.

(** [update_user_profile] on a session whose responses can be read. *)
Lemma update_user_profile_steps (now_iso user : string) (session_data : gmap string pyval)
    (ps : gmap string PersonalizationProfile)
    (items topics : list pyval) (total correct : Z) (counts : list (pyval * nat)) :
  py_len (dict_get session_data "responses" (PList [])) = Ok total →
  py_iter (dict_get session_data "responses" (PList [])) = Ok items →
  count_correct items = Ok correct →
  collect_weak_topics items [] = Ok topics →
  Counter topics [] = Ok counts →
  let p0 := fst (get_user_profile user ps) in
  let ps0 := snd (get_user_profile user ps) in
  let p1 :=
    set_weak_areas (fst <$> most_common 5 counts)
      (set_performance_history
         (performance_history p0 ++ [entry_of now_iso session_data correct total]) p0) in
  let m := dict_get session_data "mode" PNone in
  update_user_profile now_iso user session_data ps =
    if num_ltb (NFloat (8 # 10)) (session_accuracy correct total)
       && negb (mode_in m (preferred_modes p0))
    then
      match StudyMode_of m with
      | Ok new_mode =>
        (Ok (), <[user := keep_recent
                             (set_preferred_modes (preferred_modes p0 ++ [new_mode]) p1)]> ps0)
      | Raise e => (Raise e, <[user := p1]> ps0)
      end
    else (Ok (), <[user := keep_recent p1]> ps0).
Proof.
  intros Hlen Hiter Hcount Htopics Hcounter. cbv zeta.
  pose proof (get_user_profile_lookup user ps) as Hp0.
  set (p0 := fst (get_user_profile user ps)) in *.
  set (ps0 := snd (get_user_profile user ps)) in *.
  unfold update_user_profile. rewrite Hlen, Hiter.
  unfold mbind at 1, stateful_bind at 1. unfold ensure_profile at 1. fold ps0.
  unfold lift.
  erewrite bind_ok by reflexivity. erewrite bind_ok by reflexivity.
  rewrite Hcount. erewrite bind_ok by reflexivity.
  fold (entry_of now_iso session_data correct total).
  erewrite bind_ok; cycle 1.
  { unfold modify_profile. rewrite (alter_lookup_insert _ _ _ _ Hp0). reflexivity. }
  rewrite Htopics. erewrite bind_ok by reflexivity.
  rewrite Hcounter. erewrite bind_ok by reflexivity.
  erewrite bind_ok; cycle 1.
  { unfold modify_profile. rewrite alter_insert_eq. reflexivity. }
  destruct (num_ltb (NFloat (8 # 10)) (session_accuracy correct total)) eqn:Hacc;
    cbn [andb].
  - unfold read_profile at 1. unfold mbind at 2, stateful_bind at 1.
    assert (Hget : fst (get_user_profile user
                (<[user := set_weak_areas (fst <$> most_common 5 counts)
                    (set_performance_history
                       (performance_history p0 ++
                          [entry_of now_iso session_data correct total])
                       p0)]> ps0))
             = set_weak_areas (fst <$> most_common 5 counts)
                    (set_performance_history
                       (performance_history p0 ++
                          [entry_of now_iso session_data correct total])
                       p0)).
    { unfold get_user_profile. by rewrite lookup_insert_eq. }
    unfold mbind at 1, stateful_bind at 1. cbv beta iota.
    rewrite Hget. cbn [preferred_modes set_weak_areas set_performance_history].
    destruct (mode_in (dict_get session_data "mode" PNone) (preferred_modes p0));
      cbn [negb].
    + unfold mret, stateful_ret, modify_profile.
      by rewrite alter_insert_eq.
    + destruct (StudyMode_of (dict_get session_data "mode" PNone)) as [nm|e];
        cbv beta iota; [|done].
      unfold mbind, stateful_bind, modify_profile.
      by rewrite !alter_insert_eq.
  - unfold mbind, stateful_bind, mret, stateful_ret, modify_profile.
    by rewrite alter_insert_eq.
Qed.

Lemma update_user_profile_run (now_iso user : string) (session_data : gmap string pyval)
    (ps : gmap string PersonalizationProfile)
    (items topics : list pyval) (correct : Z) (counts : list (pyval * nat)) :
  dict_get session_data "responses" (PList []) = PList items →
  count_correct items = Ok correct →
  collect_weak_topics items [] = Ok topics →
  Counter topics [] = Ok counts →
  let p0 := fst (get_user_profile user ps) in
  let ps0 := snd (get_user_profile user ps) in
  let total := Z.of_nat (length items) in
  let p1 :=
    set_weak_areas (fst <$> most_common 5 counts)
      (set_performance_history
         (performance_history p0 ++ [entry_of now_iso session_data correct total]) p0) in
  let m := dict_get session_data "mode" PNone in
  update_user_profile now_iso user session_data ps =
    if num_ltb (NFloat (8 # 10)) (session_accuracy correct total)
       && negb (mode_in m (preferred_modes p0))
    then
      match StudyMode_of m with
      | Ok new_mode =>
        (Ok (), <[user := keep_recent
                             (set_preferred_modes (preferred_modes p0 ++ [new_mode]) p1)]> ps0)
      | Raise e => (Raise e, <[user := p1]> ps0)
      end
    else (Ok (), <[user := keep_recent p1]> ps0).
Proof.
  intros Hresp Hcount Htopics Hcounter.
  apply (update_user_profile_steps now_iso user session_data ps items topics);
    try done; by rewrite Hresp.
Qed.

(** When [update_user_profile] returns, every step before the last has
    returned. *)
Lemma update_user_profile_ok_steps (now_iso user : string)
    (session_data : gmap string pyval) (ps ps' : gmap string PersonalizationProfile) :
  update_user_profile now_iso user session_data ps = (Ok (), ps') →
  ∃ total items correct topics counts,
    py_len (dict_get session_data "responses" (PList [])) = Ok total
    ∧ py_iter (dict_get session_data "responses" (PList [])) = Ok items
    ∧ count_correct items = Ok correct
    ∧ collect_weak_topics items [] = Ok topics
    ∧ Counter topics [] = Ok counts.
Proof.
  unfold update_user_profile.
  unfold mbind at 1, stateful_bind at 1. unfold ensure_profile at 1.
  unfold lift.
  destruct (py_len _) as [total|e] eqn:Hlen; [|erewrite bind_raise by reflexivity; done].
  erewrite bind_ok by reflexivity.
  destruct (py_iter _) as [items|e] eqn:Hiter; [|erewrite bind_raise by reflexivity; done].
  erewrite bind_ok by reflexivity.
  destruct (count_correct items) as [correct|e] eqn:Hcount;
    [|erewrite bind_raise by reflexivity; done].
  erewrite bind_ok by reflexivity.
  erewrite bind_ok by reflexivity.
  destruct (collect_weak_topics items []) as [topics|e] eqn:Htopics;
    [|erewrite bind_raise by reflexivity; done].
  erewrite bind_ok by reflexivity.
  destruct (Counter topics []) as [counts|e] eqn:Hcounter;
    [|erewrite bind_raise by reflexivity; done].
  intros _. by exists total, items, correct, topics, counts.
Qed.

Lemma keep_recent_length (p : PersonalizationProfile) :
  (length (performance_history (keep_recent p)) ≤ 30)%nat.
Proof.
  unfold keep_recent. cbn [performance_history set_performance_history].
  rewrite length_drop. lia.
Qed.

(** A call that returns leaves at most 30 entries: the previous entries
    followed by the new one, without the oldest in excess of 30. *)
Lemma update_user_profile_ok_history (now_iso user : string)
    (session_data : gmap string pyval) (ps ps' : gmap string PersonalizationProfile) :
  update_user_profile now_iso user session_data ps = (Ok (), ps') →
  ∃ p' entry,
    ps' !! user = Some p'
    ∧ (length (performance_history p') ≤ 30)%nat
    ∧ let h := performance_history (fst (get_user_profile user ps)) ++ [entry] in
      performance_history p' = drop (length h - 30) h.
Proof.
  intros Hok.
  destruct (update_user_profile_ok_steps _ _ _ _ _ Hok)
    as (total & items & correct & topics & counts & H1 & H2 & H3 & H4 & H5).
  rewrite (update_user_profile_steps now_iso user session_data ps items topics total
             correct counts H1 H2 H3 H4 H5) in Hok.
  destruct (_ && _).
  - destruct (StudyMode_of _) as [nm|e]; [|done]. injection Hok as <-.
    eexists _, (entry_of now_iso session_data correct total).
    rewrite lookup_insert_eq. split; [done|].
    split; [apply keep_recent_length|]. done.
  - injection Hok as <-.
    eexists _, (entry_of now_iso session_data correct total).
    rewrite lookup_insert_eq. split; [done|].
    split; [apply keep_recent_length|]. done.
Qed.

End ProfileUpdate.

(** ** Counting weak topics *)

Section WeakTopics.
Import Personalizer Reference.

Lemma stable_sort_fmap {A B} (f : A → B) (before : B → B → bool) (l : list A) :
  stable_sort before (f <$> l) = f <$> stable_sort (λ a b, before (f a) (f b)) l.
Proof.
  induction l as [|x l IH]; [done|].
  cbn [fmap list_fmap stable_sort fold_right].
  fold (stable_sort before (f <$> l)).
  fold (stable_sort (λ a b, before (f a) (f b)) l).
  rewrite IH. generalize (stable_sort (λ a b, before (f a) (f b)) l). intros s.
  induction s as [|y s IHs]; [done|]. cbn [fmap list_fmap sort_insert].
  destruct (before (f x) (f y)); [done|]. cbn [fmap list_fmap]. by rewrite IHs.
Qed.

Lemma occurrences_snoc (k t : string) (seen : list string) :
  occurrences k (seen ++ [t]) =
    if String.eqb k t then S (occurrences k seen) else occurrences k seen.
Proof.
  unfold occurrences. rewrite List.filter_app, length_app. cbn [List.filter].
  destruct (String.eqb k t); cbn; lia.
Qed.

Lemma occurrences_zero (k : string) (seen : list string) :
  k ∉ seen → occurrences k seen = 0%nat.
Proof.
  unfold occurrences. induction seen as [|x seen IH]; [done|]. intros Hk.
  cbn [List.filter]. destruct (String.eqb_spec k x) as [->|_]; [set_solver|].
  apply IH. set_solver.
Qed.

Lemma occurrences_pos (k : string) (seen : list string) :
  k ∈ seen → (0 < occurrences k seen)%nat.
Proof.
  unfold occurrences. induction seen as [|x seen IH]; [by intros ?%elem_of_nil|].
  intros Hk. cbn [List.filter]. destruct (String.eqb_spec k x) as [->|Hne]; [cbn; lia|].
  apply IH. set_solver.
Qed.

Lemma counter_add_counts (seen ks : list string) (t : string) :
  NoDup ks →
  counter_add (counts_of seen ks) (PStr t) =
    counts_of (seen ++ [t]) ks ++ (if bool_decide (t ∈ ks) then []
                                  else [(PStr t, 1%nat)]).
Proof.
  unfold counts_of. induction ks as [|k ks IH]; intros Hnd; [done|].
  apply NoDup_cons in Hnd as [Hk Hnd]. cbn [fmap list_fmap counter_add].
  assert (Heq : py_eq (PStr k) (PStr t) = String.eqb k t) by done.
  rewrite Heq. rewrite occurrences_snoc.
  destruct (String.eqb_spec k t) as [->|Hne].
  - rewrite bool_decide_eq_true_2 by set_solver. rewrite app_nil_r.
    cbn [app]. f_equal. apply list_fmap_ext. intros i k Hi.
    rewrite occurrences_snoc. destruct (String.eqb_spec k t) as [->|]; [|done].
    exfalso. apply Hk. by eapply list_elem_of_lookup_2.
  - rewrite IH by done. cbn [app]. f_equal.
    destruct (decide (t ∈ ks)).
    + by rewrite !bool_decide_eq_true_2 by set_solver.
    + by rewrite !bool_decide_eq_false_2 by set_solver.
Qed.

Lemma Counter_names (names seen ks : list string) :
  NoDup ks → (∀ k, k ∈ ks ↔ k ∈ seen) →
  ∃ ks', Counter (PStr <$> names) (counts_of seen ks) = Ok (counts_of (seen ++ names) ks')
         ∧ NoDup ks' ∧ (∀ k, k ∈ ks' ↔ k ∈ seen ++ names).
Proof.
  revert seen ks. induction names as [|t names IH]; intros seen ks Hnd Hks.
  - exists ks. rewrite app_nil_r. done.
  - cbn [fmap list_fmap Counter hashable]. rewrite counter_add_counts by done.
    destruct (decide (t ∈ ks)) as [Hin|Hnin].
    + rewrite bool_decide_eq_true_2, app_nil_r by done.
      destruct (IH (seen ++ [t]) ks Hnd) as (ks' & Hrun & Hnd' & Hks').
      { intros k. rewrite elem_of_app, list_elem_of_singleton, <- Hks.
        split; [auto|]. intros [?| ->]; auto. }
      exists ks'. rewrite <- app_assoc in Hrun, Hks'. done.
    + rewrite bool_decide_eq_false_2 by done.
      assert (Hsnoc : counts_of (seen ++ [t]) ks ++ [(PStr t, 1%nat)]
                      = counts_of (seen ++ [t]) (ks ++ [t])).
      { unfold counts_of. rewrite fmap_app. cbn [fmap list_fmap]. do 3 f_equal.
        rewrite occurrences_snoc, String.eqb_refl, occurrences_zero; [done|].
        by rewrite <- Hks. }
      rewrite Hsnoc.
      destruct (IH (seen ++ [t]) (ks ++ [t])) as (ks' & Hrun & Hnd' & Hks').
      { apply NoDup_app. split; [done|]. split; [|apply NoDup_singleton].
        intros k Hk ->%list_elem_of_singleton. done. }
      { intros k. rewrite !elem_of_app, Hks. done. }
      exists ks'. rewrite <- app_assoc in Hrun, Hks'. done.
Qed.

Lemma most_common_counts (n : nat) (names ks : list string) :
  fst <$> most_common n (counts_of names ks) = PStr <$> top_names n names ks.
Proof.
  unfold most_common, counts_of, top_names.
  rewrite stable_sort_fmap. cbn [snd]. rewrite <- fmap_take, <- list_fmap_compose.
  done.
Qed.

Lemma top_names_most_frequent (n : nat) (names ks : list string) :
  NoDup ks → (∀ k, k ∈ ks ↔ k ∈ names) →
  most_frequent n names (top_names n names ks).
Proof.
  intros Hnd Hks. unfold top_names.
  set (before := λ a b : string, (occurrences b names <=? occurrences a names)%nat).
  set (sorted := stable_sort before ks).
  assert (Hperm : sorted ≡ₚ ks) by apply stable_sort_Permutation.
  assert (Hsorted : StronglySorted (λ a b, before a b = true) sorted).
  { apply stable_sort_sorted.
    - intros x y. unfold before. rewrite !Nat.leb_le. lia.
    - intros x y z. unfold before. rewrite !Nat.leb_le. lia. }
  assert (Hnd' : NoDup sorted) by by rewrite Hperm.
  unfold most_frequent. split; [|split; [|split; [|split]]].
  - eapply sublist_NoDup; [exact Hnd'|apply sublist_take].
  - intros t Ht. apply Hks. rewrite <- Hperm. by eapply subseteq_take.
  - rewrite length_take. f_equal. rewrite Hperm.
    apply Permutation_length, NoDup_Permutation; [done|apply NoDup_remove_dups|].
    intros k. by rewrite Hks, elem_of_remove_dups.
  - intros t u Ht Hu Hnu.
    assert (Hdrop : u ∈ drop n sorted).
    { apply Hks in Hu. rewrite <- Hperm, <- (take_drop n sorted) in Hu.
      apply elem_of_app in Hu as [?|?]; done. }
    rewrite <- (take_drop n sorted) in Hsorted.
    pose proof (StronglySorted_app_1_elem_of _ _ _ _ _ Hsorted Ht Hdrop) as H.
    unfold before in H. by apply Nat.leb_le in H.
  - rewrite <- (take_drop n sorted) in Hsorted.
    apply StronglySorted_app_1_l in Hsorted.
    eapply StronglySorted_weaken; [|exact Hsorted].
    intros a b H. unfold before in H. by apply Nat.leb_le in H.
Qed.

(** Responses of the expected shape are read without error. *)
Lemma tag_names_fmap (tags : list pyval) (ts : list string) :
  mapM tag_name tags = Some ts → tags = PStr <$> ts.
Proof.
  intros H%mapM_Some_1. induction H as [|v t tags ts Hv _ IH]; [done|].
  destruct v; try done. injection Hv as ->. cbn. by rewrite IH.
Qed.

Lemma count_correct_defined (items : list pyval) (tss : list (list string)) :
  mapM response_tag_names items = Some tss →
  ∃ c, count_correct items = Ok c.
Proof.
  intros H%mapM_Some_1. induction H as [|r ts items tss Hr _ [c IH]]; [by exists 0|].
  destruct r; try done. cbn [count_correct]. rewrite IH. cbn. eauto.
Qed.

Lemma collect_weak_topics_names (items : list pyval) (tss : list (list string))
    (acc : list pyval) :
  mapM response_tag_names items = Some tss →
  collect_weak_topics items acc = Ok (acc ++ (PStr <$> List.concat tss)).
Proof.
  intros H%mapM_Some_1. revert acc.
  induction H as [|r ts items tss Hr _ IH]; intros acc.
  - cbn. by rewrite app_nil_r.
  - destruct r as [| | | | | | |d]; try done. cbn [collect_weak_topics].
    cbn [response_tag_names] in Hr.
    destruct (truthy (dict_get d "correct" (PBool false))).
    + injection Hr as <-. cbn [List.concat app]. apply IH.
    + destruct (dict_get d "card" (PDict ∅)) as [| | | | | | |card]; try done.
      destruct (dict_get card "tags" (PList [])) as [| | | | | |tags|]; try done.
      apply tag_names_fmap in Hr as ->. cbn [py_iter mbind result_bind].
      rewrite IH. cbn [List.concat]. by rewrite fmap_app, app_assoc.
Qed.

End WeakTopics.

Section WeakAreas.
Import Personalizer Reference.

Lemma session_responses_get (session_data : gmap string pyval) (items : list pyval) :
  session_responses session_data = Some items →
  dict_get session_data "responses" (PList []) = PList items.
Proof.
  unfold session_responses, dict_get.
  destruct (session_data !! "responses") as [[]|]; try done; by intros [= <-].
Qed.

Lemma last_drop {A} (l : list A) (n : nat) :
  (n < length l)%nat → last (drop n l) = last l.
Proof.
  intros Hn. rewrite !last_lookup, length_drop, lookup_drop. f_equal. lia.
Qed.

Lemma keep_recent_last (p : PersonalizationProfile) (h : list (gmap string pyval))
    (e : gmap string pyval) :
  performance_history p = h ++ [e] →
  last (performance_history (keep_recent p)) = Some e.
Proof.
  intros Hp. unfold keep_recent. cbn [performance_history set_performance_history].
  rewrite last_drop; [by rewrite Hp, last_snoc|].
  rewrite Hp, length_app. cbn. lia.
Qed.

End WeakAreas.

(** C10.  For a session whose responses have the expected shape (each a
    dictionary; each incorrect one with a card, when present, whose tags
    are a list of strings), after [update_user_profile] the profile's
    weak areas are the at most 5 most frequent tags of the incorrect
    responses of that session, whatever the profile held before, and also
    when the call raises at the preferred-mode step.  A session without
    responses is recorded with accuracy 0, raises nothing and leaves no
    weak area. *)
Theorem update_user_profile_weak_areas
    (now_iso user : string) (session_data : gmap string pyval)
    (items : list pyval) (names : list string) :
  Reference.session_responses session_data = Some items →
  Reference.incorrect_tag_names items = Some names →
  ∃ top,
    Reference.most_frequent 5 names top
    ∧ (∀ ps,
         Personalizer.weak_areas <$>
           (snd (Personalizer.update_user_profile now_iso user session_data ps) !! user)
         = Some (PStr <$> top))
    ∧ (items = [] →
       top = []
       ∧ ∀ ps,
           fst (Personalizer.update_user_profile now_iso user session_data ps) = Ok ()
           ∧ ∃ p e,
               snd (Personalizer.update_user_profile now_iso user session_data ps) !! user
                 = Some p
               ∧ last (Personalizer.performance_history p) = Some e
               ∧ e !! "accuracy" = Some (PInt 0)).
Proof.
  intros Hitems Hnames.
  apply session_responses_get in Hitems.
  unfold Reference.incorrect_tag_names in Hnames.
  destruct (mapM Reference.response_tag_names items) as [tss|] eqn:Htss; [|done].
  injection Hnames as <-.
  destruct (count_correct_defined items tss Htss) as [c Hc].
  pose proof (collect_weak_topics_names items tss [] Htss) as Htopics.
  cbn [app] in Htopics.
  destruct (Counter_names (List.concat tss) [] []) as (ks & Hcounter & Hnd & Hks).
  { constructor. }
  { done. }
  cbn [app] in Hcounter, Hks.
  exists (top_names 5 (List.concat tss) ks).
  split; [by apply top_names_most_frequent|].
  split.
  - intros ps.
    rewrite (update_user_profile_run now_iso user session_data ps items _ c _
               Hitems Hc Htopics Hcounter).
    rewrite most_common_counts.
    destruct (_ && _).
    + destruct (Personalizer.StudyMode_of _); cbn [snd]; by rewrite lookup_insert_eq.
    + cbn [snd]. by rewrite lookup_insert_eq.
  - intros ->. cbn in Htss. injection Htss as <-.
    assert (ks = []) as ->.
    { destruct ks as [|k ks]; [done|]. exfalso.
      eapply elem_of_nil, Hks. by left. }
    split; [done|]. intros ps.
    rewrite (update_user_profile_run now_iso user session_data ps [] [] 0 []
               Hitems eq_refl eq_refl eq_refl).
    cbn [length].
    assert (Hacc : num_ltb (NFloat (8 # 10))
                     (Personalizer.session_accuracy 0 (Z.of_nat 0)) = false)
      by reflexivity.
    rewrite Hacc. cbn [andb fst snd].
    split; [done|]. eexists _, _. rewrite lookup_insert_eq.
    split; [done|]. split.
    + eapply keep_recent_last. reflexivity.
    + done.
Qed.

Lemma update_user_profile_weak_areas_witness :
  Reference.session_responses sample_session = Some sample_responses
  ∧ Reference.incorrect_tag_names sample_responses
      = Some ["algebra"; "geometry"; "algebra"]
  ∧ ∃ top,
    Reference.most_frequent 5 ["algebra"; "geometry"; "algebra"] top
    ∧ (∀ ps,
         Personalizer.weak_areas <$>
           (snd (Personalizer.update_user_profile "2025-06-01T12:00:00" "ana"
                   sample_session ps) !! "ana")
         = Some (PStr <$> top))
    ∧ (sample_responses = [] →
       top = []
       ∧ ∀ ps,
           fst (Personalizer.update_user_profile "2025-06-01T12:00:00" "ana"
                  sample_session ps) = Ok ()
           ∧ ∃ p e,
               snd (Personalizer.update_user_profile "2025-06-01T12:00:00" "ana"
                      sample_session ps) !! "ana" = Some p
               ∧ last (Personalizer.performance_history p) = Some e
               ∧ e !! "accuracy" = Some (PInt 0)).
Proof.
  assert (H1 : Reference.session_responses sample_session = Some sample_responses)
    by reflexivity.
  assert (H2 : Reference.incorrect_tag_names sample_responses
               = Some ["algebra"; "geometry"; "algebra"]) by (vm_compute; reflexivity).
  split; [exact H1|]. split; [exact H2|].
  exact (update_user_profile_weak_areas "2025-06-01T12:00:00" "ana" sample_session
           sample_responses ["algebra"; "geometry"; "algebra"] H1 H2).
Defined.

Example update_user_profile_weak_areas_sample :
  Personalizer.weak_areas <$>
    (snd (Personalizer.update_user_profile "2025-06-01T12:00:00" "ana"
            sample_session ∅) !! "ana")
  = Some [PStr "algebra"; PStr "geometry"].
Proof. vm_compute. reflexivity. Qed.

(** ** Preferred modes *)

Section PreferredModes.
Import Personalizer.

(** A string is never found among the members of [StudyMode]. *)
Lemma mode_in_string (s : string) (preferred : list StudyMode) :
  mode_in (PStr s) preferred = false.
Proof. unfold mode_in. induction preferred as [|m l IH]; [done|]. cbn. exact IH. Qed.

(** A member is found exactly when it is in the list. *)
Lemma mode_in_member (m : StudyMode) (preferred : list StudyMode) :
  mode_in (PEnum (EMode m)) preferred = true ↔ m ∈ preferred.
Proof.
  unfold mode_in. induction preferred as [|m' l IH].
  - cbn. split; [done|]. by intros ?%elem_of_nil.
  - cbn [existsb]. rewrite orb_true_iff, IH, elem_of_cons.
    assert (py_eq (PEnum (EMode m')) (PEnum (EMode m)) = true ↔ m = m') as ->; [|done].
    cbn. rewrite bool_decide_eq_true. split; [by intros [= ->]|by intros ->].
Qed.

(** [StudyMode] of the value of a member is that member. *)
Lemma StudyMode_of_value (m : StudyMode) : StudyMode_of (PStr (mode_value m)) = Ok m.
Proof. by destruct m. Qed.

(** A session of accuracy above 0.8 whose mode is the string value of a
    member appends that member, whether it is already preferred or not. *)
Lemma update_user_profile_string_mode (now_iso user : string)
    (session_data : gmap string pyval) (ps : gmap string PersonalizationProfile)
    (items topics : list pyval) (total correct : Z) (counts : list (pyval * nat))
    (m : StudyMode) :
  py_len (dict_get session_data "responses" (PList [])) = Ok total →
  py_iter (dict_get session_data "responses" (PList [])) = Ok items →
  count_correct items = Ok correct →
  collect_weak_topics items [] = Ok topics →
  Counter topics [] = Ok counts →
  num_ltb (NFloat (8 # 10)) (session_accuracy correct total) = true →
  session_data !! "mode" = Some (PStr (mode_value m)) →
  preferred_modes <$> (snd (update_user_profile now_iso user session_data ps) !! user)
  = Some (preferred_modes (fst (get_user_profile user ps)) ++ [m]).
Proof.
  intros H1 H2 H3 H4 H5 Hacc Hmode.
  rewrite (update_user_profile_steps now_iso user session_data ps items topics total
             correct counts H1 H2 H3 H4 H5).
  rewrite Hacc. unfold dict_get. rewrite Hmode.
  rewrite mode_in_string, StudyMode_of_value. cbn [andb negb snd].
  by rewrite lookup_insert_eq.
Qed.

(** The same session with the mode given as a member that is already
    preferred leaves the preferred modes as they are. *)
Lemma update_user_profile_member_mode (now_iso user : string)
    (session_data : gmap string pyval) (ps : gmap string PersonalizationProfile)
    (items topics : list pyval) (total correct : Z) (counts : list (pyval * nat))
    (m : StudyMode) :
  py_len (dict_get session_data "responses" (PList [])) = Ok total →
  py_iter (dict_get session_data "responses" (PList [])) = Ok items →
  count_correct items = Ok correct →
  collect_weak_topics items [] = Ok topics →
  Counter topics [] = Ok counts →
  session_data !! "mode" = Some (PEnum (EMode m)) →
  m ∈ preferred_modes (fst (get_user_profile user ps)) →
  preferred_modes <$> (snd (update_user_profile now_iso user session_data ps) !! user)
  = Some (preferred_modes (fst (get_user_profile user ps))).
Proof.
  intros H1 H2 H3 H4 H5 Hmode Hin.
  rewrite (update_user_profile_steps now_iso user session_data ps items topics total
             correct counts H1 H2 H3 H4 H5).
  unfold dict_get. rewrite Hmode.
  apply mode_in_member in Hin. rewrite Hin. rewrite andb_false_r. cbn [snd].
  by rewrite lookup_insert_eq.
Qed.

End PreferredModes.

(** C3, the code at the failing input.  A session in mode "challenge" with
    accuracy 17/20 = 0.85, recorded for a user whose preferred modes are
    [basic_educational], appends CHALLENGE; recorded a second time, it
    appends CHALLENGE again: the mode is a string and the test
    [mode not in preferred_modes] compares it with members of [StudyMode]. *)
Theorem update_user_profile_repeats_mode :
  Personalizer.preferred_modes <$>
    (snd (Personalizer.update_user_profile "2025-06-01T12:00:00" "ana"
            challenge_session ∅) !! "ana")
  = Some [BASIC_EDUCATIONAL; CHALLENGE]
  ∧ Personalizer.preferred_modes <$>
      (snd (Personalizer.update_user_profile "2025-06-02T12:00:00" "ana"
              challenge_session after_first_session) !! "ana")
    = Some [BASIC_EDUCATIONAL; CHALLENGE; CHALLENGE].
Proof. split; vm_compute; reflexivity. Qed.

Example update_user_profile_member_mode_once :
  Personalizer.preferred_modes <$>
    (snd (Personalizer.update_user_profile "2025-06-02T12:00:00" "ana"
            challenge_session_member after_first_session) !! "ana")
  = Some [BASIC_EDUCATIONAL; CHALLENGE].
Proof. vm_compute. reflexivity. Qed.

(** C6, the code at the failing input.  For a profile with 30 recorded
    sessions, a session without mode whose single response is correct
    raises ValueError at [StudyMode(None)], after the new entry has been
    appended and before the history is cut to 30: 31 entries remain. *)
Theorem update_user_profile_raise_leaves_31 :
  (length ∘ Personalizer.performance_history) <$> (full_profiles !! "ana") = Some 30%nat
  ∧ fst (Personalizer.update_user_profile "2025-06-01T12:00:00" "ana"
           modeless_session full_profiles) = Raise ValueError
  ∧ (length ∘ Personalizer.performance_history) <$>
      (snd (Personalizer.update_user_profile "2025-06-01T12:00:00" "ana"
              modeless_session full_profiles) !! "ana")
    = Some 31%nat.
Proof. repeat split; vm_compute; reflexivity. Qed.

(** * Further properties *)

(** ** The review scheduler *)

Section NextReviewFacts.
Import Scheduler.

Lemma list_getitem_elem {A} (l : list A) (i : Z) (x : A) :
  list_getitem l i = Ok x → x ∈ l.
Proof.
  unfold list_getitem. destruct (_ && _); [|done].
  destruct (l !! _) eqn:E; [|done]. intros [= <-].
  by eapply list_elem_of_lookup_2.
Qed.

Lemma interval_days_range (v : pyval) (days : Z) :
  interval_days v = Ok days → 1 ≤ days ≤ 90.
Proof.
  unfold interval_days. destruct (as_num v) as [[i|q]|]; try done.
  cbn [list_index]. intros H%list_getitem_elem.
  unfold spaced_repetition_intervals in H.
  repeat (apply elem_of_cons in H as [->|H]; [lia|]). by apply elem_of_nil in H.
Qed.

(** The table is increasing. *)
Lemma intervals_monotone (j k dj dk : Z) :
  0 ≤ j → j ≤ k →
  list_getitem spaced_repetition_intervals j = Ok dj →
  list_getitem spaced_repetition_intervals k = Ok dk →
  dj ≤ dk.
Proof.
  intros Hj Hjk. unfold list_getitem, spaced_repetition_intervals. cbn [length].
  destruct (Z.ltb_spec j 0); [lia|]. destruct (Z.ltb_spec k 0); [lia|].
  destruct (Z.leb_spec 0 j); [|lia]. destruct (Z.leb_spec 0 k); [|lia].
  destruct (Z.ltb_spec j (Z.of_nat 6)); [|done].
  destruct (Z.ltb_spec k (Z.of_nat 6)); [|done]. cbn [andb].
  assert (j = 0 ∨ j = 1 ∨ j = 2 ∨ j = 3 ∨ j = 4 ∨ j = 5) as Hjv by lia.
  assert (k = 0 ∨ k = 1 ∨ k = 2 ∨ k = 3 ∨ k = 4 ∨ k = 5) as Hkv by lia.
  destruct Hjv as [->|[->|[->|[->|[->| ->]]]]];
    destruct Hkv as [->|[->|[->|[->|[->| ->]]]]];
    cbn; intros [= <-] [= <-]; lia.
Qed.

End NextReviewFacts.

(** X1.  Whenever [calculate_next_review] returns, with a jitter of -1, 0
    or 1, the next review is at least one day and at most 91 days after the
    clock reading, and exactly one day after it for an empty history. *)
Theorem calculate_next_review_bounds
    (now : datetime) (jitter : Z) (history : list (gmap string pyval)) (t : datetime) :
  -1 ≤ jitter ≤ 1 →
  Scheduler.calculate_next_review now jitter history = Ok t →
  dt_us now + us_per_day ≤ dt_us t ≤ dt_us now + 91 * us_per_day
  ∧ dt_offset t = dt_offset now
  ∧ (history = [] → t = dt_add_days now 1).
Proof.
  intros Hj. unfold Scheduler.calculate_next_review.
  destruct (last history) as [latest|] eqn:Hlast.
  - destruct (Scheduler.next_interval_index latest) as [idx|e]; [|done].
    cbn [mbind result_bind].
    destruct (Scheduler.interval_days idx) as [days|e] eqn:Hd; [|done].
    cbn [mbind result_bind]. intros [= <-].
    apply interval_days_range in Hd. unfold dt_add_days, us_per_day. cbn [dt_us dt_offset].
    split; [lia|]. split; [done|]. intros ->. done.
  - intros [= <-]. unfold dt_add_days, us_per_day. cbn [dt_us dt_offset].
    split; [lia|]. done.
Qed.

Lemma calculate_next_review_bounds_witness :
  -1 ≤ 1 ≤ 1
  ∧ Scheduler.calculate_next_review (naive 0) 1 [sample_record]
    = Ok (dt_add_days (naive 0) 15)
  ∧ dt_us (naive 0) + us_per_day ≤ dt_us (dt_add_days (naive 0) 15)
      ≤ dt_us (naive 0) + 91 * us_per_day
  ∧ dt_offset (dt_add_days (naive 0) 15) = dt_offset (naive 0)
  ∧ ([sample_record] = [] → dt_add_days (naive 0) 15 = dt_add_days (naive 0) 1).
Proof.
  assert (H1 : -1 ≤ 1 ≤ 1) by lia.
  assert (H2 : Scheduler.calculate_next_review (naive 0) 1 [sample_record]
               = Ok (dt_add_days (naive 0) 15)) by reflexivity.
  split; [exact H1|]. split; [exact H2|].
  exact (calculate_next_review_bounds (naive 0) 1 [sample_record] _ H1 H2).
Defined.

(** X2.  The index is clamped at the top only when it advances and at the
    bottom only when it regresses: with a stored index of 4 or more and an
    accuracy of at least 0.9 the interval is 90 days, whereas a stored
    index of 6 or more with an accuracy in [0.7, 0.9), and a stored index
    of 7 or more with an accuracy below 0.7, raise IndexError. *)
Theorem calculate_next_review_index_out_of_range
    (now : datetime) (jitter : Z) (history : list (gmap string pyval))
    (latest : gmap string pyval) (v : pyval) (a : num) (i : Z) :
  last history = Some latest →
  latest !! "accuracy" = Some v → as_num v = Some a →
  latest !! "interval_index" = Some (PInt i) →
  ((9 # 10 <= num_val a)%Q → 4 ≤ i →
     Scheduler.calculate_next_review now jitter history
     = Ok (dt_add_days now (Z.max 1 (90 + jitter))))
  ∧ ((7 # 10 <= num_val a)%Q → (num_val a < 9 # 10)%Q → 6 ≤ i →
     Scheduler.calculate_next_review now jitter history = Raise IndexError)
  ∧ ((num_val a < 7 # 10)%Q → 7 ≤ i →
     Scheduler.calculate_next_review now jitter history = Raise IndexError).
Proof.
  intros Hlast Hv Ha Hi.
  unfold Scheduler.calculate_next_review. rewrite Hlast.
  rewrite (next_interval_index_int latest v a i Hv Ha Hi).
  cbn [mbind result_bind]. unfold Scheduler.interval_days. cbn [as_num list_index].
  split; [|split].
  - intros H9 Hi4. apply Qle_bool_iff in H9. rewrite H9.
    replace (Z.min (i + 1) 5) with 5 by lia. done.
  - intros H7 H9 Hi6. apply Qle_bool_iff in H7. apply Qle_bool_false in H9.
    rewrite H9, H7. unfold list_getitem, Scheduler.spaced_repetition_intervals.
    cbn [length]. destruct (Z.ltb_spec i 0); [lia|].
    destruct (Z.ltb_spec i (Z.of_nat 6)); [lia|]. by rewrite andb_false_r.
  - intros H7 Hi7.
    assert (H9 : (num_val a < 9 # 10)%Q) by (eapply Qlt_trans; [exact H7|reflexivity]).
    apply Qle_bool_false in H7, H9. rewrite H9, H7.
    unfold list_getitem, Scheduler.spaced_repetition_intervals. cbn [length].
    destruct (Z.ltb_spec (Z.max 0 (i - 1)) 0); [lia|].
    destruct (Z.ltb_spec (Z.max 0 (i - 1)) (Z.of_nat 6)); [lia|].
    by rewrite andb_false_r.
Qed.

Lemma calculate_next_review_index_out_of_range_witness :
  last [record_past_end] = Some record_past_end
  ∧ record_past_end !! "accuracy" = Some (PFloat (8 # 10))
  ∧ as_num (PFloat (8 # 10)) = Some (NFloat (8 # 10))
  ∧ record_past_end !! "interval_index" = Some (PInt 6)
  ∧ ((9 # 10 <= 8 # 10)%Q → 4 ≤ 6 →
       Scheduler.calculate_next_review sample_now 0 [record_past_end]
       = Ok (dt_add_days sample_now (Z.max 1 (90 + 0))))
  ∧ ((7 # 10 <= 8 # 10)%Q → (8 # 10 < 9 # 10)%Q → 6 ≤ 6 →
       Scheduler.calculate_next_review sample_now 0 [record_past_end] = Raise IndexError)
  ∧ ((8 # 10 < 7 # 10)%Q → 7 ≤ 6 →
       Scheduler.calculate_next_review sample_now 0 [record_past_end] = Raise IndexError).
Proof.
  repeat (split; [reflexivity|]).
  exact (calculate_next_review_index_out_of_range sample_now 0 [record_past_end]
           record_past_end (PFloat (8 # 10)) (NFloat (8 # 10)) 6
           eq_refl eq_refl eq_refl eq_refl).
Defined.

(** X3.  A better accuracy never brings the next review forward: for the
    same stored index, a position of the table, and the same jitter, the
    record with the higher accuracy is scheduled no earlier. *)
Theorem calculate_next_review_monotone
    (now : datetime) (jitter : Z) (history1 history2 : list (gmap string pyval))
    (latest1 latest2 : gmap string pyval) (v1 v2 : pyval) (a1 a2 : num) (i : Z) :
  last history1 = Some latest1 → last history2 = Some latest2 →
  latest1 !! "accuracy" = Some v1 → as_num v1 = Some a1 →
  latest2 !! "accuracy" = Some v2 → as_num v2 = Some a2 →
  latest1 !! "interval_index" = Some (PInt i) →
  latest2 !! "interval_index" = Some (PInt i) →
  0 ≤ i ≤ 5 → (num_val a1 <= num_val a2)%Q →
  ∃ t1 t2,
    Scheduler.calculate_next_review now jitter history1 = Ok t1
    ∧ Scheduler.calculate_next_review now jitter history2 = Ok t2
    ∧ dt_us t1 ≤ dt_us t2.
Proof.
  intros Hl1 Hl2 Hv1 Ha1 Hv2 Ha2 Hi1 Hi2 Hi Hle.
  unfold Scheduler.calculate_next_review. rewrite Hl1, Hl2.
  rewrite (next_interval_index_int latest1 v1 a1 i Hv1 Ha1 Hi1).
  rewrite (next_interval_index_int latest2 v2 a2 i Hv2 Ha2 Hi2).
  cbn [mbind result_bind]. unfold Scheduler.interval_days. cbn [as_num list_index].
  set (idx1 := if Qle_bool (9 # 10) (num_val a1) then Z.min (i + 1) 5
               else if Qle_bool (7 # 10) (num_val a1) then i else Z.max 0 (i - 1)).
  set (idx2 := if Qle_bool (9 # 10) (num_val a2) then Z.min (i + 1) 5
               else if Qle_bool (7 # 10) (num_val a2) then i else Z.max 0 (i - 1)).
  assert (Hidx : 0 ≤ idx1 ∧ idx1 ≤ idx2 ∧ idx2 < 6).
  { subst idx1 idx2.
    destruct (Qle_bool (9 # 10) (num_val a1)) eqn:E1.
    - apply Qle_bool_iff in E1.
      assert (E2 : Qle_bool (9 # 10) (num_val a2) = true).
      { apply Qle_bool_iff. by eapply Qle_trans. }
      rewrite E2. lia.
    - destruct (Qle_bool (7 # 10) (num_val a1)) eqn:E3.
      + apply Qle_bool_iff in E3.
        assert (E4 : Qle_bool (7 # 10) (num_val a2) = true).
        { apply Qle_bool_iff. by eapply Qle_trans. }
        rewrite E4. destruct (Qle_bool (9 # 10) (num_val a2)); lia.
      + destruct (Qle_bool (9 # 10) (num_val a2)); [lia|].
        destruct (Qle_bool (7 # 10) (num_val a2)); lia. }
  destruct (list_getitem_in_range Scheduler.spaced_repetition_intervals idx1)
    as (d1 & _ & Hd1); [cbn; lia|].
  destruct (list_getitem_in_range Scheduler.spaced_repetition_intervals idx2)
    as (d2 & _ & Hd2); [cbn; lia|].
  pose proof (intervals_monotone idx1 idx2 d1 d2 ltac:(lia) ltac:(lia) Hd1 Hd2) as Hmono.
  rewrite Hd1, Hd2. cbn [mbind result_bind].
  eexists _, _. split; [done|]. split; [done|].
  unfold dt_add_days, us_per_day. cbn [dt_us]. lia.
Qed.

Lemma calculate_next_review_monotone_witness :
  last [sample_record_low] = Some sample_record_low
  ∧ last [sample_record] = Some sample_record
  ∧ sample_record_low !! "accuracy" = Some (PFloat (5 # 10))
  ∧ as_num (PFloat (5 # 10)) = Some (NFloat (5 # 10))
  ∧ sample_record !! "accuracy" = Some (PFloat (95 # 100))
  ∧ as_num (PFloat (95 # 100)) = Some (NFloat (95 # 100))
  ∧ sample_record_low !! "interval_index" = Some (PInt 2)
  ∧ sample_record !! "interval_index" = Some (PInt 2)
  ∧ 0 ≤ 2 ≤ 5 ∧ (5 # 10 <= 95 # 100)%Q
  ∧ ∃ t1 t2,
      Scheduler.calculate_next_review sample_now 0 [sample_record_low] = Ok t1
      ∧ Scheduler.calculate_next_review sample_now 0 [sample_record] = Ok t2
      ∧ dt_us t1 ≤ dt_us t2.
Proof.
  assert (Hi : 0 ≤ 2 ≤ 5) by lia.
  assert (Hle : (5 # 10 <= 95 # 100)%Q) by (apply Qle_bool_iff; reflexivity).
  repeat (split; [reflexivity|]). split; [exact Hi|]. split; [exact Hle|].
  exact (calculate_next_review_monotone sample_now 0 [sample_record_low] [sample_record]
           sample_record_low sample_record (PFloat (5 # 10)) (PFloat (95 # 100))
           (NFloat (5 # 10)) (NFloat (95 # 100)) 2
           eq_refl eq_refl eq_refl eq_refl eq_refl eq_refl eq_refl eq_refl Hi Hle).
Defined.

(** ** Due cards over time *)

Section DueOverTime.
Import Scheduler Reference.
Variable fromisoformat : string → option datetime.

Lemma due_later (now later : datetime) (card : gmap string pyval) :
  dt_us now ≤ dt_us later →
  due fromisoformat now card = true → due fromisoformat later card = true.
Proof.
  intros Hle. unfold due. destruct (card !! "next_review") as [[]|]; try done.
  destruct (fromisoformat s); [|done]. rewrite !Z.leb_le. lia.
Qed.

Lemma filter_sublist_weaker {A} (f g : A → bool) (l : list A) :
  (∀ x, f x = true → g x = true) →
  List.filter f l `sublist_of` List.filter g l.
Proof.
  intros Hfg. induction l as [|x l IH]; [done|]. cbn [List.filter].
  destruct (f x) eqn:Ef.
  - rewrite (Hfg x Ef). by constructor.
  - destruct (g x); [by constructor|done].
Qed.

Lemma filter_sublist {A} (f : A → bool) (l : list A) : List.filter f l `sublist_of` l.
Proof.
  induction l as [|x l IH]; [done|]. cbn [List.filter].
  destruct (f x); by constructor.
Qed.

End DueOverTime.

(** X4.  A card that is due stays due: for well-formed cards and two clock
    readings, the cards due at the earlier one are, in order, among the
    cards due at the later one, which are, in order, among the input. *)
Theorem get_cards_due_for_review_monotone
    (fromisoformat : string → option datetime) (now later : datetime)
    (cards : list (gmap string pyval)) :
  dt_offset now = None → dt_offset later = None → dt_us now ≤ dt_us later →
  Forall (Reference.next_review_well_formed fromisoformat) cards →
  ∃ due_now due_later,
    Scheduler.get_cards_due_for_review fromisoformat now cards = Ok due_now
    ∧ Scheduler.get_cards_due_for_review fromisoformat later cards = Ok due_later
    ∧ due_now `sublist_of` due_later
    ∧ due_later `sublist_of` cards.
Proof.
  intros Hnow Hlater Hle Hwf. unfold Scheduler.get_cards_due_for_review.
  rewrite (due_loop_filter fromisoformat now cards [] Hnow Hwf).
  rewrite (due_loop_filter fromisoformat later cards [] Hlater Hwf).
  eexists _, _. split; [done|]. split; [done|]. cbn [app]. split.
  - apply filter_sublist_weaker. intros card. by apply due_later.
  - apply filter_sublist.
Qed.

Lemma get_cards_due_for_review_monotone_witness :
  dt_offset (naive 0) = None ∧ dt_offset sample_now = None
  ∧ dt_us (naive 0) ≤ dt_us sample_now
  ∧ Forall (Reference.next_review_well_formed Iso.fromisoformat)
      [card_due; card_new; card_later]
  ∧ ∃ due_now due_later,
      Scheduler.get_cards_due_for_review Iso.fromisoformat (naive 0)
        [card_due; card_new; card_later] = Ok due_now
      ∧ Scheduler.get_cards_due_for_review Iso.fromisoformat sample_now
          [card_due; card_new; card_later] = Ok due_later
      ∧ due_now `sublist_of` due_later
      ∧ due_later `sublist_of` [card_due; card_new; card_later].
Proof.
  assert (H1 : dt_offset (naive 0) = None) by reflexivity.
  assert (H2 : dt_offset sample_now = None) by reflexivity.
  assert (H3 : dt_us (naive 0) ≤ dt_us sample_now) by (vm_compute; discriminate).
  assert (Hwf : Forall (Reference.next_review_well_formed Iso.fromisoformat)
                  [card_due; card_new; card_later]).
  { repeat constructor; try done; eexists; split; try reflexivity. }
  split; [exact H1|]. split; [exact H2|]. split; [exact H3|]. split; [exact Hwf|].
  exact (get_cards_due_for_review_monotone Iso.fromisoformat (naive 0) sample_now
           [card_due; card_new; card_later] H1 H2 H3 Hwf).
Defined.

(** ** The shape of a study-time suggestion *)

Section SuggestionShape.
Import Scheduler Reference.
Variable fromisoformat : string → option datetime.
Variable float_mean float_median : list Q → Q.

Lemma suggest_optimal_study_time_run (history : list (gmap string pyval)) :
  history ≠ [] →
  Forall (session_well_formed fromisoformat) history →
  ∃ best ba,
    best_spec (λ h, mean_accuracy_at fromisoformat float_mean h history)
      (hours_in_order fromisoformat history) 9 0%Q best ba
    ∧ suggest_optimal_study_time fromisoformat float_mean float_median history =
        Ok (mk_suggestion
              (format_02d best +:+ ":00")
              (int_of_float (float_median (durations history)))
              (let ratio := (inject_Z (Z.of_nat (length history)) / 10)%Q in
               if Qltb ratio (9 # 10) then ratio else (9 # 10))
              ("Based on " +:+ pretty (length history) +:+ " previous sessions")).
Proof.
  intros Hne Hwf.
  destruct (best_hour_of_spec fromisoformat float_mean history Hwf)
    as (best & ba & Hbest & Hspec).
  destruct (durations_of_spec fromisoformat history Hwf) as (ds & Hds & Hnums).
  exists best, ba. split; [done|].
  unfold suggest_optimal_study_time. destruct history as [|session rest]; [done|].
  rewrite Hbest. cbn [mbind result_bind]. rewrite Hds. cbn [mbind result_bind].
  unfold np_median. rewrite Hnums. reflexivity.
Qed.





End SuggestionShape.



(** ** The recommended duration *)

Section MedianRange.
Import Scheduler Reference.

Lemma int_of_float_range (q : Q) (lo hi : Z) :
  (inject_Z lo <= q)%Q → (q <= inject_Z hi)%Q → lo ≤ int_of_float q ≤ hi.
Proof.
  unfold Qle, int_of_float. destruct q as [n d]. cbn. rewrite !Z.mul_1_r.
  intros Hlo Hhi. pose proof (Z.quot_rem' n (Z.pos d)) as Hq.
  destruct (Z_le_gt_dec 0 n) as [Hn|Hn].
  - pose proof (Z.rem_bound_pos_pos n (Z.pos d) ltac:(lia) Hn). nia.
  - pose proof (Z.rem_bound_pos_neg n (Z.pos d) ltac:(lia) ltac:(lia)). nia.
Qed.

Lemma median_of_sorted_range (s : list Q) (lo hi : Q) :
  s ≠ [] → (∀ q, q ∈ s → (lo <= q)%Q ∧ (q <= hi)%Q) →
  (lo <= median_of_sorted s)%Q ∧ (median_of_sorted s <= hi)%Q.
Proof.
  intros Hne Hall. unfold median_of_sorted.
  assert (Hlen : (0 < length s)%nat) by (destruct s; [done|cbn; lia]).
  assert (Hhalf : (length s / 2 < length s)%nat) by (apply Nat.div_lt; lia).
  assert (Hnth : ∀ i, (i < length s)%nat → (lo <= nth i s 0)%Q ∧ (nth i s 0 <= hi)%Q).
  { intros i Hi. apply Hall, list_elem_of_In, nth_In. exact Hi. }
  destruct (Nat.even (length s)).
  - destruct (Hnth (length s / 2 - 1)%nat ltac:(lia)) as [Ha1 Ha2].
    destruct (Hnth (length s / 2)%nat Hhalf) as [Hb1 Hb2].
    revert Ha1 Ha2 Hb1 Hb2.
    generalize (nth (length s / 2 - 1) s 0%Q), (nth (length s / 2) s 0%Q).
    clear. intros a b Ha1 Ha2 Hb1 Hb2. split.
    + apply Qle_shift_div_l; [reflexivity|]. lra.
    + apply Qle_shift_div_r; [reflexivity|]. lra.
  - by apply Hnth.
Qed.

Lemma median_range (l : list Q) (lo hi : Q) :
  l ≠ [] → (∀ q, q ∈ l → (lo <= q)%Q ∧ (q <= hi)%Q) →
  (lo <= median l)%Q ∧ (median l <= hi)%Q.
Proof.
  intros Hne Hall. unfold median.
  pose proof (stable_sort_Permutation Qle_bool l) as Hperm.
  apply median_of_sorted_range.
  - intros Hnil. unfold Qsort in Hnil. rewrite Hnil in Hperm.
    apply Permutation_nil_l in Hperm. done.
  - intros q Hq. apply Hall. unfold Qsort in Hq. by rewrite Hperm in Hq.
Qed.

Lemma durations_nonempty (fromisoformat : string → option datetime)
    (history : list (gmap string pyval)) :
  history ≠ [] → Forall (session_well_formed fromisoformat) history →
  durations history ≠ [].
Proof.
  intros Hne Hwf. destruct Hwf as [|session rest Hs _]; [done|].
  destruct Hs as (_ & _ & [q Hq]). unfold durations. cbn [omap list_omap].
  by rewrite Hq.
Qed.

End MedianRange.

(** X6.  The recommended duration lies within the range of the recorded
    durations: when every duration of a non-empty well-formed history is
    between the integers [lo] and [hi], neither beyond 2^53 in size, so
    is the recommendation.  What is asked of numpy's median is that, on
    numbers between two such integers, it returns a value between them
    (each integer up to 2^53 is a float64, and conversion, sorting and
    halving a sum keep a value between two float64 bounds). *)
Theorem recommended_duration_in_range
    (fromisoformat : string → option datetime)
    (float_mean float_median : list Q → Q)
    (history : list (gmap string pyval)) (lo hi : Z) :
  (∀ qs (a b : Z), qs ≠ [] → - 2 ^ 53 ≤ a → b ≤ 2 ^ 53 →
     (∀ q, q ∈ qs → (inject_Z a <= q)%Q ∧ (q <= inject_Z b)%Q) →
     (inject_Z a <= float_median qs)%Q ∧ (float_median qs <= inject_Z b)%Q) →
  history ≠ [] →
  Forall (Reference.session_well_formed fromisoformat) history →
  - 2 ^ 53 ≤ lo → hi ≤ 2 ^ 53 →
  (∀ q, q ∈ Reference.durations history → (inject_Z lo <= q)%Q ∧ (q <= inject_Z hi)%Q) →
  ∃ s, Scheduler.suggest_optimal_study_time fromisoformat float_mean float_median history
         = Ok s
       ∧ lo ≤ Scheduler.recommended_duration s ≤ hi.
Proof.
  intros Hmedian Hne Hwf Hlo Hhi Hall.
  destruct (suggest_optimal_study_time_run fromisoformat float_mean float_median
              history Hne Hwf) as (best & ba & _ & Hrun).
  eexists. split; [exact Hrun|]. cbn [Scheduler.recommended_duration].
  destruct (Hmedian (Reference.durations history) lo hi) as [H1 H2];
    [by eapply durations_nonempty|done|done|done|].
  by apply int_of_float_range.
Qed.

Lemma recommended_duration_in_range_witness :
  ∃ s, Scheduler.suggest_optimal_study_time Iso.fromisoformat
         Scheduler.exact_mean Scheduler.exact_median sample_history = Ok s
       ∧ 25 ≤ Scheduler.recommended_duration s ≤ 40.
Proof.
  apply (recommended_duration_in_range Iso.fromisoformat
           Scheduler.exact_mean Scheduler.exact_median sample_history 25 40).
  - intros qs a b Hqs _ _ Hall. by apply median_range.
  - done.
  - repeat constructor; vm_compute; eauto.
  - lia.
  - lia.
  - intros q Hq. vm_compute in Hq.
    repeat (apply elem_of_cons in Hq as [->|Hq]; [split; vm_compute; discriminate|]).
    by apply elem_of_nil in Hq.
Defined.

(** ** Card transformations *)

Section TransformFacts.
Import Personalizer Reference.

Lemma truncated_fixed (d : gmap string pyval) (k : string) (limit : Z) (keep : nat) :
  (∀ s, d !! k = Some (PStr s) → Z.of_nat (String.length s) ≤ limit) →
  truncated d k limit keep = d.
Proof.
  intros H. unfold truncated. destruct (d !! k) as [[]|] eqn:E; try done.
  destruct (Z.ltb_spec limit (Z.of_nat (String.length s))); [|done].
  specialize (H s eq_refl). lia.
Qed.

Lemma truncated_length (d : gmap string pyval) (k s : string) (limit : Z) (keep : nat) :
  Z.of_nat keep + 3 ≤ limit →
  truncated d k limit keep !! k = Some (PStr s) →
  Z.of_nat (String.length s) ≤ limit.
Proof.
  intros Hkeep. unfold truncated. destruct (d !! k) as [[]|] eqn:E; try congruence.
  destruct (Z.ltb_spec limit (Z.of_nat (String.length s0))).
  - rewrite lookup_insert_eq. intros [= <-].
    rewrite length_append, length_substring by lia. cbn. lia.
  - rewrite E. intros [= <-]. done.
Qed.

End TransformFacts.

(** X7.  [_simplify_for_fast_review] is idempotent: on a card whose front
    and back are strings (or absent), simplifying the simplified card
    returns it with the store as it is. *)
Theorem simplify_for_fast_review_idempotent
    (h : gmap Personalizer.loc Personalizer.obj) (card : Personalizer.loc)
    (d : gmap string pyval) :
  h !! card = Some (Personalizer.ODict d) →
  Reference.text_or_absent d "front" → Reference.text_or_absent d "back" →
  fst (Personalizer._simplify_for_fast_review card h) = Ok card
  ∧ Personalizer._simplify_for_fast_review card
      (snd (Personalizer._simplify_for_fast_review card h))
    = (Ok card, snd (Personalizer._simplify_for_fast_review card h)).
Proof.
  intros Hc Hf Hb.
  rewrite (simplify_for_fast_review_run h card d Hc Hf Hb). cbn [fst snd].
  split; [done|].
  set (d1 := <["simplified" := PBool true]>
               (truncated (truncated d "front" 100 97) "back" 150 147)).
  assert (Hf1 : Reference.text_or_absent d1 "front").
  { unfold Reference.text_or_absent, d1. rewrite lookup_insert_ne by done.
    by do 2 apply truncated_text_or_absent. }
  assert (Hb1 : Reference.text_or_absent d1 "back").
  { unfold Reference.text_or_absent, d1. rewrite lookup_insert_ne by done.
    by do 2 apply truncated_text_or_absent. }
  rewrite (simplify_for_fast_review_run _ card d1 (lookup_insert_eq _ _ _) Hf1 Hb1).
  rewrite insert_insert_eq. do 3 f_equal.
  assert (H1 : truncated d1 "front" 100 97 = d1).
  { apply truncated_fixed. intros s. unfold d1. rewrite lookup_insert_ne by done.
    rewrite truncated_lookup_ne by done. apply truncated_length. lia. }
  rewrite H1.
  assert (H2 : truncated d1 "back" 150 147 = d1).
  { apply truncated_fixed. intros s. unfold d1. rewrite lookup_insert_ne by done.
    apply truncated_length. lia. }
  rewrite H2. unfold d1. by rewrite insert_insert_eq.
Qed.

Lemma simplify_for_fast_review_idempotent_witness :
  long_card_store !! 1%positive = Some (Personalizer.ODict long_card)
  ∧ Reference.text_or_absent long_card "front"
  ∧ Reference.text_or_absent long_card "back"
  ∧ fst (Personalizer._simplify_for_fast_review 1%positive long_card_store)
    = Ok 1%positive
  ∧ Personalizer._simplify_for_fast_review 1%positive
      (snd (Personalizer._simplify_for_fast_review 1%positive long_card_store))
    = (Ok 1%positive,
       snd (Personalizer._simplify_for_fast_review 1%positive long_card_store)).
Proof.
  assert (H1 : long_card_store !! 1%positive = Some (Personalizer.ODict long_card))
    by reflexivity.
  assert (H2 : Reference.text_or_absent long_card "front") by (vm_compute; exact I).
  assert (H3 : Reference.text_or_absent long_card "back") by (vm_compute; exact I).
  split; [exact H1|]. split; [exact H2|]. split; [exact H3|].
  exact (simplify_for_fast_review_idempotent long_card_store 1%positive long_card
           H1 H2 H3).
Defined.

Lemma py_eq_str (s : string) (v : pyval) :
  py_eq (PStr s) v = true ↔ v = PStr s.
Proof.
  unfold py_eq. cbn [as_num].
  destruct v; cbn; try (split; [done|congruence]).
  rewrite String.eqb_eq. split; congruence.
Qed.

Section MultipleChoice.
Import Personalizer.
Variable shuffle : list pyval → list pyval.

Lemma convert_to_multiple_choice_run (h : gmap loc obj) (card : loc)
    (d : gmap string pyval) :
  h !! card = Some (ODict d) →
  _convert_to_multiple_choice shuffle card h =
    if py_eq (PStr "multiple_choice") (dict_get d "type" PNone) then (Ok card, h)
    else
      (Ok card,
       <[card := ODict
           (<["correct_answer" := dict_get d "back" (PStr "")]> (
            <["choices" := PList (shuffle (dict_get d "back" (PStr "") :: distractors))]> (
            <["type" := PStr "multiple_choice"]> d)))]> h).
Proof.
  intros Hc. unfold _convert_to_multiple_choice.
  rewrite (bind_ok _ _ _ _ _ (read_dict_ok h card d Hc)).
  destruct (py_eq _ _); [done|].
  erewrite bind_ok by (by apply write_key_ok).
  erewrite bind_ok by (apply write_key_ok; apply lookup_insert_eq).
  rewrite insert_insert_eq.
  erewrite bind_ok by (apply write_key_ok; apply lookup_insert_eq).
  by rewrite insert_insert_eq.
Qed.

End MultipleChoice.

(** X8.  [_convert_to_multiple_choice], for a shuffle that permutes its
    argument: a card that is not yet multiple choice gets four choices, the
    card's back (or the empty string) and the three fixed alternatives in
    some order, with the back recorded as the correct answer and front and
    back kept; a card that already is multiple choice is left as it is, so
    converting twice is the same as converting once. *)
Theorem convert_to_multiple_choice_choices
    (shuffle : list pyval → list pyval)
    (h : gmap Personalizer.loc Personalizer.obj) (card : Personalizer.loc)
    (d : gmap string pyval) :
  (∀ l, shuffle l ≡ₚ l) →
  h !! card = Some (Personalizer.ODict d) →
  ∃ d',
    Personalizer._convert_to_multiple_choice shuffle card h
      = (Ok card, <[card := Personalizer.ODict d']> h)
    ∧ d' !! "type" = Some (PStr "multiple_choice")
    ∧ (d !! "type" = Some (PStr "multiple_choice") → d' = d)
    ∧ (d !! "type" ≠ Some (PStr "multiple_choice") →
       ∃ choices,
         d' !! "choices" = Some (PList choices)
         ∧ choices ≡ₚ dict_get d "back" (PStr "") :: distractors
         ∧ d' !! "correct_answer" = Some (dict_get d "back" (PStr ""))
         ∧ d' !! "front" = d !! "front" ∧ d' !! "back" = d !! "back")
    ∧ Personalizer._convert_to_multiple_choice shuffle card
        (<[card := Personalizer.ODict d']> h)
      = (Ok card, <[card := Personalizer.ODict d']> h).
Proof.
  intros Hperm Hc.
  rewrite (convert_to_multiple_choice_run shuffle h card d Hc).
  destruct (py_eq (PStr "multiple_choice") (dict_get d "type" PNone)) eqn:E.
  - apply py_eq_str in E.
    assert (Ht : d !! "type" = Some (PStr "multiple_choice")).
    { unfold dict_get in E. destruct (d !! "type"); [by subst|done]. }
    exists d. rewrite (insert_id h card _ Hc).
    split; [done|]. split; [done|]. split; [done|]. split; [done|].
    rewrite (convert_to_multiple_choice_run shuffle h card d Hc).
    unfold dict_get. by rewrite Ht.
  - assert (Ht : d !! "type" ≠ Some (PStr "multiple_choice")).
    { intros Ht. unfold dict_get in E. rewrite Ht in E. done. }
    eexists. split; [reflexivity|].
    split; [by simplify_map_eq|].
    split; [done|].
    split.
    + intros _. eexists. split; [by simplify_map_eq|].
      split; [apply Hperm|]. by simplify_map_eq.
    + erewrite convert_to_multiple_choice_run by apply lookup_insert_eq.
      unfold dict_get at 1. by simplify_map_eq.
Qed.

Lemma rotate_Permutation (l : list pyval) : rotate l ≡ₚ l.
Proof. destruct l as [|x l]; [done|]. cbn. by rewrite Permutation_app_comm. Qed.

Lemma convert_to_multiple_choice_choices_witness :
  ∃ d',
    Personalizer._convert_to_multiple_choice rotate 1%positive plain_card_store
      = (Ok 1%positive, <[1%positive := Personalizer.ODict d']> plain_card_store)
    ∧ d' !! "type" = Some (PStr "multiple_choice")
    ∧ (plain_card !! "type" = Some (PStr "multiple_choice") → d' = plain_card)
    ∧ (plain_card !! "type" ≠ Some (PStr "multiple_choice") →
       ∃ choices,
         d' !! "choices" = Some (PList choices)
         ∧ choices ≡ₚ dict_get plain_card "back" (PStr "") :: distractors
         ∧ d' !! "correct_answer" = Some (dict_get plain_card "back" (PStr ""))
         ∧ d' !! "front" = plain_card !! "front"
         ∧ d' !! "back" = plain_card !! "back")
    ∧ Personalizer._convert_to_multiple_choice rotate 1%positive
        (<[1%positive := Personalizer.ODict d']> plain_card_store)
      = (Ok 1%positive, <[1%positive := Personalizer.ODict d']> plain_card_store).
Proof.
  apply (convert_to_multiple_choice_choices rotate plain_card_store 1%positive
           plain_card rotate_Permutation).
  reflexivity.
Defined.

(** ** Sorting a deck by a key *)

Lemma filter_fmap_snd {K L} (P : L → bool) (l : list (K * L)) :
  List.filter P (snd <$> l) = snd <$> List.filter (λ x, P (snd x)) l.
Proof.
  induction l as [|x l IH]; [done|]. cbn. rewrite IH. by destruct (P (snd x)).
Qed.

(** Cards whose keys are all [before] one another keep their input order. *)
Lemma sort_keyed_stable {L} (before : Q → Q → bool) (key : L → Q) (P : L → bool)
    (l : list L) :
  (∀ x y, x ∈ l → y ∈ l → P x = true → P y = true → before (key x) (key y) = true) →
  List.filter P
    (snd <$> stable_sort (λ x y : Q * L, before (fst x) (fst y))
               ((λ c, (key c, c)) <$> l))
  = List.filter P l.
Proof.
  intros Hcls. rewrite filter_fmap_snd, stable_sort_stable.
  - rewrite <- filter_fmap_snd, <- list_fmap_compose. by rewrite list_fmap_id.
  - intros x y Hx Hy. apply list_elem_of_fmap in Hx as (a & -> & Ha).
    apply list_elem_of_fmap in Hy as (b & -> & Hb). cbn. by apply Hcls.
Qed.

Lemma sort_by_increasing_key {L} (key : L → Z) (l : list L) :
  let sorted :=
    snd <$> stable_sort (λ x y : Q * L, Qle_bool (fst x) (fst y))
              ((λ c, (inject_Z (key c), c)) <$> l) in
  sorted ≡ₚ l ∧ StronglySorted (λ a b, key a ≤ key b) sorted
  ∧ ∀ r, List.filter (λ c, key c =? r) sorted = List.filter (λ c, key c =? r) l.
Proof.
  cbn zeta. split; [|split].
  - rewrite stable_sort_Permutation. rewrite <- list_fmap_compose.
    by rewrite list_fmap_id.
  - eapply (StronglySorted_fmap (λ a b : Q * L, Qle_bool (fst a) (fst b) = true) _
              (λ x, fst x = inject_Z (key (snd x)))).
    + intros [kx x] [ky y]. cbn [fst snd]. intros -> -> H.
      rewrite Qle_bool_inject_Z in H. lia.
    + rewrite stable_sort_Permutation. rewrite Forall_fmap. by apply Forall_true.
    + apply stable_sort_sorted.
      * intros x y. apply Qle_bool_total.
      * intros x y z H1 H2. eapply Qle_bool_trans; eauto.
  - intros r.
    apply (sort_keyed_stable Qle_bool (λ c, inject_Z (key c)) (λ c, key c =? r)).
    intros x y _ _ Hx Hy. rewrite Qle_bool_inject_Z. lia.
Qed.

Section DifficultyProgression.
Import Personalizer.

Lemma sort_keys_run (key : gmap string pyval → result Q) (f : loc → Q)
    (h : gmap loc obj) (l : list loc) :
  (∀ c, c ∈ l → ∃ d, h !! c = Some (ODict d) ∧ key d = Ok (f c)) →
  sort_keys key l h = (Ok ((λ c, (f c, c)) <$> l), h).
Proof.
  intros Hd. induction l as [|c l IH]; [done|].
  destruct (Hd c) as (d & Hc & Hk); [set_solver|].
  cbn [sort_keys]. erewrite bind_ok by (by apply read_dict_ok).
  rewrite Hk. unfold lift at 1. erewrite bind_ok by reflexivity.
  erewrite bind_ok by (apply IH; intros; apply Hd; set_solver).
  done.
Qed.

Lemma difficulty_key_rank (d : gmap string pyval) :
  hashable (dict_get d "difficulty" (PStr "medium")) = true →
  difficulty_key d = Ok (inject_Z (difficulty_rank d)).
Proof.
  unfold difficulty_key, difficulty_rank, dict_get. intros ->.
  destruct (d !! "difficulty") as [[| | | |s| | |]|]; try done.
  unfold py_eq. cbn [as_num]. rewrite !(String.eqb_sym _ s).
    destruct (String.eqb s "easy") eqn:E1; [done|].
    destruct (String.eqb s "medium") eqn:E2.
    { apply String.eqb_eq in E2 as ->. done. }
    by destruct (String.eqb s "hard").
Qed.

Lemma apply_difficulty_progression_run (h : gmap loc obj) (cards : loc) (l : list loc) :
  h !! cards = Some (OList l) →
  (∀ c, c ∈ l → ∃ d, h !! c = Some (ODict d)
                     ∧ hashable (dict_get d "difficulty" (PStr "medium")) = true) →
  _apply_difficulty_progression cards h =
    (Ok cards,
     <[cards := OList
         (snd <$> stable_sort (λ x y : Q * loc, Qle_bool (fst x) (fst y))
            ((λ c, (inject_Z (card_rank h c), c)) <$> l))]> h).
Proof.
  intros Hcards Hwf. unfold _apply_difficulty_progression, sort_ascending.
  erewrite bind_ok; [done|].
  erewrite bind_ok by (by apply read_list_ok).
  erewrite bind_ok; cycle 1.
  { apply (sort_keys_run _ (λ c, inject_Z (card_rank h c))).
    intros c Hc. destruct (Hwf c Hc) as (d & Hd & Hh). exists d. split; [done|].
    unfold card_rank. rewrite Hd. by apply difficulty_key_rank. }
  by eapply write_list_ok.
Qed.

End DifficultyProgression.

(** X9.  [_apply_difficulty_progression] rearranges the deck so that easy
    cards come first, then medium ones (with the cards that name no
    difficulty or an unknown one), then hard ones; cards of the same rank
    keep the order they had in the input, and no card is changed. *)
Theorem difficulty_progression_sorted
    (h : gmap Personalizer.loc Personalizer.obj) (cards : Personalizer.loc)
    (l : list Personalizer.loc) :
  h !! cards = Some (Personalizer.OList l) →
  (∀ c, c ∈ l → ∃ d, h !! c = Some (Personalizer.ODict d)
                     ∧ hashable (dict_get d "difficulty" (PStr "medium")) = true) →
  ∃ l',
    Personalizer._apply_difficulty_progression cards h
      = (Ok cards, <[cards := Personalizer.OList l']> h)
    ∧ l' ≡ₚ l
    ∧ StronglySorted (λ a b, card_rank h a ≤ card_rank h b) l'
    ∧ ∀ r, List.filter (λ c, card_rank h c =? r) l'
           = List.filter (λ c, card_rank h c =? r) l.
Proof.
  intros Hcards Hwf.
  rewrite (apply_difficulty_progression_run h cards l Hcards Hwf).
  eexists. split; [reflexivity|].
  apply (sort_by_increasing_key (card_rank h) l).
Qed.

Lemma difficulty_progression_sorted_witness :
  ∃ l',
    Personalizer._apply_difficulty_progression 9%positive graded_store
      = (Ok 9%positive, <[9%positive := Personalizer.OList l']> graded_store)
    ∧ l' ≡ₚ [1; 2; 3; 4; 5]%positive
    ∧ StronglySorted (λ a b, card_rank graded_store a ≤ card_rank graded_store b) l'
    ∧ ∀ r, List.filter (λ c, card_rank graded_store c =? r) l'
           = List.filter (λ c, card_rank graded_store c =? r) [1; 2; 3; 4; 5]%positive.
Proof.
  apply (difficulty_progression_sorted graded_store 9%positive [1; 2; 3; 4; 5]%positive).
  - reflexivity.
  - intros c Hc. repeat (apply elem_of_cons in Hc as [->|Hc]);
      [eexists; split; [reflexivity|reflexivity]..|by apply elem_of_nil in Hc].
Defined.

Example difficulty_progression_sample :
  (snd (Personalizer._apply_difficulty_progression 9%positive graded_store))
    !! 9%positive
  = Some (Personalizer.OList [2; 4; 3; 5; 1]%positive).
Proof. vm_compute. reflexivity. Qed.

Section SortErrors.
Import Personalizer.

Lemma difficulty_key_cases (d : gmap string pyval) :
  (hashable (dict_get d "difficulty" (PStr "medium")) = true
   ∧ ∃ q, difficulty_key d = Ok q)
  ∨ (hashable (dict_get d "difficulty" (PStr "medium")) = false
     ∧ difficulty_key d = Raise TypeError).
Proof.
  unfold difficulty_key.
  destruct (hashable _); [left|right]; eauto.
Qed.

Lemma sort_keys_unhashable (h : gmap loc obj) (l : list loc) :
  (∀ c, c ∈ l → ∃ d, h !! c = Some (ODict d)) →
  (∃ c d, c ∈ l ∧ h !! c = Some (ODict d)
          ∧ hashable (dict_get d "difficulty" (PStr "medium")) = false) →
  sort_keys difficulty_key l h = (Raise TypeError, h).
Proof.
  induction l as [|c l IH]; intros Hd (c' & d' & Hin & Hc' & Hh).
  { by apply elem_of_nil in Hin. }
  destruct (Hd c) as (d & Hc); [set_solver|].
  cbn [sort_keys]. erewrite bind_ok by (by apply read_dict_ok).
  destruct (difficulty_key_cases d) as [(Hhd & q & Hq)|(Hhd & Hq)]; rewrite Hq.
  - unfold lift at 1. erewrite bind_ok by reflexivity.
    erewrite bind_raise; [done|]. apply IH; [intros; apply Hd; set_solver|].
    exists c', d'. split; [|done].
    apply elem_of_cons in Hin as [->|Hin]; [|done]. congruence.
  - unfold lift at 1. by erewrite bind_raise by reflexivity.
Qed.

End SortErrors.

(** X10.  When some card of the deck has a list or a dictionary as its
    difficulty, [_apply_difficulty_progression] raises TypeError and leaves
    the deck and every card as they were: the keys are computed before
    anything is moved. *)
Theorem difficulty_progression_unhashable
    (h : gmap Personalizer.loc Personalizer.obj) (cards : Personalizer.loc)
    (l : list Personalizer.loc) (c : Personalizer.loc) (d : gmap string pyval) :
  h !! cards = Some (Personalizer.OList l) →
  (∀ c, c ∈ l → ∃ d, h !! c = Some (Personalizer.ODict d)) →
  c ∈ l → h !! c = Some (Personalizer.ODict d) →
  hashable (dict_get d "difficulty" (PStr "medium")) = false →
  Personalizer._apply_difficulty_progression cards h = (Raise TypeError, h).
Proof.
  intros Hcards Hd Hc Hcd Hh.
  unfold Personalizer._apply_difficulty_progression, Personalizer.sort_ascending.
  erewrite bind_raise; [done|].
  erewrite bind_ok by (by apply read_list_ok).
  erewrite bind_raise; [done|].
  apply sort_keys_unhashable; [done|]. by exists c, d.
Qed.

Lemma difficulty_progression_unhashable_witness :
  Personalizer._apply_difficulty_progression 9%positive ungraded_store
  = (Raise TypeError, ungraded_store).
Proof.
  apply (difficulty_progression_unhashable ungraded_store 9%positive
           [1; 2; 3; 4; 5]%positive 4%positive (<["difficulty" := PList [PStr "easy"]]> ∅)).
  - reflexivity.
  - intros c Hc. repeat (apply elem_of_cons in Hc as [->|Hc]);
      [eexists; reflexivity..|by apply elem_of_nil in Hc].
  - set_solver.
  - reflexivity.
  - reflexivity.
Defined.

(** X11.  The ordering of [_apply_spaced_repetition_order] is stable: the
    cards of one priority, in particular the cards that have never been
    reviewed, keep the order they had in the input deck. *)
Theorem spaced_repetition_order_stable
    (fromisoformat : string → option datetime) (now : datetime)
    (h : gmap Personalizer.loc Personalizer.obj) (cards : Personalizer.loc)
    (l : list Personalizer.loc) :
  dt_offset now = None →
  h !! cards = Some (Personalizer.OList l) →
  (∀ c, c ∈ l → ∃ d, h !! c = Some (Personalizer.ODict d)
                     ∧ Reference.last_reviewed_well_formed fromisoformat d) →
  ∃ l',
    (snd (Personalizer._apply_spaced_repetition_order fromisoformat now cards h))
      !! cards = Some (Personalizer.OList l')
    ∧ ∀ r, List.filter (λ c, Reference.card_priority fromisoformat now h c =? r) l'
           = List.filter (λ c, Reference.card_priority fromisoformat now h c =? r) l.
Proof.
  intros Hnow Hcards Hwf.
  destruct (apply_spaced_repetition_order_run fromisoformat now Hnow h cards l Hcards Hwf)
    as (h1 & Hinv & Hrun).
  rewrite Hrun. cbn [snd]. eexists. split; [apply lookup_insert_eq|].
  intros r.
  apply (sort_keyed_stable (λ x y, Qle_bool y x)
           (λ c, inject_Z (Reference.card_priority fromisoformat now h c))
           (λ c, Reference.card_priority fromisoformat now h c =? r)).
  intros x y _ _ Hx Hy. rewrite Qle_bool_inject_Z. lia.
Qed.

Lemma spaced_repetition_order_stable_witness :
  ∃ l',
    (snd (Personalizer._apply_spaced_repetition_order Iso.fromisoformat sample_now
            5%positive review_store)) !! 5%positive = Some (Personalizer.OList l')
    ∧ ∀ r, List.filter
             (λ c, Reference.card_priority Iso.fromisoformat sample_now review_store c =? r) l'
           = List.filter
               (λ c, Reference.card_priority Iso.fromisoformat sample_now review_store c =? r)
               [3; 2; 1]%positive.
Proof.
  apply (spaced_repetition_order_stable Iso.fromisoformat sample_now review_store
           5%positive [3; 2; 1]%positive).
  - reflexivity.
  - reflexivity.
  - intros c Hc. repeat (apply elem_of_cons in Hc as [->|Hc]).
    + eexists. split; [reflexivity|]. split; [done|]. eexists. split; reflexivity.
    + eexists. split; [reflexivity|]. exact I.
    + eexists. split; [reflexivity|]. split; [done|]. eexists. split; reflexivity.
    + by apply elem_of_nil in Hc.
Defined.

(** ** Profiles: what recording a session can change *)

Section ProfileFrame.
Import Personalizer.

Lemma get_user_profile_other (user u : string) (ps : gmap string PersonalizationProfile) :
  u ≠ user → snd (get_user_profile user ps) !! u = ps !! u.
Proof.
  intros Hne. unfold get_user_profile. destruct (ps !! user); cbn; [done|].
  by rewrite lookup_insert_ne.
Qed.

Lemma get_user_profile_insert_id (user : string) (ps : gmap string PersonalizationProfile) :
  <[user := fst (get_user_profile user ps)]> (snd (get_user_profile user ps))
  = snd (get_user_profile user ps).
Proof. apply insert_id, get_user_profile_lookup. Qed.

(** Every outcome of [update_user_profile], returned or raised, leaves the
    profiles as they were after the profile's creation but for the user's
    own profile. *)
Lemma update_user_profile_outcomes (now_iso user : string)
    (session_data : gmap string pyval) (ps : gmap string PersonalizationProfile) :
  let p0 := fst (get_user_profile user ps) in
  let m := dict_get session_data "mode" PNone in
  ∃ p',
    snd (update_user_profile now_iso user session_data ps)
      = <[user := p']> (snd (get_user_profile user ps))
    ∧ same_settings p0 p'
    ∧ (preferred_modes p' = preferred_modes p0
       ∨ ∃ new_mode, preferred_modes p' = preferred_modes p0 ++ [new_mode]
                     ∧ StudyMode_of m = Ok new_mode
                     ∧ mode_in m (preferred_modes p0) = false).
Proof.
  cbv zeta.
  pose proof (get_user_profile_lookup user ps) as Hp0.
  pose proof (get_user_profile_insert_id user ps) as Hid.
  set (p0 := fst (get_user_profile user ps)) in *.
  set (ps0 := snd (get_user_profile user ps)) in *.
  assert (Hstop : ∃ p', ps0 = <[user := p']> ps0 ∧ same_settings p0 p'
      ∧ (preferred_modes p' = preferred_modes p0
         ∨ ∃ new_mode, preferred_modes p' = preferred_modes p0 ++ [new_mode]
              ∧ StudyMode_of (dict_get session_data "mode" PNone) = Ok new_mode
              ∧ mode_in (dict_get session_data "mode" PNone) (preferred_modes p0) = false)).
  { exists p0. split; [done|]. split; [by repeat split|by left]. }
  destruct (py_len (dict_get session_data "responses" (PList []))) as [total|e] eqn:Hlen;
    cycle 1.
  { unfold update_user_profile. rewrite Hlen.
    unfold mbind at 1, stateful_bind at 1. unfold ensure_profile at 1. fold ps0.
    unfold lift. erewrite bind_raise by reflexivity. exact Hstop. }
  destruct (py_iter (dict_get session_data "responses" (PList []))) as [items|e] eqn:Hiter;
    cycle 1.
  { unfold update_user_profile. rewrite Hlen, Hiter.
    unfold mbind at 1, stateful_bind at 1. unfold ensure_profile at 1. fold ps0.
    unfold lift. erewrite bind_ok by reflexivity.
    erewrite bind_raise by reflexivity. exact Hstop. }
  destruct (count_correct items) as [correct|e] eqn:Hcount; cycle 1.
  { unfold update_user_profile. rewrite Hlen, Hiter.
    unfold mbind at 1, stateful_bind at 1. unfold ensure_profile at 1. fold ps0.
    unfold lift. erewrite bind_ok by reflexivity. erewrite bind_ok by reflexivity.
    rewrite Hcount. erewrite bind_raise by reflexivity. exact Hstop. }
  set (p1 := set_performance_history
               (performance_history p0 ++ [entry_of now_iso session_data correct total]) p0).
  assert (Hrecorded : ∃ p', <[user := p1]> ps0 = <[user := p']> ps0 ∧ same_settings p0 p'
      ∧ (preferred_modes p' = preferred_modes p0
         ∨ ∃ new_mode, preferred_modes p' = preferred_modes p0 ++ [new_mode]
              ∧ StudyMode_of (dict_get session_data "mode" PNone) = Ok new_mode
              ∧ mode_in (dict_get session_data "mode" PNone) (preferred_modes p0) = false)).
  { exists p1. split; [done|]. split; [by repeat split|by left]. }
  assert (Hentry :
    update_user_profile now_iso user session_data ps
    = (weak_topics ← lift (collect_weak_topics items []);
       weak_area_counts ← lift (Counter weak_topics []);
       modify_profile user (set_weak_areas (fst <$> most_common 5 weak_area_counts));;
       (if num_ltb (NFloat (8 # 10)) (session_accuracy correct total) then
          profile ← read_profile user;
          let m := dict_get session_data "mode" PNone in
          if mode_in m (preferred_modes profile) then mret ()
          else
            new_mode ← lift (StudyMode_of m);
            modify_profile user
              (λ p, set_preferred_modes (preferred_modes p ++ [new_mode]) p)
        else mret ());;
       modify_profile user
         (λ p, set_performance_history
                 (drop (length (performance_history p) - 30) (performance_history p)) p))
      (<[user := p1]> ps0)).
  { unfold update_user_profile. rewrite Hlen, Hiter.
    unfold mbind at 1, stateful_bind at 1. unfold ensure_profile at 1. fold ps0.
    unfold lift at 1 2 3. erewrite bind_ok by reflexivity.
    erewrite bind_ok by reflexivity.
    rewrite Hcount. erewrite bind_ok by reflexivity.
    erewrite bind_ok; [reflexivity|].
    unfold modify_profile. by rewrite (alter_lookup_insert _ _ _ _ Hp0). }
  destruct (collect_weak_topics items []) as [topics|e] eqn:Htopics; cycle 1.
  { rewrite Hentry. unfold lift.
    erewrite bind_raise by reflexivity. exact Hrecorded. }
  destruct (Counter topics []) as [counts|e] eqn:Hcounter; cycle 1.
  { rewrite Hentry. unfold lift.
    erewrite bind_ok by reflexivity. rewrite Hcounter.
    erewrite bind_raise by reflexivity. exact Hrecorded. }
  rewrite (update_user_profile_steps now_iso user session_data ps items topics total
             correct counts Hlen Hiter Hcount Htopics Hcounter).
  fold p0 ps0 p1.
  destruct (num_ltb _ _ && negb (mode_in _ _)) eqn:Hadd.
  - apply andb_true_iff in Hadd as [_ Hin%negb_true_iff].
    destruct (StudyMode_of _) as [new_mode|e] eqn:Hmode; cbn [snd].
    + eexists. split; [reflexivity|]. split; [by repeat split|].
      right. by exists new_mode.
    + eexists. split; [reflexivity|]. split; [by repeat split|by left].
  - cbn [snd]. eexists. split; [reflexivity|]. split; [by repeat split|by left].
Qed.

End ProfileFrame.

(** X12.  Whatever the session data, and whether it returns or raises,
    [update_user_profile] changes no other user's profile, leaves the
    user with a profile whose identifier, preferred styles, difficulty and
    study-time preferences and learning goals are those it had (or those
    of a new default profile), and never removes or reorders a preferred
    mode: the preferred modes are kept, or extended at the end by the one
    mode of the session, which was not among them. *)
Theorem update_user_profile_frame (now_iso user : string)
    (session_data : gmap string pyval)
    (ps : gmap string Personalizer.PersonalizationProfile) :
  let p0 := fst (Personalizer.get_user_profile user ps) in
  let ps' := snd (Personalizer.update_user_profile now_iso user session_data ps) in
  let m := dict_get session_data "mode" PNone in
  (∀ u, u ≠ user → ps' !! u = ps !! u)
  ∧ ∃ p',
      ps' !! user = Some p'
      ∧ same_settings p0 p'
      ∧ (Personalizer.preferred_modes p' = Personalizer.preferred_modes p0
         ∨ ∃ new_mode,
             Personalizer.preferred_modes p'
               = Personalizer.preferred_modes p0 ++ [new_mode]
             ∧ Personalizer.StudyMode_of m = Ok new_mode
             ∧ Personalizer.mode_in m (Personalizer.preferred_modes p0) = false).
Proof.
  cbv zeta.
  destruct (update_user_profile_outcomes now_iso user session_data ps)
    as (p' & Hrun & Hsame & Hmodes).
  rewrite Hrun. split.
  - intros u Hne. rewrite lookup_insert_ne by done.
    by apply get_user_profile_other.
  - exists p'. by rewrite lookup_insert_eq.
Qed.

Section ProfileErrors.
Import Personalizer.

Lemma count_correct_not_dict (items : list pyval) (v : pyval) :
  v ∈ items → (∀ r, v ≠ PDict r) → count_correct items = Raise AttributeError.
Proof.
  intros Hin Hv. induction items as [|x items IH]; [by apply elem_of_nil in Hin|].
  apply elem_of_cons in Hin as [<-|Hin].
  - destruct v as [| | | | | | |r]; try done. by destruct (Hv r).
  - destruct x; try done. cbn [count_correct]. by rewrite IH.
Qed.

Lemma StudyMode_of_raise (v : pyval) (e : exn) :
  StudyMode_of v = Raise e → e = ValueError ∧ ∀ preferred, mode_in v preferred = false.
Proof.
  intros H. split.
  - unfold StudyMode_of in H. destruct v as [| | | |s|[m|c]| |]; try congruence.
    destruct (find _ _); congruence.
  - intros preferred. unfold mode_in. induction preferred as [|m l IH]; [done|].
    cbn [existsb]. rewrite IH, orb_false_r.
    destruct v as [| | | |s|[m'|c]| |]; try done.
Qed.

End ProfileErrors.

(** X13.  When some response of the session is not a dictionary,
    [update_user_profile] raises AttributeError before anything is
    recorded: the profiles are what looking up the user's profile leaves
    (a default profile is created for a new user), with no entry added to
    the history. *)
Theorem update_user_profile_bad_response (now_iso user : string)
    (session_data : gmap string pyval)
    (ps : gmap string Personalizer.PersonalizationProfile)
    (items : list pyval) (v : pyval) :
  Reference.session_responses session_data = Some items →
  v ∈ items → (∀ r, v ≠ PDict r) →
  Personalizer.update_user_profile now_iso user session_data ps
  = (Raise AttributeError, snd (Personalizer.get_user_profile user ps)).
Proof.
  intros Hitems%session_responses_get Hin Hv.
  unfold Personalizer.update_user_profile. rewrite Hitems.
  unfold mbind at 1, stateful_bind at 1. unfold Personalizer.ensure_profile at 1.
  unfold lift. cbn [py_len Personalizer.py_iter].
  erewrite bind_ok by reflexivity. erewrite bind_ok by reflexivity.
  rewrite (count_correct_not_dict items v Hin Hv).
  by erewrite bind_raise by reflexivity.
Qed.

Lemma update_user_profile_bad_response_witness :
  Personalizer.update_user_profile "2025-06-01T12:00:00" "ana"
    (<["responses" := PList [response true []; PStr "skipped"]]> ∅) ∅
  = (Raise AttributeError, snd (Personalizer.get_user_profile "ana" ∅)).
Proof.
  apply (update_user_profile_bad_response _ _ _ _
           [response true []; PStr "skipped"] (PStr "skipped")).
  - reflexivity.
  - set_solver.
  - done.
Defined.

(** X14.  When [update_user_profile] returns, the user's history is the
    previous history followed by the entry of this session (its date, its
    mode, the number of responses and the study time as given), cut to
    its last 30 entries: it never holds more than 30, the new entry is its
    last one, and the entries dropped are the oldest. *)
Theorem update_user_profile_history_window (now_iso user : string)
    (session_data : gmap string pyval)
    (ps ps' : gmap string Personalizer.PersonalizationProfile) :
  Personalizer.update_user_profile now_iso user session_data ps = (Ok (), ps') →
  ∃ p' entry total,
    ps' !! user = Some p'
    ∧ py_len (dict_get session_data "responses" (PList [])) = Ok total
    ∧ entry !! "date" = Some (PStr now_iso)
    ∧ entry !! "mode" = Some (dict_get session_data "mode" PNone)
    ∧ entry !! "total_cards" = Some (PInt total)
    ∧ entry !! "study_time" = Some (dict_get session_data "study_time" (PInt 0))
    ∧ (let h := Personalizer.performance_history
                  (fst (Personalizer.get_user_profile user ps)) ++ [entry] in
       Personalizer.performance_history p' = drop (length h - 30) h)
    ∧ last (Personalizer.performance_history p') = Some entry
    ∧ (length (Personalizer.performance_history p') ≤ 30)%nat.
Proof.
  intros Hok.
  destruct (update_user_profile_ok_steps _ _ _ _ _ Hok)
    as (total & items & correct & topics & counts & H1 & H2 & H3 & H4 & H5).
  rewrite (update_user_profile_steps now_iso user session_data ps items topics total
             correct counts H1 H2 H3 H4 H5) in Hok.
  assert (Hp : ∃ p, ps' = <[user := keep_recent p]> (snd (Personalizer.get_user_profile user ps))
               ∧ Personalizer.performance_history p
                 = Personalizer.performance_history
                     (fst (Personalizer.get_user_profile user ps))
                   ++ [entry_of now_iso session_data correct total]).
  { destruct (_ && _).
    - destruct (Personalizer.StudyMode_of _) as [nm|e]; [|done]. injection Hok as <-.
      eexists. split; [reflexivity|done].
    - injection Hok as <-. eexists. split; [reflexivity|done]. }
  destruct Hp as (p & -> & Hhist).
  exists (keep_recent p), (entry_of now_iso session_data correct total), total.
  rewrite lookup_insert_eq. split; [done|]. split; [done|].
  split; [done|]. split; [done|]. split; [done|]. split; [done|].
  split; [|split].
  - cbv zeta. rewrite <- Hhist. done.
  - by eapply keep_recent_last.
  - apply keep_recent_length.
Qed.

Lemma update_user_profile_history_window_witness :
  ∃ p' entry total,
    snd (Personalizer.update_user_profile "2025-06-01T12:00:00" "ana"
           sample_session full_profiles) !! "ana" = Some p'
    ∧ py_len (dict_get sample_session "responses" (PList [])) = Ok total
    ∧ entry !! "date" = Some (PStr "2025-06-01T12:00:00")
    ∧ entry !! "mode" = Some (dict_get sample_session "mode" PNone)
    ∧ entry !! "total_cards" = Some (PInt total)
    ∧ entry !! "study_time" = Some (dict_get sample_session "study_time" (PInt 0))
    ∧ (let h := Personalizer.performance_history
                  (fst (Personalizer.get_user_profile "ana" full_profiles)) ++ [entry] in
       Personalizer.performance_history p' = drop (length h - 30) h)
    ∧ last (Personalizer.performance_history p') = Some entry
    ∧ (length (Personalizer.performance_history p') ≤ 30)%nat.
Proof.
  apply (update_user_profile_history_window "2025-06-01T12:00:00" "ana"
           sample_session full_profiles).
  vm_compute. reflexivity.
Defined.

(** X15.  A session of accuracy above 0.8 whose mode is not a member of
    [StudyMode] nor the value of one (no mode at all, for instance) makes
    [update_user_profile] raise ValueError after the session has been
    recorded: the new entry stays at the end of the history, which is not
    cut to 30 entries, and the preferred modes are unchanged. *)
Theorem update_user_profile_invalid_mode (now_iso user : string)
    (session_data : gmap string pyval)
    (ps : gmap string Personalizer.PersonalizationProfile)
    (items : list pyval) (names : list string) (correct : Z) (e : exn) :
  Reference.session_responses session_data = Some items →
  Reference.incorrect_tag_names items = Some names →
  Personalizer.count_correct items = Ok correct →
  8 * Z.of_nat (length items) < 10 * correct →
  Personalizer.StudyMode_of (dict_get session_data "mode" PNone) = Raise e →
  let p0 := fst (Personalizer.get_user_profile user ps) in
  fst (Personalizer.update_user_profile now_iso user session_data ps) = Raise ValueError
  ∧ ∃ p' entry,
      snd (Personalizer.update_user_profile now_iso user session_data ps) !! user
        = Some p'
      ∧ entry !! "date" = Some (PStr now_iso)
      ∧ Personalizer.performance_history p'
        = Personalizer.performance_history p0 ++ [entry]
      ∧ Personalizer.preferred_modes p' = Personalizer.preferred_modes p0.
Proof.
  intros Hitems%session_responses_get Hnames Hc Hacc Hmode. cbv zeta.
  unfold Reference.incorrect_tag_names in Hnames.
  destruct (mapM Reference.response_tag_names items) as [tss|] eqn:Htss; [|done].
  pose proof (collect_weak_topics_names items tss [] Htss) as Htopics.
  cbn [app] in Htopics.
  destruct (Counter_names (List.concat tss) [] []) as (ks & Hcounter & _ & _).
  { constructor. }
  { done. }
  cbn [app] in Hcounter.
  rewrite (update_user_profile_run now_iso user session_data ps items _ correct _
             Hitems Hc Htopics Hcounter).
  destruct (StudyMode_of_raise _ _ Hmode) as [-> Hnotin].
  rewrite Hnotin, Hmode. cbn [negb]. rewrite andb_true_r.
  assert (Hhigh : num_ltb (NFloat (8 # 10))
                    (Personalizer.session_accuracy correct (Z.of_nat (length items)))
                  = true).
  { unfold Personalizer.session_accuracy.
    destruct (0 <? Z.of_nat (length items)) eqn:Hpos.
    - apply Z.ltb_lt in Hpos. cbn [num_ltb num_val]. apply Qltb_true.
      apply Qlt_shift_div_l.
      + unfold Qlt, inject_Z. cbn [Qnum Qden]. lia.
      + unfold Qlt, Qmult, inject_Z. cbn [Qnum Qden num_val Pos.mul]. lia.
    - apply Z.ltb_ge in Hpos. exfalso.
      clear -Hc Hacc Hpos. assert (length items = 0%nat) as Hz by lia.
      destruct items; [|done]. cbn in Hc. injection Hc as <-. cbn in Hacc. lia. }
  rewrite Hhigh. cbn [fst snd]. split; [done|].
  eexists _, _. rewrite lookup_insert_eq. split; [done|].
  split; [|split]; [|reflexivity|done]. done.
Qed.

Lemma update_user_profile_invalid_mode_witness :
  fst (Personalizer.update_user_profile "2025-06-01T12:00:00" "ana"
         modeless_session full_profiles) = Raise ValueError
  ∧ ∃ p' entry,
      snd (Personalizer.update_user_profile "2025-06-01T12:00:00" "ana"
             modeless_session full_profiles) !! "ana" = Some p'
      ∧ entry !! "date" = Some (PStr "2025-06-01T12:00:00")
      ∧ Personalizer.performance_history p'
        = Personalizer.performance_history
            (fst (Personalizer.get_user_profile "ana" full_profiles)) ++ [entry]
      ∧ Personalizer.preferred_modes p'
        = Personalizer.preferred_modes
            (fst (Personalizer.get_user_profile "ana" full_profiles)).
Proof.
  apply (update_user_profile_invalid_mode "2025-06-01T12:00:00" "ana" modeless_session
           full_profiles [response true []] [] 1 ValueError).
  - reflexivity.
  - reflexivity.
  - reflexivity.
  - cbn. lia.
  - reflexivity.
Defined.

Section HighAccuracy.
Import Personalizer.

Lemma session_accuracy_high (correct total : Z) :
  0 < total → 8 * total < 10 * correct →
  num_ltb (NFloat (8 # 10)) (session_accuracy correct total) = true.
Proof.
  intros Hpos Hacc. unfold session_accuracy.
  apply Z.ltb_lt in Hpos as Hpos'. rewrite Hpos'.
  cbn [num_ltb num_val]. apply Qltb_true. apply Qlt_shift_div_l.
  - unfold Qlt, inject_Z. cbn [Qnum Qden]. lia.
  - unfold Qlt, Qmult, inject_Z. cbn [Qnum Qden num_val Pos.mul]. lia.
Qed.

End HighAccuracy.

(** X16.  A session of accuracy above 0.8 whose mode is given as the
    string value of a member of [StudyMode] returns and appends that
    member to the preferred modes whether or not it is already among
    them: the membership test compares the string with the members and
    never succeeds. *)
Theorem update_user_profile_string_mode_appended (now_iso user : string)
    (session_data : gmap string pyval)
    (ps : gmap string Personalizer.PersonalizationProfile)
    (items : list pyval) (names : list string) (correct : Z) (m : StudyMode) :
  Reference.session_responses session_data = Some items →
  Reference.incorrect_tag_names items = Some names →
  Personalizer.count_correct items = Ok correct →
  8 * Z.of_nat (length items) < 10 * correct →
  session_data !! "mode" = Some (PStr (Personalizer.mode_value m)) →
  fst (Personalizer.update_user_profile now_iso user session_data ps) = Ok ()
  ∧ Personalizer.preferred_modes <$>
      (snd (Personalizer.update_user_profile now_iso user session_data ps) !! user)
    = Some (Personalizer.preferred_modes (fst (Personalizer.get_user_profile user ps))
            ++ [m]).
Proof.
  intros Hitems%session_responses_get Hnames Hc Hacc Hmode.
  unfold Reference.incorrect_tag_names in Hnames.
  destruct (mapM Reference.response_tag_names items) as [tss|] eqn:Htss; [|done].
  pose proof (collect_weak_topics_names items tss [] Htss) as Htopics.
  cbn [app] in Htopics.
  destruct (Counter_names (List.concat tss) [] []) as (ks & Hcounter & _ & _).
  { constructor. }
  { done. }
  cbn [app] in Hcounter.
  rewrite (update_user_profile_run now_iso user session_data ps items _ correct _
             Hitems Hc Htopics Hcounter).
  assert (Hpos : 0 < Z.of_nat (length items)).
  { destruct items; [|cbn; lia]. cbn in Hc. injection Hc as <-. cbn in Hacc. lia. }
  rewrite (session_accuracy_high _ _ Hpos Hacc).
  unfold dict_get. rewrite Hmode.
  rewrite mode_in_string, StudyMode_of_value. cbn [andb negb fst snd].
  split; [done|]. by rewrite lookup_insert_eq.
Qed.

Lemma update_user_profile_string_mode_appended_witness :
  fst (Personalizer.update_user_profile "2025-06-02T12:00:00" "ana"
         challenge_session after_first_session) = Ok ()
  ∧ Personalizer.preferred_modes <$>
      (snd (Personalizer.update_user_profile "2025-06-02T12:00:00" "ana"
              challenge_session after_first_session) !! "ana")
    = Some (Personalizer.preferred_modes
              (fst (Personalizer.get_user_profile "ana" after_first_session))
            ++ [CHALLENGE]).
Proof.
  apply (update_user_profile_string_mode_appended "2025-06-02T12:00:00" "ana"
           challenge_session after_first_session
           (replicate 17 (response true []) ++ replicate 3 (response false []))
           [] 17 CHALLENGE).
  - reflexivity.
  - reflexivity.
  - reflexivity.
  - cbn. lia.
  - reflexivity.
Defined.

(** ** Learning analytics: the study streak *)

Section StudyStreak.
Import Analytics.

Lemma streak_loop_days (l : list SessionAnalytics) (streak current_date : Z) :
  streak_loop l streak current_date = streak_days (session_day <$> l) streak current_date.
Proof.
  revert streak current_date. induction l as [|s l IH]; intros streak c; [done|].
  cbn [streak_loop fmap list_fmap streak_days]. fold (session_day s).
  destruct (_ || _); [apply IH|done].
Qed.

Lemma comparable_naive (sessions : list SessionAnalytics) :
  naive_sessions sessions → comparable sessions = true.
Proof.
  intros Hn. unfold comparable. apply orb_true_iff. left.
  apply forallb_forall. intros s Hs%list_elem_of_In.
  apply bool_decide_eq_true. by apply Hn.
Qed.

Lemma dt_date_mono (a b : datetime) :
  dt_us a ≤ dt_us b → dt_date a ≤ dt_date b.
Proof. intros H. unfold dt_date. apply Z.div_le_mono; [done|exact H]. Qed.

(** The days of the sessions, latest first *)
Lemma sorted_by_date_days (sessions : list SessionAnalytics) :
  naive_sessions sessions →
  ∃ sorted,
    sorted_by_date true sessions = Ok sorted
    ∧ sorted ≡ₚ sessions
    ∧ StronglySorted (λ a b, b ≤ a) (session_day <$> sorted).
Proof.
  intros Hn. unfold sorted_by_date. rewrite (comparable_naive _ Hn).
  eexists. split; [reflexivity|]. split; [apply stable_sort_Permutation|].
  eapply (StronglySorted_fmap
            (λ a b, (dt_instant (date b) <=? dt_instant (date a)) = true) _
            (λ s, dt_offset (date s) = None)).
  - intros x y Hx Hy H. apply Z.leb_le in H. unfold dt_instant in H.
    rewrite Hx, Hy in H. by apply dt_date_mono.
  - apply Forall_forall. intros s Hs. apply Hn.
    by rewrite stable_sort_Permutation in Hs.
  - apply (stable_sort_sorted
             (λ a b, dt_instant (date b) <=? dt_instant (date a))).
    + intros x y. rewrite !Z.leb_le. lia.
    + intros x y z. rewrite !Z.leb_le. lia.
Qed.

Lemma calculate_study_streak_days (now : datetime) (sessions : list SessionAnalytics) :
  naive_sessions sessions →
  ∃ days,
    _calculate_study_streak now sessions = Ok (streak_days days 0 (dt_date now))
    ∧ days ≡ₚ session_day <$> sessions
    ∧ StronglySorted (λ a b, b ≤ a) days.
Proof.
  intros Hn. destruct (sorted_by_date_days sessions Hn) as (sorted & Hs & Hperm & Hsorted).
  exists (session_day <$> sorted). split; [|split; [by rewrite Hperm|done]].
  unfold _calculate_study_streak. destruct sessions as [|s sessions].
  - apply Permutation_nil_r in Hperm as ->. done.
  - rewrite Hs. cbn. by rewrite streak_loop_days.
Qed.

Lemma streak_days_bounds (days : list Z) (streak c : Z) :
  streak ≤ streak_days days streak c ≤ streak + Z.of_nat (length days).
Proof.
  revert streak c. induction days as [|d days IH]; intros streak c; cbn [streak_days length].
  - lia.
  - destruct (_ || _); [|lia].
    destruct (d =? c - streak).
    + specialize (IH (streak + 1) d). lia.
    + specialize (IH streak d). lia.
Qed.

(** The head of a list sorted latest first is its latest day. *)
Lemma sorted_head_max (d : Z) (days : list Z) (x : Z) :
  StronglySorted (λ a b, b ≤ a) (d :: days) → x ∈ d :: days → x ≤ d.
Proof.
  intros Hs Hx. apply StronglySorted_inv in Hs as [_ Hd].
  apply elem_of_cons in Hx as [->|Hx]; [lia|].
  rewrite Forall_forall in Hd. by apply Hd.
Qed.

(** Once the streak has reached 2 with the current date [c], a session
    on the day before [c] ends the count. *)
Lemma streak_days_second (days : list Z) (c : Z) :
  StronglySorted (λ a b, b ≤ a) days → (∀ x, x ∈ days → x ≤ c) → c - 1 ∈ days →
  streak_days days 2 c = 2.
Proof.
  induction days as [|d days IH]; intros Hs Hle Hin; [by apply elem_of_nil in Hin|].
  pose proof (sorted_head_max d days (c - 1) Hs Hin) as Hd.
  pose proof (Hle d ltac:(left)) as Hdc.
  cbn [streak_days].
  destruct (decide (d = c)) as [->|Hne].
  - rewrite Z.eqb_refl. cbn [orb].
    destruct (Z.eqb_spec c (c - 2)) as [?|_]; [lia|].
    apply IH.
    + by apply StronglySorted_inv in Hs as [? _].
    + intros x Hx. apply Hle. by right.
    + apply elem_of_cons in Hin as [?|?]; [lia|done].
  - destruct (Z.eqb_spec d c) as [?|_]; [done|].
    destruct (Z.eqb_spec d (c - 2)) as [?|_]; [lia|done].
Qed.

Lemma streak_days_first (days : list Z) (c : Z) :
  StronglySorted (λ a b, b ≤ a) days → (∀ x, x ∈ days → x ≤ c) →
  c - 1 ∈ days → c - 2 ∈ days →
  streak_days days 1 c = 2.
Proof.
  induction days as [|d days IH]; intros Hs Hle Hin1 Hin2; [by apply elem_of_nil in Hin1|].
  pose proof (sorted_head_max d days (c - 1) Hs Hin1) as Hd.
  pose proof (Hle d ltac:(left)) as Hdc.
  pose proof Hs as Hs'. apply StronglySorted_inv in Hs' as [Hs' Hall].
  cbn [streak_days].
  destruct (decide (d = c)) as [->|Hne].
  - rewrite Z.eqb_refl. cbn [orb].
    destruct (Z.eqb_spec c (c - 1)) as [?|_]; [lia|].
    apply IH; [done| | |].
    + intros x Hx. apply Hle. by right.
    + apply elem_of_cons in Hin1 as [?|?]; [lia|done].
    + apply elem_of_cons in Hin2 as [?|?]; [lia|done].
  - assert (d = c - 1) as -> by lia.
    destruct (Z.eqb_spec (c - 1) c) as [?|_]; [lia|].
    rewrite Z.eqb_refl. cbn [orb].
    replace (1 + 1) with 2 by lia.
    apply streak_days_second; [done| |].
    + intros x Hx. rewrite Forall_forall in Hall. by apply Hall.
    + replace (c - 1 - 1) with (c - 2) by lia.
      apply elem_of_cons in Hin2 as [?|?]; [lia|done].
Qed.

Lemma streak_days_three (days : list Z) (c : Z) :
  StronglySorted (λ a b, b ≤ a) days → (∀ x, x ∈ days → x ≤ c) →
  c ∈ days → c - 1 ∈ days → c - 2 ∈ days →
  streak_days days 0 c = 2.
Proof.
  intros Hs Hle Hin0 Hin1 Hin2.
  destruct days as [|d days]; [by apply elem_of_nil in Hin0|].
  pose proof (sorted_head_max d days c Hs Hin0) as Hd.
  pose proof (Hle d ltac:(left)) as Hdc.
  assert (d = c) as -> by lia.
  cbn [streak_days]. rewrite Z.sub_0_r, Z.eqb_refl. cbn [orb].
  apply streak_days_first.
  - by apply StronglySorted_inv in Hs as [? _].
  - intros x Hx. apply Hle. by right.
  - apply elem_of_cons in Hin1 as [?|?]; [lia|done].
  - apply elem_of_cons in Hin2 as [?|?]; [lia|done].
Qed.

End StudyStreak.

(** X17.  [_calculate_study_streak], for sessions with naive dates none of
    which lies after today: the streak is between 0 and the number of
    sessions, and it is at least 1 exactly when some session is dated
    today (a user who last studied yesterday has a streak of 0). *)
Theorem study_streak_needs_today (now : datetime)
    (sessions : list Analytics.SessionAnalytics) :
  naive_sessions sessions →
  (∀ s, s ∈ sessions → session_day s ≤ Analytics.dt_date now) →
  ∃ streak,
    Analytics._calculate_study_streak now sessions = Ok streak
    ∧ 0 ≤ streak ≤ Z.of_nat (length sessions)
    ∧ (1 ≤ streak ↔ ∃ s, s ∈ sessions ∧ session_day s = Analytics.dt_date now).
Proof.
  intros Hn Hpast.
  destruct (calculate_study_streak_days now sessions Hn) as (days & Hrun & Hperm & Hs).
  eexists. split; [exact Hrun|]. split.
  - pose proof (streak_days_bounds days 0 (Analytics.dt_date now)) as Hb.
    rewrite (Permutation_length Hperm), length_fmap in Hb. lia.
  - assert (Htoday : (∃ s, s ∈ sessions ∧ session_day s = Analytics.dt_date now)
                     ↔ Analytics.dt_date now ∈ days).
    { rewrite Hperm, list_elem_of_fmap. split; intros (s & H1 & H2); eauto. }
    rewrite Htoday. destruct days as [|d days].
    + cbn. split; [lia|by intros ?%elem_of_nil].
    + cbn [streak_days]. rewrite Z.sub_0_r, orb_diag.
      destruct (Z.eqb_spec d (Analytics.dt_date now)) as [->|Hne].
      * split; [by left|]. intros _.
        pose proof (streak_days_bounds days (0 + 1) (Analytics.dt_date now)). lia.
      * split; [lia|]. intros Hin. exfalso.
        pose proof (sorted_head_max d days _ Hs Hin) as Hmax.
        assert (d ≤ Analytics.dt_date now); [|lia].
        assert (d ∈ session_day <$> sessions) as (s & -> & Hin')%list_elem_of_fmap
          by (rewrite <- Hperm; left).
        by apply Hpast.
Qed.

Lemma study_streak_needs_today_witness :
  ∃ streak,
    Analytics._calculate_study_streak sample_now daily_sessions = Ok streak
    ∧ 0 ≤ streak ≤ Z.of_nat (length daily_sessions)
    ∧ (1 ≤ streak ↔ ∃ s, s ∈ daily_sessions
                         ∧ session_day s = Analytics.dt_date sample_now).
Proof.
  apply (study_streak_needs_today sample_now daily_sessions).
  - intros s Hs. repeat (apply elem_of_cons in Hs as [->|Hs]);
      [reflexivity..|by apply elem_of_nil in Hs].
  - intros s Hs. repeat (apply elem_of_cons in Hs as [->|Hs]);
      [by vm_compute..|by apply elem_of_nil in Hs].
Defined.

(** X18.  For sessions with naive dates none of which lies after today,
    with a session today, one yesterday and one the day before yesterday,
    [_calculate_study_streak] returns 2, whatever the other sessions: once
    the streak is 2 the loop looks for a session two days before the last
    one counted, so that a third consecutive day ends the count. *)
Theorem study_streak_three_days (now : datetime)
    (sessions : list Analytics.SessionAnalytics) :
  naive_sessions sessions →
  (∀ s, s ∈ sessions → session_day s ≤ Analytics.dt_date now) →
  (∀ k, 0 ≤ k ≤ 2 → ∃ s, s ∈ sessions ∧ session_day s = Analytics.dt_date now - k) →
  Analytics._calculate_study_streak now sessions = Ok 2.
Proof.
  intros Hn Hpast Hdays.
  destruct (calculate_study_streak_days now sessions Hn) as (days & Hrun & Hperm & Hs).
  rewrite Hrun. f_equal.
  assert (Hin : ∀ k, 0 ≤ k ≤ 2 → Analytics.dt_date now - k ∈ days).
  { intros k Hk. destruct (Hdays k Hk) as (s & Hs1 & Hs2).
    rewrite Hperm, <- Hs2. apply list_elem_of_fmap. eauto. }
  apply streak_days_three; [done| | | |].
  - intros x Hx. rewrite Hperm in Hx.
    apply list_elem_of_fmap in Hx as (s & -> & Hs'). by apply Hpast.
  - specialize (Hin 0 ltac:(lia)). by rewrite Z.sub_0_r in Hin.
  - apply Hin. lia.
  - apply Hin. lia.
Qed.

Lemma study_streak_three_days_witness :
  Analytics._calculate_study_streak sample_now daily_sessions = Ok 2.
Proof.
  apply (study_streak_three_days sample_now daily_sessions).
  - intros s Hs. repeat (apply elem_of_cons in Hs as [->|Hs]);
      [reflexivity..|by apply elem_of_nil in Hs].
  - intros s Hs. repeat (apply elem_of_cons in Hs as [->|Hs]);
      [by vm_compute..|by apply elem_of_nil in Hs].
  - intros k Hk.
    assert (k = 0 ∨ k = 1 ∨ k = 2) as [->|[->| ->]] by lia.
    + exists (session_on 0 7200000000 (8 # 10)). split; [set_solver|reflexivity].
    + exists (session_on 1 3600000000 (7 # 10)). split; [set_solver|reflexivity].
    + exists (session_on 2 0 (6 # 10)). split; [set_solver|reflexivity].
Defined.

(** X19.  For sessions with naive dates, the streak depends only on the
    days on which the user studied, each counted as often as it occurs:
    not on the order in which the sessions were recorded, nor on the time
    of day or any other field of a session. *)
Theorem study_streak_order_independent (now : datetime)
    (sessions sessions' : list Analytics.SessionAnalytics) :
  naive_sessions sessions → naive_sessions sessions' →
  session_day <$> sessions ≡ₚ session_day <$> sessions' →
  Analytics._calculate_study_streak now sessions
  = Analytics._calculate_study_streak now sessions'.
Proof.
  intros Hn Hn' Hperm.
  destruct (calculate_study_streak_days now sessions Hn) as (days & -> & Hp & Hs).
  destruct (calculate_study_streak_days now sessions' Hn') as (days' & -> & Hp' & Hs').
  assert (days = days') as ->; [|done].
  apply (StronglySorted_unique_strong (λ a b : Z, b ≤ a)); [|done|done|].
  - intros; lia.
  - by rewrite Hp, Hp', Hperm.
Qed.

Lemma study_streak_order_independent_witness :
  Analytics._calculate_study_streak sample_now daily_sessions
  = Analytics._calculate_study_streak sample_now (reverse daily_sessions).
Proof.
  apply (study_streak_order_independent sample_now daily_sessions (reverse daily_sessions)).
  - intros s Hs. repeat (apply elem_of_cons in Hs as [->|Hs]);
      [reflexivity..|by apply elem_of_nil in Hs].
  - intros s Hs. rewrite elem_of_reverse in Hs.
    repeat (apply elem_of_cons in Hs as [->|Hs]);
      [reflexivity..|by apply elem_of_nil in Hs].
  - by rewrite fmap_reverse, reverse_Permutation.
Defined.

(** ** Learning analytics: weak and strong areas *)

Section PerformanceAreas.
Import Analytics.

Lemma topics_of_run (user_id : string) (a : analytics) :
  topics_of user_id a
  = (Ok (default [] (topic_performance a !! user_id)),
     mk_analytics (session_data a)
       (<[user_id := default [] (topic_performance a !! user_id)]> (topic_performance a))).
Proof.
  unfold topics_of. destruct (topic_performance a !! user_id) eqn:E; cbn; [|done].
  rewrite insert_id by done. by destruct a.
Qed.

Lemma NoDup_fst_functional {K V} (l : list (K * V)) (k : K) (v v' : V) :
  NoDup l.*1 → (k, v) ∈ l → (k, v') ∈ l → v = v'.
Proof.
  induction l as [|[k0 v0] l IH]; intros Hnd H1 H2; [by apply elem_of_nil in H1|].
  cbn in Hnd. apply NoDup_cons in Hnd as [Hk0 Hnd].
  apply elem_of_cons in H1 as [H1|H1]; apply elem_of_cons in H2 as [H2|H2].
  - congruence.
  - injection H1 as -> ->. destruct Hk0. apply list_elem_of_fmap. by exists (k0, v').
  - injection H2 as -> ->. destruct Hk0. apply list_elem_of_fmap. by exists (k0, v).
  - by apply IH.
Qed.

Lemma elem_of_take_filter {K} (f : K * Q → bool) (l : list (K * Q)) (n : nat) (k : K) :
  k ∈ take n (List.filter f l).*1 → ∃ q, (k, q) ∈ l ∧ f (k, q) = true.
Proof.
  intros Hk. apply (subseteq_take n) in Hk.
  apply list_elem_of_fmap in Hk as ([k' q] & -> & Hin).
  apply list_elem_of_In, filter_In in Hin as [Hin Hf].
  exists q. split; [by apply list_elem_of_In|done].
Qed.



Variable float_mean : list Q → Q.

Lemma topic_averages_sublist (topics : list (pyval * list performance))
    (averages : list (pyval * Q)) :
  topic_averages float_mean topics = Ok averages →
  averages.*1 `sublist_of` topics.*1.
Proof.
  revert averages. induction topics as [|[t ps] topics IH]; intros averages H.
  - injection H as <-. done.
  - cbn [topic_averages] in H. destruct ps as [|p ps].
    + cbn. apply sublist_cons. by apply IH.
    + destruct (Scheduler.np_mean _) as [avg|e]; [|done]. cbn in H.
      destruct (topic_averages float_mean topics) as [avs|e]; [|done]. cbn in H.
      injection H as <-. cbn. apply sublist_skip. by apply IH.
Qed.

Lemma identify_performance_areas_run (user_id : string) (a : analytics) :
  let topics := default [] (topic_performance a !! user_id) in
  let a' := mk_analytics (session_data a) (<[user_id := topics]> (topic_performance a)) in
  _identify_performance_areas float_mean user_id a =
    match topic_averages float_mean topics with
    | Raise e => (Raise e, a')
    | Ok [] => (Ok ([], []), a')
    | Ok averages =>
      let overall_average := float_mean (averages.*2) in
      (Ok (take 5 ((List.filter
                      (λ ta, Qltb (snd ta) (overall_average - (1 # 10))%Q) averages).*1),
           take 5 ((List.filter
                      (λ ta, Qltb (overall_average + (1 # 10))%Q (snd ta)) averages).*1)),
       a')
    end.
Proof.
  cbv zeta. unfold _identify_performance_areas.
  erewrite bind_ok by apply topics_of_run. unfold lift.
  destruct (topic_averages float_mean _) as [[|ta averages]|e].
  - by erewrite bind_ok by reflexivity.
  - by erewrite bind_ok by reflexivity.
  - by erewrite bind_raise by reflexivity.
Qed.

End PerformanceAreas.

(** X20.  When [_identify_performance_areas] returns, it gives at most
    five weak and at most five strong areas, each list taken in order from
    the user's recorded topics; no topic is both weak and strong; and
    nothing is changed except that a user without recorded topics gets an
    empty record of topics.  This holds whatever numpy's means are. *)
Theorem performance_areas_separated (float_mean : list Q → Q)
    (user_id : string) (a a' : Analytics.analytics) (weak strong : list pyval) :
  Analytics._identify_performance_areas float_mean user_id a = (Ok (weak, strong), a') →
  let topics := default [] (Analytics.topic_performance a !! user_id) in
  (length weak ≤ 5)%nat ∧ (length strong ≤ 5)%nat
  ∧ weak `sublist_of` topics.*1 ∧ strong `sublist_of` topics.*1
  ∧ (NoDup topics.*1 → ∀ t, t ∈ weak → t ∉ strong)
  ∧ Analytics.session_data a' = Analytics.session_data a
  ∧ Analytics.topic_performance a' = <[user_id := topics]> (Analytics.topic_performance a).
Proof.
  rewrite identify_performance_areas_run. cbv zeta.
  destruct (Analytics.topic_averages float_mean _) as [averages|e] eqn:Havg; [|done].
  pose proof (topic_averages_sublist _ _ _ Havg) as Hsub.
  destruct averages as [|ta averages].
  { intros [= <- <- <-]. cbn [length]. repeat split; try lia; try apply sublist_nil_l.
    intros _ t Ht. by apply elem_of_nil in Ht. }
  remember (ta :: averages) as avs eqn:Havs. clear Havs ta averages. cbv zeta.
  match goal with
  | |- (Ok (take 5 ?w, take 5 ?s), _) = _ → _ =>
    remember w as weak0 eqn:Hw0; remember s as strong0 eqn:Hs0
  end.
  intros [= <- <- <-]. cbn [Analytics.session_data Analytics.topic_performance].
  subst weak0 strong0.
  split; [rewrite length_take; lia|]. split; [rewrite length_take; lia|].
  split; [|split; [|split; [|done]]].
  - etrans; [apply sublist_take|]. etrans; [|exact Hsub].
    apply fmap_sublist, filter_sublist.
  - etrans; [apply sublist_take|]. etrans; [|exact Hsub].
    apply fmap_sublist, filter_sublist.
  - intros Hnd t Hw Hs.
    apply elem_of_take_filter in Hw as (q & Hq & Hlow).
    apply elem_of_take_filter in Hs as (q' & Hq' & Hhigh).
    assert (q = q') as <-.
    { eapply NoDup_fst_functional; [|exact Hq|exact Hq'].
      by eapply sublist_NoDup. }
    cbn [snd] in Hlow, Hhigh. apply Qltb_true in Hlow, Hhigh. lra.
Qed.

Lemma performance_areas_separated_witness :
  let topics := default [] (Analytics.topic_performance topic_state !! "ana") in
  (length [PStr "algebra"] ≤ 5)%nat ∧ (length [PStr "geometry"] ≤ 5)%nat
  ∧ [PStr "algebra"] `sublist_of` topics.*1 ∧ [PStr "geometry"] `sublist_of` topics.*1
  ∧ (NoDup topics.*1 → ∀ t, t ∈ [PStr "algebra"] → t ∉ [PStr "geometry"])
  ∧ Analytics.session_data topic_state = Analytics.session_data topic_state
  ∧ Analytics.topic_performance topic_state
    = <["ana" := topics]> (Analytics.topic_performance topic_state).
Proof.
  apply (performance_areas_separated Scheduler.exact_mean "ana" topic_state topic_state
           [PStr "algebra"] [PStr "geometry"]).
  vm_compute. reflexivity.
Defined.

Section UniformAverages.
Import Analytics.


End UniformAverages.



(** ** Learning analytics: recording a session *)

Section RecordSession.
Import Analytics.
Variable fromisoformat : string → option datetime.

Lemma dict_getitem_cases (d : gmap string pyval) (k : string) :
  (∃ v, d !! k = Some v ∧ dict_getitem d k = Ok v)
  ∨ (d !! k = None ∧ dict_getitem d k = Raise KeyError).
Proof. unfold dict_getitem. destruct (d !! k); eauto. Qed.

(** Building the session object succeeds only when the eight keys are
    there. *)
Lemma session_analytics_of_ok (session : gmap string pyval) (s : SessionAnalytics) :
  session_analytics_of fromisoformat session = Ok s →
  ∀ k, k ∈ required_keys → is_Some (session !! k).
Proof.
  unfold session_analytics_of. intros H k Hk.
  repeat match type of H with
  | context [dict_getitem session ?key] =>
    let Hv := fresh "Hv" in
    let Hr := fresh "Hr" in
    destruct (dict_getitem_cases session key) as [(? & Hv & Hr)|[_ Hr]];
      rewrite Hr in H; clear Hr; [cbn in H|by cbn in H]
  | context [Scheduler.parse_datetime fromisoformat ?v] =>
    destruct (Scheduler.parse_datetime fromisoformat v); [cbn in H|by cbn in H]
  end.
  unfold required_keys in Hk.
  repeat (apply elem_of_cons in Hk as [->|Hk]); try (by eexists).
  by apply elem_of_nil in Hk.
Qed.

(** With a date that can be read, the only failure is the missing key. *)
Lemma session_analytics_of_raise (session : gmap string pyval) (e : exn) :
  session_analytics_of fromisoformat session = Raise e →
  (∀ v, session !! "date" = Some v →
        is_ok (Scheduler.parse_datetime fromisoformat v) = true) →
  e = KeyError.
Proof.
  unfold session_analytics_of. intros H Hdate.
  repeat match type of H with
  | context [dict_getitem session ?key] =>
    let Hv := fresh "Hv" in
    let Hr := fresh "Hr" in
    destruct (dict_getitem_cases session key) as [(? & Hv & Hr)|[_ Hr]];
      rewrite Hr in H; clear Hr; [cbn in H|cbn in H; by injection H]
  | context [Scheduler.parse_datetime fromisoformat ?v] =>
    let Hp := fresh "Hp" in
    pose proof (Hdate v ltac:(assumption)) as Hp;
    destruct (Scheduler.parse_datetime fromisoformat v); [cbn in H|done]
  end.
  done.
Qed.

End RecordSession.

(** X22.  [record_session] reads the eight required keys of the session
    before it records anything: when one of them is missing the call
    raises and the recorded data are exactly what they were; the exception
    is KeyError unless the date is present and cannot be read. *)
Theorem record_session_missing_key (fromisoformat : string → option datetime)
    (user_id : string) (session : gmap string pyval) (a : Analytics.analytics)
    (k : string) :
  k ∈ required_keys → session !! k = None →
  snd (Analytics.record_session fromisoformat user_id session a) = a
  ∧ (∃ e, fst (Analytics.record_session fromisoformat user_id session a) = Raise e)
  ∧ ((∀ v, session !! "date" = Some v →
           is_ok (Scheduler.parse_datetime fromisoformat v) = true) →
     fst (Analytics.record_session fromisoformat user_id session a) = Raise KeyError).
Proof.
  intros Hk Hnone. unfold Analytics.record_session, lift.
  destruct (Analytics.session_analytics_of fromisoformat session) as [s|e] eqn:Hs.
  - destruct (session_analytics_of_ok fromisoformat session s Hs k Hk) as [v Hv].
    congruence.
  - erewrite bind_raise by reflexivity. cbn [fst snd].
    split; [done|]. split; [by exists e|].
    intros Hdate. f_equal. by eapply session_analytics_of_raise.
Qed.

Lemma record_session_missing_key_witness :
  snd (Analytics.record_session Iso.fromisoformat "ana" undated_session topic_state)
    = topic_state
  ∧ (∃ e, fst (Analytics.record_session Iso.fromisoformat "ana" undated_session
                 topic_state) = Raise e)
  ∧ ((∀ v, undated_session !! "date" = Some v →
           is_ok (Scheduler.parse_datetime Iso.fromisoformat v) = true) →
     fst (Analytics.record_session Iso.fromisoformat "ana" undated_session topic_state)
     = Raise KeyError).
Proof.
  apply (record_session_missing_key Iso.fromisoformat "ana" undated_session topic_state
           "date").
  - unfold required_keys. set_solver.
  - reflexivity.
Defined.

Section AppendOnly.
Import Analytics.
Variable fromisoformat : string → option datetime.

Lemma topics_grow_refl (ts : list (pyval * list performance)) : topics_grow ts ts.
Proof. intros i t ps H. by exists ps. Qed.

Lemma topics_grow_trans (ts1 ts2 ts3 : list (pyval * list performance)) :
  topics_grow ts1 ts2 → topics_grow ts2 ts3 → topics_grow ts1 ts3.
Proof.
  intros H12 H23 i t ps H. destruct (H12 i t ps H) as (ps2 & H2 & Hp2).
  destruct (H23 i t ps2 H2) as (ps3 & H3 & Hp3).
  exists ps3. split; [done|]. by etrans.
Qed.

Lemma topic_touch_grow (ts : list (pyval * list performance)) (topic : pyval) :
  topics_grow ts (topic_touch ts topic).
Proof.
  induction ts as [|[t0 ps0] ts IH]; intros i t ps H; [done|].
  cbn [topic_touch]. destruct (py_eq t0 topic); [by exists ps|].
  destruct i as [|i]; [by exists ps|]. cbn in *. by apply IH.
Qed.

Lemma topic_append_grow (ts : list (pyval * list performance)) (topic : pyval)
    (p : performance) :
  topics_grow ts (topic_append ts topic p).
Proof.
  induction ts as [|[t0 ps0] ts IH]; intros i t ps H; [done|].
  cbn [topic_append]. destruct (py_eq t0 topic).
  - destruct i as [|i]; [|by exists ps].
    injection H as -> ->. exists (ps ++ [p]). split; [done|]. by apply prefix_app_r.
  - destruct i as [|i]; [by exists ps|]. cbn in *. by apply IH.
Qed.

Lemma analytics_grow_refl (user_id : string) (a : analytics) : analytics_grow user_id a a.
Proof. split; [done|]. split; [done|apply topics_grow_refl]. Qed.

Lemma analytics_grow_trans (user_id : string) (a1 a2 a3 : analytics) :
  analytics_grow user_id a1 a2 → analytics_grow user_id a2 a3 →
  analytics_grow user_id a1 a3.
Proof.
  intros (Ho & Hs & Ht) (Ho' & Hs' & Ht'). split; [|split].
  - intros u Hu. destruct (Ho u Hu) as [H1 H2]. destruct (Ho' u Hu) as [H1' H2'].
    split; congruence.
  - by etrans.
  - by eapply topics_grow_trans.
Qed.

Lemma analytics_grow_topics (user_id : string) (a : analytics)
    (ts : list (pyval * list performance)) :
  topics_grow (default [] (topic_performance a !! user_id)) ts →
  analytics_grow user_id a
    (mk_analytics (session_data a) (<[user_id := ts]> (topic_performance a))).
Proof.
  intros Hg. split; [|split]; cbn [session_data topic_performance].
  - intros u Hu. by rewrite lookup_insert_ne.
  - done.
  - by rewrite lookup_insert_eq.
Qed.

Lemma record_topic_effect (user_id : string) (session : gmap string pyval)
    (s : SessionAnalytics) (topic : pyval) (a : analytics) :
  session_data (snd (record_topic user_id session s topic a)) = session_data a
  ∧ analytics_grow user_id a (snd (record_topic user_id session s topic a)).
Proof.
  unfold record_topic. erewrite bind_ok by apply topics_of_run.
  set (ts := default [] (topic_performance a !! user_id)).
  assert (Hstep : ∀ ts', topics_grow ts ts' →
            analytics_grow user_id a
              (mk_analytics (session_data a)
                 (<[user_id := ts']>
                    (<[user_id := ts]> (topic_performance a))))).
  { intros ts' Hg. rewrite insert_insert_eq. by apply analytics_grow_topics. }
  destruct (hashable topic); cycle 1.
  { cbn [snd raise session_data]. split; [done|].
    apply analytics_grow_topics, topics_grow_refl. }
  erewrite bind_ok by reflexivity.
  cbn [session_data topic_performance]. unfold lift.
  destruct (py_get _ topic (accuracy s)) as [acc|e].
  2:{ erewrite bind_raise by reflexivity. cbn [snd session_data]. split; [done|].
      apply Hstep, topic_touch_grow. }
  erewrite bind_ok by reflexivity.
  destruct (py_get _ topic (PInt 1)) as [cnt|e].
  2:{ erewrite bind_raise by reflexivity. cbn [snd session_data]. split; [done|].
      apply Hstep, topic_touch_grow. }
  erewrite bind_ok by reflexivity.
  unfold set_topics. cbn [snd session_data topic_performance]. split; [done|].
  rewrite insert_insert_eq. apply Hstep.
  eapply topics_grow_trans; [apply topic_touch_grow|apply topic_append_grow].
Qed.

Lemma record_topics_effect (user_id : string) (session : gmap string pyval)
    (s : SessionAnalytics) (topics : list pyval) (a : analytics) :
  session_data (snd (for_each (record_topic user_id session s) topics a)) = session_data a
  ∧ analytics_grow user_id a (snd (for_each (record_topic user_id session s) topics a)).
Proof.
  revert a. induction topics as [|topic topics IH]; intros a.
  - split; [done|apply analytics_grow_refl].
  - cbn [for_each]. unfold mbind, stateful_bind.
    destruct (record_topic_effect user_id session s topic a) as [Hs Hg].
    destruct (record_topic user_id session s topic a) as [[[]|e] a1]; cbn [snd] in *.
    + destruct (IH a1) as [Hs' Hg']. split; [congruence|].
      by eapply analytics_grow_trans.
    + done.
Qed.

Lemma append_session_grow (user_id : string) (s : SessionAnalytics) (a : analytics) :
  analytics_grow user_id a (snd (append_session user_id s a)).
Proof.
  unfold append_session. cbn [snd]. split; [|split]; cbn [session_data topic_performance].
  - intros u Hu. by rewrite lookup_insert_ne.
  - rewrite lookup_insert_eq. cbn [default]. by apply prefix_app_r.
  - apply topics_grow_refl.
Qed.

End AppendOnly.

(** X23.  [record_session] only adds to what is recorded, whether it
    returns or raises: nothing of another user is touched, the sessions
    already recorded for the user stay in front of the list, every topic
    keeps its position and its earlier performances.  When it returns, the
    user's sessions are the earlier ones followed by the new session. *)
Theorem record_session_append_only (fromisoformat : string → option datetime)
    (user_id : string) (session : gmap string pyval) (a : Analytics.analytics) :
  analytics_grow user_id a
    (snd (Analytics.record_session fromisoformat user_id session a))
  ∧ (fst (Analytics.record_session fromisoformat user_id session a) = Ok () →
     ∃ s, Analytics.session_analytics_of fromisoformat session = Ok s
          ∧ Analytics.session_data
              (snd (Analytics.record_session fromisoformat user_id session a)) !! user_id
            = Some (default [] (Analytics.session_data a !! user_id) ++ [s])).
Proof.
  destruct (Analytics.session_analytics_of fromisoformat session) as [s|e] eqn:Hs0;
    cycle 1.
  { assert (Hrun : Analytics.record_session fromisoformat user_id session a
                   = (Raise e, a)).
    { unfold Analytics.record_session, lift. rewrite Hs0.
      by erewrite bind_raise by reflexivity. }
    rewrite Hrun. split; [apply analytics_grow_refl|done]. }
  set (a1 := snd (Analytics.append_session user_id s a)).
  assert (Hrun : Analytics.record_session fromisoformat user_id session a
                 = match Personalizer.py_iter (Analytics.topics_covered s) with
                   | Ok topics =>
                     Analytics.for_each (Analytics.record_topic user_id session s)
                       topics a1
                   | Raise e => (Raise e, a1)
                   end).
  { unfold Analytics.record_session, lift. rewrite Hs0.
    erewrite bind_ok by reflexivity.
    erewrite (bind_ok _ _ a a1) by reflexivity.
    destruct (Personalizer.py_iter _).
    - by erewrite bind_ok by reflexivity.
    - by erewrite bind_raise by reflexivity. }
  rewrite Hrun.
  pose proof (append_session_grow user_id s a) as Hg1. fold a1 in Hg1.
  assert (Hs1 : Analytics.session_data a1 !! user_id
                = Some (default [] (Analytics.session_data a !! user_id) ++ [s])).
  { unfold a1, Analytics.append_session. cbn. by rewrite lookup_insert_eq. }
  destruct (Personalizer.py_iter (Analytics.topics_covered s)) as [topics|e]; [|done].
  destruct (record_topics_effect user_id session s topics a1) as [Hs Hg].
  split; [by eapply analytics_grow_trans|].
  intros _. exists s. split; [done|]. by rewrite Hs.
Qed.

(** ** Learning analytics: the metrics after a first session *)

Section FirstSession.
Import Analytics.








End FirstSession.



(** ** Learning analytics: the improvement rate *)

(** X26.  For two sessions with naive dates, the line is fitted through
    the accuracy of the earlier session followed by that of the later
    one, in whichever order the two were recorded: both orders give the
    same improvement rate, the percentage that numpy returns for that
    pair. *)
Theorem improvement_rate_two_sessions (polyfit_percent : list Q → Q)
    (s1 s2 : Analytics.SessionAnalytics) (y1 y2 : num) :
  dt_offset (Analytics.date s1) = None → dt_offset (Analytics.date s2) = None →
  dt_us (Analytics.date s1) < dt_us (Analytics.date s2) →
  as_num (Analytics.accuracy s1) = Some y1 →
  as_num (Analytics.accuracy s2) = Some y2 →
  Analytics._calculate_improvement_rate polyfit_percent [s1; s2]
    = Ok (polyfit_percent [num_val y1; num_val y2])
  ∧ Analytics._calculate_improvement_rate polyfit_percent [s2; s1]
    = Ok (polyfit_percent [num_val y1; num_val y2]).
Proof.
  intros Hn1 Hn2 Hlt Hy1 Hy2.
  assert (Hsort : ∀ l, l = [s1; s2] ∨ l = [s2; s1] →
            Analytics.sorted_by_date false l = Ok [s1; s2]).
  { intros l Hl. unfold Analytics.sorted_by_date.
    rewrite comparable_naive; cycle 1.
    { intros s Hs. destruct Hl as [-> | ->];
        repeat (apply elem_of_cons in Hs as [->|Hs]); try done;
        by apply elem_of_nil in Hs. }
    f_equal. unfold Analytics.dt_instant.
    destruct Hl as [-> | ->]; cbn [stable_sort fold_right sort_insert];
      rewrite Hn1, Hn2.
    - destruct (Z.leb_spec (dt_us (Analytics.date s1)) (dt_us (Analytics.date s2)));
        [done|lia].
    - destruct (Z.leb_spec (dt_us (Analytics.date s2)) (dt_us (Analytics.date s1)));
        [lia|done]. }
  assert (Hrate : ∀ l, l = [s1; s2] ∨ l = [s2; s1] →
            Analytics._calculate_improvement_rate polyfit_percent l
            = Ok (polyfit_percent [num_val y1; num_val y2])).
  { intros l Hl. unfold Analytics._calculate_improvement_rate.
    assert ((length l <? 2)%nat = false) as -> by (by destruct Hl as [-> | ->]).
    rewrite (Hsort l Hl). cbn [mbind result_bind fmap list_fmap Scheduler.nums_of].
    rewrite Hy1, Hy2. done. }
  split; apply Hrate; [by left|by right].
Qed.

Lemma improvement_rate_two_sessions_witness :
  Analytics._calculate_improvement_rate (λ y, (nth 1 y 0 - nth 0 y 0) * 100)%Q
      [session_on 1 0 (6 # 10); session_on 0 0 (8 # 10)]
    = Ok (((8 # 10) - (6 # 10)) * 100)%Q
  ∧ Analytics._calculate_improvement_rate (λ y, (nth 1 y 0 - nth 0 y 0) * 100)%Q
      [session_on 0 0 (8 # 10); session_on 1 0 (6 # 10)]
    = Ok (((8 # 10) - (6 # 10)) * 100)%Q.
Proof.
  apply (improvement_rate_two_sessions (λ y, (nth 1 y 0 - nth 0 y 0) * 100)%Q
           (session_on 1 0 (6 # 10)) (session_on 0 0 (8 # 10))
           (NFloat (6 # 10)) (NFloat (8 # 10))); reflexivity.
Defined.
